(** * VolumeMigration: shell safety, host trust, discovery and the
      migration workflow

    A shallow embedding of the Go sources of the volume migrator
    (packages [shell], [ssh], [docker], [utils] and [migrator]) together
    with the properties the design document states about them.

    Go strings are byte sequences; they are modelled by [string] (a list
    of 8-bit [ascii]).  Calls that leave the process (running a remote
    command, touching the file system, talking to the container runtime,
    logging) are modelled as [Call]s answered by an [Oracle] and recorded
    in a [Trace]. *)

From Stdlib Require Import ZArith Lia Ascii String List Bool.
From Stdlib Require Import SpecFloat DecimalString.
From stdpp Require Import base option list gmap strings.

Local Open Scope Z_scope.

(** ** Go's [strings] package (the functions the sources use) *)

Module strings.

(** [strings.HasPrefix(s, prefix)] *)
Definition HasPrefix (s prefix : string) : bool := String.prefix prefix s.

(** [strings.Contains(s, substr)]: [substr] starts at some position of [s]. *)
Fixpoint Contains (s substr : string) : bool :=
  HasPrefix s substr ||
  match s with
  | EmptyString => false
  | String _ t => Contains t substr
  end.

(** The scanning loop of [strings.Replace(s, old, new, -1)] for a
    non-empty [old]: the leftmost occurrence is replaced, the scan
    resumes after it (occurrences never overlap).  [skip] counts the
    bytes of the current occurrence still to be dropped. *)
Fixpoint replaceFrom (old new : string) (skip : nat) (s : string) : string :=
  match s with
  | EmptyString => EmptyString
  | String c t =>
      match skip with
      | S k => replaceFrom old new k t
      | O =>
          if HasPrefix s old
          then new +:+ replaceFrom old new (Nat.pred (String.length old)) t
          else String c (replaceFrom old new 0 t)
      end
  end.

(** [strings.ReplaceAll(s, old, new)], for [old] non-empty (the only use
    in the sources). *)
Definition ReplaceAll (s old new : string) : string := replaceFrom old new 0 s.

End strings.

(** ** Package [shell] (internal/shell/escape.go) *)

Module shell.

Definition rune_between (lo hi r : ascii) : bool :=
  (nat_of_ascii lo <=? nat_of_ascii r)%nat && (nat_of_ascii r <=? nat_of_ascii hi)%nat.

Definition is_alnum (r : ascii) : bool :=
  rune_between "a" "z" r || rune_between "A" "Z" r || rune_between "0" "9" r.

(** The character test of [isSafeString]. *)
Definition safe_rune (r : ascii) : bool :=
  is_alnum r || Ascii.eqb r "-" || Ascii.eqb r "_" || Ascii.eqb r "." || Ascii.eqb r "/".

(** The character test of [ValidateVolumeName]. *)
Definition name_rune (r : ascii) : bool :=
  is_alnum r || Ascii.eqb r "-" || Ascii.eqb r "_" || Ascii.eqb r ".".

Fixpoint all_runes (p : ascii -> bool) (s : string) : bool :=
  match s with
  | EmptyString => true
  | String r t => p r && all_runes p t
  end.

(** [isSafeString]: non-empty, no "..", only safe characters.  A byte
    above 127 never decodes to one of the ASCII runes tested, so the
    range loop over runes is a loop over bytes. *)
Definition isSafeString (s : string) : bool :=
  if String.eqb s "" then false
  else if strings.Contains s ".." then false
  else all_runes safe_rune s.

(** [ShellEscape] *)
Definition ShellEscape (s : string) : string :=
  if isSafeString s then s
  else
    let escaped := strings.ReplaceAll s "'" "'\''" in
    "'" +:+ escaped +:+ "'".

(** [ValidateVolumeName] *)
Definition ValidateVolumeName (name : string) : bool :=
  match name with
  | EmptyString => false
  | String c0 _ =>
      if (255 <? String.length name)%nat then false
      else if Ascii.eqb c0 "-" || Ascii.eqb c0 "." then false
      else if strings.Contains name ".." || strings.Contains name "/"
              || strings.Contains name "\" then false
      else all_runes name_rune name
  end.

(** The loop [for strings.Contains(path, "//") { path = ReplaceAll(path, "//", "/") }].
    Every iteration shortens [path], so [fuel = length path] iterations
    are enough (lemma [collapse_slashes_done]). *)
Fixpoint collapse_slashes (fuel : nat) (path : string) : string :=
  match fuel with
  | O => path
  | S fuel' =>
      if strings.Contains path "//"
      then collapse_slashes fuel' (strings.ReplaceAll path "//" "/")
      else path
  end.

(** [SanitizePathForRemote] *)
Definition SanitizePathForRemote (path : string) : string :=
  let path := strings.ReplaceAll path ".." "" in
  let path := if strings.HasPrefix path "/" then path else "/" +:+ path in
  collapse_slashes (String.length path) path.

End shell.

(** ** A POSIX shell word, as the remote shell reads it

    The remote side of every command is [sh -c].  This is the part of the
    shell grammar (XCU 2.2 Quoting, 2.3 Token Recognition) that a single
    word made of bare characters, backslash escapes and single-quoted
    parts goes through; a word that needs any other construct (expansion,
    an operator, a blank outside quotes, a double quote) is not read as
    one plain token and gives [None]. *)

Module sh.

Inductive quoting := Bare | SingleQuoted.

Definition code (n : nat) : ascii := ascii_of_nat n.

(** Characters that must be quoted to stand for themselves, and those
    that may have to be (pattern, comment, tilde, assignment, brace).
    The hyphen only has a meaning inside a bracket expression, which
    cannot start without an unquoted bracket. *)
Definition special (c : ascii) : bool :=
  existsb (Ascii.eqb c)
    (list_ascii_of_string "|&;<>()$`\' *?[]^!#~=%{},"
     ++ [code 34 (* double quote *); code 9 (* tab *); code 10 (* newline *)]).

Fixpoint word (q : quoting) (s : string) : option string :=
  match s with
  | EmptyString =>
      match q with
      | Bare => Some EmptyString
      | SingleQuoted => None              (* quote never closed *)
      end
  | String c t =>
      match q with
      | SingleQuoted =>
          if Ascii.eqb c "'" then word Bare t
          else String c <$> word SingleQuoted t
      | Bare =>
          if Ascii.eqb c "'" then word SingleQuoted t
          else if Ascii.eqb c "\" then
            match t with
            | EmptyString => None
            | String d t' =>
                if Ascii.eqb d (code 10) then word Bare t'   (* line continuation *)
                else String d <$> word Bare t'
            end
          else if special c then None
          else String c <$> word Bare t
      end
  end.

(** The token a command-line word stands for. *)
Definition token (s : string) : option string :=
  match s with
  | EmptyString => None
  | _ => word Bare s
  end.

End sh.

(** ** Go errors *)

(** An SSH public key as the host-key code sees it: the algorithm name
    ([key.Type()]), the key material in its base64 wire form
    ([key.Marshal()], as written in a known_hosts line) and its SHA-256
    fingerprint. *)
Record PublicKey := {
  key_type : string;
  key_blob : string;
  key_fingerprint : string
}.

(** Go [error] values.  [errorString] is what [errors.New] and a
    [fmt.Errorf] without [%w] build; [wrapError] is a [fmt.Errorf] with one
    [%w] (the message is the whole formatted text, [Unwrap] gives the
    operand back); [pathError] is an [*os.PathError] ([os.IsNotExist] reads
    its second field); [KeyError] is [*knownhosts.KeyError] with its [Want]
    list. *)
Inductive error : Type :=
| errorString (msg : string)
| wrapError (msg : string) (err : error)
| pathError (msg : string) (not_exist : bool)
| KeyError (want : list PublicKey).

(** The [Error()] method. *)
Definition Error (e : error) : string :=
  match e with
  | errorString msg => msg
  | wrapError msg _ => msg
  | pathError msg _ => msg
  | KeyError [] => "knownhosts: key is unknown"
  | KeyError (_ :: _) => "knownhosts: key mismatch"
  end.

(** [errors.Unwrap] *)
Definition Unwrap (e : error) : option error :=
  match e with
  | wrapError _ err => Some err
  | _ => None
  end.

(** [fmt.Errorf(pre + "%w" + post, err)] for a non-nil [err]. *)
Definition Errorf_w (pre : string) (err : error) (post : string) : error :=
  wrapError (pre +:+ Error err +:+ post) err.

(** [fmt.Errorf(pre + "%w", nil)]: with a nil operand the verb prints as a
    bad-verb marker and nothing is wrapped, but the value returned is still
    a non-nil error. *)
Definition Errorf_w_nil (pre : string) : error :=
  errorString (pre +:+ "%!w(<nil>)").

(** [os.IsNotExist] *)
Definition IsNotExist (e : option error) : bool :=
  match e with
  | Some (pathError _ b) => b
  | _ => false
  end.

(** The [err] of a two-valued return. *)
Definition err_of {A} (r : A + error) : option error :=
  match r with inl _ => None | inr e => Some e end.

(** ** Data of the packages *)

(** logrus levels used by the sources. *)
Inductive Level := DebugLevel | InfoLevel | WarnLevel | ErrorLevel.

(** The records of packages [docker] and [ssh], ahead of the calls that
    carry them. *)

Module docker_types.
(** [docker.MountInfo]; its [Name] field is [MountName] here. *)
Record MountInfo := {
  Type_ : string;
  MountName : string;
  Source : string;
  Destination : string
}.
(** [docker.ContainerInfo] *)
Record ContainerInfo := {
  ID : string;
  ContainerName : string;
  Mounts : list MountInfo
}.
(** [docker.VolumeInfo] *)
Record VolumeInfo := {
  Name : string;
  Container : string;
  MountPath : string;
  Size : string;
  SizeBytes : Z;
  Selected : bool
}.
(** [docker.Client]: what its sudo detector found. *)
Record Client := { sudo_required : bool }.
End docker_types.

Module ssh_types.
(** [ssh.ClientConfig] *)
Record ClientConfig := {
  HostString : string;
  CustomKeyPath : string;
  StrictHostKeyChecking : bool;
  AcceptHostKey : bool;
  KnownHostsFile : string
}.
(** [ssh.Client]: the fields the operations read. *)
Record Client := {
  host : string;
  remoteSudo : bool
}.
(** One record of the trust file, as [knownhosts] loads it. *)
Record TrustRecord := {
  hostname : string;
  key : PublicKey
}.
End ssh_types.

(** [utils.DiskSpaceInfo] (uint64 fields) *)
Record DiskSpaceInfo := {
  Total : Z;
  Available : Z;
  Used : Z
}.

(** ** Effects

    Everything that leaves the process is a [Call]; its answer comes from
    an [Oracle] (the behaviour of the remote host, the runtime, the file
    system and the user during this run), which may depend on all that
    happened before.  Each call is appended to the [Trace] with its
    answer. *)

(** What running one command in a fresh SSH session can give
    ([client.NewSession] followed by [session.Run]). *)
Inductive SessionResult :=
| SessionFailed (err : error)
| RunFailed (err : error) (stderr : string)
| RunOk (stdout : string).

(** [os.OpenFile] flag sets used by the sources. *)
Inductive OpenMode := CreateWrite | AppendWrite.

(** The calls.  Those that stand for a whole function of the repository:
    [SSHConnect] is [ssh.NewClient] (authentication, host key check, dial
    and remote sudo detection); [SftpTransfer] is [TransferFile];
    [RemoteDiskSpace] is [utils.GetRemoteDiskSpace] and [Statfs] is
    [utils.GetLocalDiskSpace]; [DockerDetect] is [docker.NewClient];
    [DockerInspect] is the [docker inspect] of [InspectContainer] with the
    decoding of its output; [DockerVolumeSize] is [GetVolumeSize];
    [DockerRun] is [ExecCommandWithOutput] (standard error text and
    error); [KnownHostsLoad] is the reading of the trust file by
    [knownhosts.New]; [UISelectVolumes] and [UIDisplayVolumeTable] are
    the functions of package [ui]. *)
Inductive Call : Type -> Type :=
(* the remote host, through the SSH connection *)
| SSHConnect (cfg : ssh_types.ClientConfig) : Call (ssh_types.Client + error)
| SSHClose : Call (option error)
| SessionRun (cmd : string) : Call SessionResult
| SftpTransfer (localPath remotePath : string) (showProgress : bool) : Call (option error)
| RemoteDiskSpace (remotePath : string) : Call (DiskSpaceInfo + error)
(* the local container runtime *)
| DockerDetect : Call (docker_types.Client + error)
| DockerInspect (name : string) : Call (docker_types.ContainerInfo + error)
| DockerVolumeSize (volumeName : string) : Call (string * Z + error)
| DockerRun (sudo : bool) (args : list string) : Call (string * option error)
(* the local operating system; [OsStat] gives the size *)
| OsStat (path : string) : Call (Z + error)
| OsMkdirAll (path : string) (perm : N) : Call (option error)
| OsRemoveAll (path : string) : Call (option error)
| OsOpenFile (path : string) (mode : OpenMode) (perm : N) : Call (option error)
| FileWriteString (path : string) (s : string) : Call (option error)
| FileClose (path : string) : Call (option error)
| Statfs (path : string) : Call (DiskSpaceInfo + error)
| KnownHostsLoad (path : string) : Call (list ssh_types.TrustRecord + error)
(* the user *)
| UISelectVolumes (volumes : list docker_types.VolumeInfo)
    : Call (list docker_types.VolumeInfo + error)
| UIDisplayVolumeTable (volumes : list docker_types.VolumeInfo) : Call unit
(* output *)
| Log (lvl : Level) (msg : string) (err : option error) : Call unit
| Stderr (text : string) : Call unit
| SetVerbose (verbose : bool) : Call unit.

(** A call with the answer it got. *)
Inductive Event : Type :=
| Ev (R : Type) (c : Call R) (r : R).
Arguments Ev {R} c r.

Definition Trace := list Event.

Definition Oracle := forall R : Type, Trace -> Call R -> R.

(** A Go function either returns or panics. *)
Inductive Outcome (A : Type) : Type :=
| Ret (a : A)
| Panic (msg : string).
Arguments Ret {A} a.
Arguments Panic {A} msg.

Definition M (A : Type) : Type := Oracle -> Trace -> Outcome A * Trace.

Definition ret {A} (a : A) : M A := fun _ t => (Ret a, t).

Definition bind {A B} (m : M A) (f : A -> M B) : M B :=
  fun o t =>
    match m o t with
    | (Ret a, t') => f a o t'
    | (Panic p, t') => (Panic p, t')
    end.

Definition call {R} (c : Call R) : M R :=
  fun o t => let r := o R t c in (Ret r, t ++ [Ev c r]).

Definition panic {A} (msg : string) : M A := fun _ t => (Panic msg, t).

(** [defer d] followed by [body]: [d] runs when [body] returns or panics,
    and (having no access to the results) leaves the outcome of [body]
    as it is, unless [d] itself panics. *)
Definition defer {A} (d : M unit) (body : M A) : M A :=
  fun o t =>
    match body o t with
    | (r, t') =>
        match d o t' with
        | (Ret _, t'') => (r, t'')
        | (Panic p, t'') => (Panic p, t'')
        end
    end.

(** The monad structure, with stdpp's notations [x ← m; k] and [m;; k]. *)
#[global] Instance M_ret : MRet M := @ret.
#[global] Instance M_bind : MBind M := fun A B f m => bind m f.

(** [log.Debug(msg)], [log.Info(msg)], ...; [logw] is the
    [log.WithError(err)] form.  Other structured fields are rendering
    only and are left out. *)
Definition log (lvl : Level) (msg : string) : M unit := call (Log lvl msg None).
Definition logw (lvl : Level) (msg : string) (err : error) : M unit :=
  call (Log lvl msg (Some err)).

(** ** Package [ssh]: the client (internal/ssh/client.go) *)

Module ssh.
Export ssh_types.

(** [Client.RunCommand] *)
Definition RunCommand (c : Client) (cmd : string) : M (string + error) :=
  r ← call (SessionRun cmd);
  match r with
  | SessionFailed err => ret (inr (Errorf_w "failed to create session: " err ""))
  | RunFailed err stderr =>
      ret (inr (Errorf_w "command failed: " err (", stderr: " +:+ stderr)))
  | RunOk stdout => ret (inl stdout)
  end.

(** [Client.RunDockerCommand] *)
Definition RunDockerCommand (c : Client) (args : list string) : M (string + error) :=
  let cmd := if remoteSudo c then "sudo docker" else "docker" in
  let cmd := fold_left (fun cmd arg => cmd +:+ " " +:+ arg) args cmd in
  RunCommand c cmd.

(** [Client.CreateDirectory] *)
Definition CreateDirectory (c : Client) (path : string) : M (option error) :=
  let safePath := shell.SanitizePathForRemote path in
  let cmd := "mkdir -p " +:+ shell.ShellEscape safePath in
  r ← RunCommand c cmd;
  match r with
  | inr err =>
      ret (Some (Errorf_w ("failed to create directory " +:+ path +:+ " on remote host: ") err ""))
  | inl _ => ret None
  end.

(** [Client.RemoveFile] *)
Definition RemoveFile (c : Client) (path : string) : M (option error) :=
  let safePath := shell.SanitizePathForRemote path in
  let cmd := "rm -f " +:+ shell.ShellEscape safePath in
  r ← RunCommand c cmd;
  match r with
  | inr err =>
      ret (Some (Errorf_w ("failed to remove file " +:+ path +:+ " on remote host: ") err ""))
  | inl _ => ret None
  end.

(** The deny-list test of [RemoveDirectory]. *)
Definition is_system_directory (safePath : string) : bool :=
  String.eqb safePath "/" || String.eqb safePath "/bin" || String.eqb safePath "/etc" ||
  String.eqb safePath "/usr" || String.eqb safePath "/var" || String.eqb safePath "/home".

(** [Client.RemoveDirectory] *)
Definition RemoveDirectory (c : Client) (path : string) : M (option error) :=
  let safePath := shell.SanitizePathForRemote path in
  if is_system_directory safePath
  then ret (Some (errorString ("refusing to delete system directory: " +:+ safePath)))
  else
    let cmd := "rm -rf " +:+ shell.ShellEscape safePath in
    r ← RunCommand c cmd;
    match r with
    | inr err =>
        ret (Some (Errorf_w ("failed to remove directory " +:+ path +:+ " on remote host: ") err ""))
    | inl _ => ret None
    end.

End ssh.

(** ** Pure library helpers left abstract

    [path/filepath] of the Go library and the byte-count renderer
    [utils.FormatBytes]; their results only appear inside paths and
    messages. *)
Class GoLib := {
  filepath_Dir : string -> string;
  filepath_Base : string -> string;
  filepath_Join : string -> string -> string;
  FormatBytes : Z -> string
}.

Definition newline : string := String (ascii_of_nat 10) EmptyString.

(** ** The [knownhosts] check

    [golang.org/x/crypto/ssh/knownhosts] is a dependency, not part of the
    repository.  This is the check its callback performs on the records
    loaded from the trust file, for plain records (host name, key): the
    first key of each algorithm recorded for the host is "known"; no known
    key: [KeyError] with an empty [Want] (unknown host); the known key of
    the presented algorithm is missing or differs: [KeyError] with the
    known keys (mismatch); otherwise success.  A record is held with the
    address (host:port) it stands for.  The check is reached for keys
    that are not certificates; the whole callback is
    [certchecker.CheckHostKey], further down. *)

Module knownhosts.
Import ssh_types.

Definition keysEqual (a b : PublicKey) : bool := String.eqb (key_blob a) (key_blob b).

Definition same_type (a b : PublicKey) : bool := String.eqb (key_type a) (key_type b).

Fixpoint knownKeys (lines : list TrustRecord) (address : string)
    (known : list PublicKey) : list PublicKey :=
  match lines with
  | [] => known
  | l :: rest =>
      if String.eqb (hostname l) address && negb (existsb (same_type (key l)) known)
      then knownKeys rest address (known ++ [key l])
      else knownKeys rest address known
  end.

Definition check (lines : list TrustRecord) (address : string)
    (remoteKey : PublicKey) : option error :=
  let known := knownKeys lines address [] in
  match known with
  | [] => Some (KeyError [])
  | _ :: _ =>
      match find (same_type remoteKey) known with
      | Some k => if keysEqual k remoteKey then None else Some (KeyError known)
      | None => Some (KeyError known)
      end
  end.

(** [bytealg.IndexByteString]: where the byte first occurs. *)
Fixpoint IndexByte (s : string) (c : ascii) : option nat :=
  match s with
  | EmptyString => None
  | String d t => if Ascii.eqb d c then Some 0%nat else S <$> IndexByte t c
  end.

(** [bytealg.LastIndexByteString]: where the byte last occurs. *)
Fixpoint LastIndexByte (s : string) (c : ascii) : option nat :=
  match s with
  | EmptyString => None
  | String d t =>
      match LastIndexByte t c with
      | Some i => Some (S i)
      | None => if Ascii.eqb d c then Some 0%nat else None
      end
  end.

(** [s[n:]] *)
Fixpoint from (n : nat) (s : string) : string :=
  match n, s with
  | S n', String _ t => from n' t
  | _, _ => s
  end.

(** [net.SplitHostPort]; [None] stands for its [*net.AddrError]s (missing
    port, too many colons, a bracket missing or out of place). *)
Definition SplitHostPort (hostport : string) : option (string * string) :=
  match LastIndexByte hostport ":" with
  | None => None
  | Some i =>
      let port := from (S i) hostport in
      match hostport with
      | String "[" _ =>
          match IndexByte hostport "]" with
          | None => None
          | Some close =>
              if (S close =? String.length hostport)%nat then None
              else if (S close =? i)%nat then
                if is_Some_dec (IndexByte (from 1 hostport) "[") then None
                else if is_Some_dec (IndexByte (from (S close) hostport) "]") then None
                else Some (substring 1 (close - 1) hostport, port)
              else None
          end
      | _ =>
          let host := substring 0 i hostport in
          if is_Some_dec (IndexByte host ":") then None
          else if is_Some_dec (IndexByte hostport "[") then None
          else if is_Some_dec (IndexByte hostport "]") then None
          else Some (host, port)
      end
  end.

(** [knownhosts.Normalize]: the form of an address in the trust file (the
    port is left out when it is 22). *)
Definition Normalize (address : string) : string :=
  let hp := match SplitHostPort address with
            | Some hp => hp
            | None => (address, "22")
            end in
  if negb (String.eqb hp.2 "22") then "[" +:+ hp.1 +:+ "]:" +:+ hp.2
  else if strings.Contains hp.1 ":" && negb (strings.HasPrefix hp.1 "[")
       then "[" +:+ hp.1 +:+ "]"
       else hp.1.

(** [knownhosts.Line([]string{host}, key)]: the normalised address, the
    key's algorithm and the key in base64. *)
Definition Line (host : string) (k : PublicKey) : string :=
  Normalize host +:+ " " +:+ key_type k +:+ " " +:+ key_blob k.

End knownhosts.

(** ** Package [ssh]: host key verification (internal/ssh/hostkey.go) *)

Module hostkey.
Import ssh_types.

Record HostKeyVerifier := {
  knownHostsPath : string;
  strictChecking : bool;
  acceptNewKeys : bool
}.

(** [ssh.HostKeyCallback] (the [remote] address is not used by any
    callback here). *)
Definition HostKeyCallback := string -> PublicKey -> M (option error).


(** [addHostKey] *)
Definition addHostKey (v : HostKeyVerifier) (hostname : string) (key : PublicKey)
    : M (option error) :=
  e ← call (OsOpenFile (knownHostsPath v) AppendWrite 384);
  match e with
  | Some err => ret (Some (Errorf_w "failed to open known_hosts: " err ""))
  | None =>
      defer (call (FileClose (knownHostsPath v));; ret tt)
        (let line := knownhosts.Line hostname key in
         e ← call (FileWriteString (knownHostsPath v) (line +:+ newline));
         match e with
         | Some err => ret (Some (Errorf_w "failed to write to known_hosts: " err ""))
         | None => ret None
         end)
  end.

(** The text of the changed-key error, before the wrapped error. *)
Definition changed_key_message (v : HostKeyVerifier) (hostname : string) : string :=
  "WARNING: REMOTE HOST IDENTIFICATION HAS CHANGED!" +:+ newline +:+
  "IT IS POSSIBLE THAT SOMEONE IS DOING SOMETHING NASTY!" +:+ newline +:+
  "Host key for " +:+ hostname +:+ " has changed." +:+ newline +:+
  "Remove old key from " +:+ knownHostsPath v +:+ " and try again." +:+ newline +:+
  "Or use ssh-keygen -R " +:+ hostname +:+ newline.

(** The function literal returned by [acceptNewKeyCallback]; [callback]
    is the [knownhosts] callback it closes over. *)
Definition acceptNewKey (v : HostKeyVerifier)
    (callback : string -> PublicKey -> option error) : HostKeyCallback :=
  fun hostname key =>
    match callback hostname key with
    | Some err =>
        match err with
        | KeyError (_ :: _) =>
            ret (Some (Errorf_w (changed_key_message v hostname) err ""))
        | _ =>
            call (Stderr ("WARNING: Unknown host " +:+ hostname +:+ newline));;
            call (Stderr ("Fingerprint: " +:+ key_fingerprint key +:+ newline));;
            call (Stderr ("Adding new host key to " +:+ knownHostsPath v +:+ newline));;
            e ← addHostKey v hostname key;
            match e with
            | Some err => ret (Some (Errorf_w "failed to add host key: " err ""))
            | None => ret None
            end
        end
    | None =>
        ret (Some (Errorf_w_nil
                     ("unexpected host key verification error for " +:+ hostname +:+ ": ")))
    end.



End hostkey.

(** ** Package [docker]: volume discovery (internal/docker/volume.go, client.go) *)

Module docker.
Export docker_types.

(** [InspectContainer]: [docker inspect] and the decoding of its JSON
    output are the runtime's side. *)
Definition InspectContainer (c : Client) (name : string) : M (ContainerInfo + error) :=
  call (DockerInspect name).

(** [GetVolumeSize]: [docker system df -v] and the parsing of its table. *)
Definition GetVolumeSize (c : Client) (volumeName : string) : M (string * Z + error) :=
  call (DockerVolumeSize volumeName).

Definition is_named_volume (mount : MountInfo) : bool :=
  String.eqb (Type_ mount) "volume" && negb (String.eqb (MountName mount) "").

(** [ListVolumes] *)
Definition ListVolumes (c : Client) (containerName : string) : M (list string + error) :=
  r ← InspectContainer c containerName;
  match r with
  | inr err => ret (inr err)
  | inl info => ret (inl (MountName <$> List.filter is_named_volume (Mounts info)))
  end.

(** [GetVolumeMountPoints] *)
Definition GetVolumeMountPoints (c : Client) (containerName volumeName : string)
    : M (string + error) :=
  r ← InspectContainer c containerName;
  match r with
  | inr err => ret (inr err)
  | inl info =>
      match find (fun mount => String.eqb (Type_ mount) "volume"
                               && String.eqb (MountName mount) volumeName) (Mounts info) with
      | Some mount => ret (inl (Destination mount))
      | None =>
          ret (inr (errorString ("volume " +:+ volumeName +:+ " not found in container "
                                 +:+ containerName)))
      end
  end.

(** The inner loop of [GetAllVolumesInfo], over the volumes of one
    container. *)
Fixpoint volumes_loop (c : Client) (containerName : string) (volumes : list string)
    (volumeMap : gmap string VolumeInfo) : M (gmap string VolumeInfo) :=
  match volumes with
  | [] => ret volumeMap
  | volumeName :: rest =>
      match volumeMap !! volumeName with
      | Some _ => volumes_loop c containerName rest volumeMap
      | None =>
          r ← GetVolumeMountPoints c containerName volumeName;
          let mountPath := match r with inl p => p | inr _ => "N/A" end in
          r ← GetVolumeSize c volumeName;
          let sz := match r with inl x => x | inr _ => ("Unknown", 0) end in
          volumes_loop c containerName rest
            (<[volumeName := {| Name := volumeName; Container := containerName;
                               MountPath := mountPath; Size := sz.1;
                               SizeBytes := sz.2; Selected := true |}]> volumeMap)
      end
  end.

(** The outer loop of [GetAllVolumesInfo], over the containers. *)
Fixpoint containers_loop (c : Client) (containerNames : list string)
    (volumeMap : gmap string VolumeInfo) : M (gmap string VolumeInfo + error) :=
  match containerNames with
  | [] => ret (inl volumeMap)
  | containerName :: rest =>
      r ← ListVolumes c containerName;
      match r with
      | inr err =>
          ret (inr (Errorf_w ("failed to list volumes for container " +:+ containerName
                              +:+ ": ") err ""))
      | inl volumes =>
          volumeMap ← volumes_loop c containerName volumes volumeMap;
          containers_loop c rest volumeMap
      end
  end.

(** [GetAllVolumesInfo].  Go leaves the order in which a map is ranged
    over unspecified; the model lists the map in the order of
    [map_to_list], and what is proved about the result does not depend
    on the order. *)
Definition GetAllVolumesInfo (c : Client) (containerNames : list string)
    : M (list VolumeInfo + error) :=
  r ← containers_loop c containerNames ∅;
  match r with
  | inr err => ret (inr err)
  | inl volumeMap => ret (inl ((map_to_list volumeMap).*2))
  end.

End docker.

(** ** Package [utils]: disk space (internal/utils/diskspace.go) *)

Module utils.

(** IEEE 754 binary64, through the specification of floating-point
    arithmetic of the standard library (round to nearest, ties to even). *)
Definition prec : Z := 53.
Definition emax : Z := 1024.

Definition min_int64 : Z := - 2 ^ 63.
Definition max_int64 : Z := 2 ^ 63 - 1.

(** [float64(n)] for an integer [n] *)
Definition float64_of_int (n : Z) : spec_float := binary_normalize prec emax n 0 false.

(** The constant [1.10] as a float64: the double nearest to 11/10. *)
Definition buffer : spec_float :=
  SFdiv prec emax (float64_of_int 11) (float64_of_int 10).

(** [int64(f)]: truncation toward zero.  Go leaves the result open when
    the value does not fit; the value amd64 gives is used. *)
Definition int64_of_float64 (f : spec_float) : Z :=
  match f with
  | S754_zero _ => 0
  | S754_finite s m e =>
      let mag := if 0 <=? e then Z.pos m * 2 ^ e else Z.pos m / 2 ^ (- e) in
      let v := if s then - mag else mag in
      if (min_int64 <=? v) && (v <=? max_int64) then v else min_int64
  | _ => min_int64
  end.

(** [CalculateRequiredSpace] *)
Definition CalculateRequiredSpace (volumeSizeBytes : Z) : Z :=
  int64_of_float64 (SFmul prec emax (float64_of_int volumeSizeBytes) buffer).

(** [%d] *)
Definition fmt_d (n : Z) : string := NilZero.string_of_int (Z.to_int n).

(** [ValidateDiskSpace] (arguments are uint64) *)
Definition ValidateDiskSpace `{GoLib} (location : string) (required available : Z)
    : option error :=
  if available <? required
  then Some (errorString
               ("insufficient disk space on " +:+ location +:+ ": required "
                +:+ fmt_d required +:+ " bytes (" +:+ FormatBytes required
                +:+ "), available " +:+ fmt_d available +:+ " bytes ("
                +:+ FormatBytes available +:+ ")"))
  else None.

End utils.

(** ** The callback [knownhosts.New] returns

    [knownhosts.New] does not hand out its check as such: it returns
    [CertChecker.CheckHostKey] of [golang.org/x/crypto/ssh], with the check
    as [HostKeyFallback].  A host key that is a certificate never reaches
    the check; it is refused with errors that are not [KeyError]s. *)

Module certchecker.
Import ssh_types.

(** [strings.HasSuffix] *)
Definition HasSuffix (s suffix : string) : bool :=
  (String.length suffix <=? String.length s)%nat &&
  String.eqb (knownhosts.from (String.length s - String.length suffix) s) suffix.

(** Whether the key is a [*Certificate]: [ssh.ParsePublicKey] builds one
    for the certificate algorithms, and [Certificate.Type] is the name of
    such an algorithm; these are the names ending in
    [-cert-v01@openssh.com] (ssh-ed25519-cert-v01@openssh.com,
    ssh-rsa-cert-v01@openssh.com, ...). *)
Definition is_certificate (k : PublicKey) : bool :=
  HasSuffix (key_type k) "-cert-v01@openssh.com".

(** [ssh.HostCert] ([ssh.UserCert] is 1) *)
Definition HostCert : Z := 2.

(** [CertChecker.CheckHostKey] as [knownhosts.New] sets it up, for a trust
    file without [@cert-authority] lines: [IsHostAuthority] is then false
    for every signing key.  [certType] reads the [CertType] field of a
    certificate. *)
Definition CheckHostKey (certType : PublicKey -> Z) (lines : list TrustRecord)
    (addr : string) (key : PublicKey) : option error :=
  if is_certificate key then
    if negb (certType key =? HostCert)
    then Some (errorString ("ssh: certificate presented as a host key has type "
                            +:+ utils.fmt_d (certType key)))
    else Some (errorString ("ssh: no authorities for hostname: " +:+ addr))
  else knownhosts.check lines addr key.

End certchecker.

(** ** Package [migrator] (internal/migrator) *)

Module migrator.

(** [migrator.Config] *)
Record Config := {
  Containers : list string;
  RemoteHost : string;
  SSHKeyPath : string;
  SSHPort : string;
  TempDir : string;
  RemoteTempDir : string;
  Interactive : bool;
  Verbose : bool;
  DryRun : bool;
  NoCleanup : bool;
  ShowProgress : bool;
  StrictHostKeyChecking : bool;
  AcceptHostKey : bool;
  KnownHostsFile : string;
  Force : bool
}.

Definition invalid_volume_name (volumeName : string) : error :=
  errorString ("invalid volume name '" +:+ volumeName +:+
               "': must contain only alphanumeric characters, dashes, underscores, and dots").

(** *** cleanup.go *)

(** [CleanupLocal] *)
Definition CleanupLocal (tempDir : string) : M (option error) :=
  log DebugLevel "Cleaning up local temporary directory";;
  e ← call (OsRemoveAll tempDir);
  match e with
  | Some err => ret (Some (Errorf_w "failed to clean up local temp directory: " err ""))
  | None => ret None
  end.

(** [CleanupRemote] *)
Definition CleanupRemote (sshClient : ssh_types.Client) (remoteTempDir : string)
    : M (option error) :=
  log DebugLevel "Cleaning up remote temporary directory";;
  e ← ssh.RemoveDirectory sshClient remoteTempDir;
  match e with
  | Some err => ret (Some (Errorf_w "failed to clean up remote temp directory: " err ""))
  | None => ret None
  end.

(** *** export.go *)

(** [ExportVolume].  The size read by the second [os.Stat] goes to a log
    field only; should that call fail, the nil [FileInfo] is
    dereferenced. *)
Definition ExportVolume `{GoLib} (dockerClient : docker_types.Client)
    (volumeName outputPath : string) : M (option error) :=
  if negb (shell.ValidateVolumeName volumeName)
  then ret (Some (invalid_volume_name volumeName))
  else
    log DebugLevel "Exporting volume";;
    let outputDir := filepath_Dir outputPath in
    e ← call (OsMkdirAll outputDir 493);
    match e with
    | Some err => ret (Some (Errorf_w "failed to create output directory: " err ""))
    | None =>
        let args := [ "run"; "--rm";
                      "-v"; volumeName +:+ ":/data:ro";
                      "-v"; outputDir +:+ ":/backup";
                      "alpine";
                      "tar"; "czf"; "/backup/" +:+ filepath_Base outputPath;
                      "-C"; "/data"; "." ] in
        r ← call (DockerRun (docker_types.sudo_required dockerClient) args);
        match r.2 with
        | Some err =>
            ret (Some (Errorf_w ("failed to export volume " +:+ volumeName +:+ ": ")
                                err (", stderr: " +:+ r.1)))
        | None =>
            s ← call (OsStat outputPath);
            if IsNotExist (err_of s)
            then ret (Some (errorString ("archive " +:+ outputPath +:+ " was not created")))
            else
              s ← call (OsStat outputPath);
              match s with
              | inl _ => log DebugLevel "Successfully exported volume";; ret None
              | inr _ => panic "invalid memory address or nil pointer dereference"
              end
        end
    end.

(** The loop of [ExportVolumes]. *)
Fixpoint ExportVolumes_loop `{GoLib} (dockerClient : docker_types.Client)
    (volumes : list string) (outputDir : string) (archivePaths : gmap string string)
    : M (gmap string string + error) :=
  match volumes with
  | [] => ret (inl archivePaths)
  | volumeName :: rest =>
      let archivePath := filepath_Join outputDir (volumeName +:+ ".tar.gz") in
      e ← ExportVolume dockerClient volumeName archivePath;
      match e with
      | Some err =>
          ret (inr (Errorf_w ("failed to export volume " +:+ volumeName +:+ ": ") err ""))
      | None =>
          ExportVolumes_loop dockerClient rest outputDir (<[volumeName := archivePath]> archivePaths)
      end
  end.

(** [ExportVolumes] *)
Definition ExportVolumes `{GoLib} (dockerClient : docker_types.Client)
    (volumes : list string) (outputDir : string) : M (gmap string string + error) :=
  ExportVolumes_loop dockerClient volumes outputDir ∅.

(** *** import.go *)

Definition createCmd (volumeName : string) : string := "volume create " +:+ volumeName.

Definition importCmd `{GoLib} (volumeName archivePath : string) : string :=
  "run --rm -v " +:+ volumeName +:+ ":/data -v " +:+ filepath_Dir archivePath
  +:+ ":/backup alpine tar xzf /backup/" +:+ filepath_Base archivePath +:+ " -C /data".

Definition removeCmd (volumeName : string) : string := "volume rm " +:+ volumeName.

(** [ImportVolume] *)
Definition ImportVolume `{GoLib} (sshClient : ssh_types.Client) (volumeName archivePath : string)
    : M (option error) :=
  if negb (shell.ValidateVolumeName volumeName)
  then ret (Some (invalid_volume_name volumeName))
  else
    log DebugLevel "Importing volume on remote host";;
    r ← ssh.RunDockerCommand sshClient [createCmd volumeName];
    match r with
    | inr err =>
        ret (Some (Errorf_w ("failed to create volume " +:+ volumeName +:+ " on remote: ")
                            err ""))
    | inl _ =>
        log DebugLevel "Created volume on remote";;
        r ← ssh.RunDockerCommand sshClient [importCmd volumeName archivePath];
        match r with
        | inr err =>
            c ← ssh.RunDockerCommand sshClient [removeCmd volumeName];
            match c with
            | inr cleanupErr =>
                logw WarnLevel "Failed to cleanup volume after import failure" cleanupErr
            | inl _ => ret tt
            end;;
            ret (Some (Errorf_w ("failed to import data into volume " +:+ volumeName +:+ ": ")
                                err ""))
        | inl _ =>
            log DebugLevel "Successfully imported volume";;
            ret None
        end
    end.

(** The loop of [ImportVolumes], over the entries of the map. *)
Fixpoint ImportVolumes_loop `{GoLib} (sshClient : ssh_types.Client)
    (entries : list (string * string)) (remoteTempDir : string) : M (option error) :=
  match entries with
  | [] => ret None
  | (volumeName, archivePath) :: rest =>
      let remoteArchivePath := filepath_Join remoteTempDir (filepath_Base archivePath) in
      e ← ImportVolume sshClient volumeName remoteArchivePath;
      match e with
      | Some err =>
          ret (Some (Errorf_w ("failed to import volume " +:+ volumeName +:+ ": ") err ""))
      | None => ImportVolumes_loop sshClient rest remoteTempDir
      end
  end.

(** [ImportVolumes] *)
Definition ImportVolumes `{GoLib} (sshClient : ssh_types.Client)
    (archivePaths : gmap string string) (remoteTempDir : string) : M (option error) :=
  ImportVolumes_loop sshClient (map_to_list archivePaths) remoteTempDir.

(** *** migrator.go *)

(** [discoverVolumes] *)
Definition discoverVolumes (m : Config) (dockerClient : docker_types.Client)
    : M (list docker_types.VolumeInfo + error) :=
  r ← docker.GetAllVolumesInfo dockerClient (Containers m);
  match r with
  | inr err => ret (inr err)
  | inl volumes => log DebugLevel "Volume discovery complete";; ret (inl volumes)
  end.

(** [exportVolumes] *)
Definition exportVolumes `{GoLib} (m : Config) (dockerClient : docker_types.Client)
    (volumeNames : list string) : M (gmap string string + error) :=
  e ← call (OsMkdirAll (TempDir m) 493);
  match e with
  | Some err => ret (inr (Errorf_w "failed to create temp directory: " err ""))
  | None => ExportVolumes dockerClient volumeNames (TempDir m)
  end.

(** The loop of [transferVolumes], over the entries of the map. *)
Fixpoint transfer_loop `{GoLib} (m : Config) (entries : list (string * string))
    : M (option error) :=
  match entries with
  | [] => ret None
  | (volumeName, localPath) :: rest =>
      let remotePath := filepath_Join (RemoteTempDir m) (filepath_Base localPath) in
      log DebugLevel "Transferring volume";;
      e ← call (SftpTransfer localPath remotePath (ShowProgress m));
      match e with
      | Some err =>
          ret (Some (Errorf_w ("failed to transfer volume " +:+ volumeName +:+ ": ") err ""))
      | None => transfer_loop m rest
      end
  end.

(** [transferVolumes] *)
Definition transferVolumes `{GoLib} (m : Config) (sshClient : ssh_types.Client)
    (archivePaths : gmap string string) : M (option error) :=
  e ← ssh.CreateDirectory sshClient (RemoteTempDir m);
  match e with
  | Some err => ret (Some (Errorf_w "failed to create remote temp directory: " err ""))
  | None => transfer_loop m (map_to_list archivePaths)
  end.

(** [importVolumes] *)
Definition importVolumes `{GoLib} (m : Config) (sshClient : ssh_types.Client)
    (archivePaths : gmap string string) : M (option error) :=
  ImportVolumes sshClient archivePaths (RemoteTempDir m).

(** int64 addition wraps around. *)
Definition int64_wrap (z : Z) : Z := (z + 2 ^ 63) mod 2 ^ 64 - 2 ^ 63.

(** [uint64(x)] for an int64 [x] *)
Definition uint64_of_int64 (z : Z) : Z := z mod 2 ^ 64.

(** One side of the disk-space check of [Migrate]: the measurement
    failed (warning when verbose, not fatal) or it is compared with what
    is required. *)
Definition check_space `{GoLib} (m : Config) (location : string)
    (measured : DiskSpaceInfo + error) (estimatedArchiveSize : Z)
    (warning debug : string) : M (option error) :=
  match measured with
  | inr err =>
      (if Verbose m then logw WarnLevel warning err else ret tt);;
      ret None
  | inl space =>
      log DebugLevel debug;;
      match utils.ValidateDiskSpace location (uint64_of_int64 estimatedArchiveSize)
              (Available space) with
      | Some err => ret (Some (Errorf_w "" err " (use --force to override)"))
      | None => ret None
      end
  end.

(** [Migrate], "Phase 4.5: Disk space validation" when not forced. *)
Definition validate_disk_space `{GoLib} (m : Config) (volumes : list docker_types.VolumeInfo)
    : M (option error) :=
  log DebugLevel "Validating disk space requirements";;
  let totalVolumeSize :=
    fold_left (fun total v => int64_wrap (total + docker_types.SizeBytes v)) volumes 0 in
  let estimatedArchiveSize := utils.CalculateRequiredSpace totalVolumeSize in
  log DebugLevel "Calculated space requirements";;
  localSpace ← call (Statfs (TempDir m));
  e ← check_space m "local" localSpace estimatedArchiveSize
        "Could not check local disk space" "Local disk space check";
  match e with
  | Some err => ret (Some err)
  | None =>
      remoteSpace ← call (RemoteDiskSpace (RemoteTempDir m));
      e ← check_space m "remote" remoteSpace estimatedArchiveSize
            "Could not check remote disk space" "Remote disk space check";
      match e with
      | Some err => ret (Some err)
      | None => log DebugLevel "Disk space validation passed";; ret None
      end
  end.

(** Where [Migrate] stands once the export phase is over: it has
    returned, or the archives are on disk. *)
Inductive Progress :=
| Returned (result : option error)
| Exported (volumeNames : list string) (archivePaths : gmap string string).

(** [Migrate] from "Phase 2: Volume Discovery" to the end of
    "Phase 3: Export Volumes". *)
Definition Migrate_until_exported `{GoLib} (m : Config)
    (dockerClient : docker_types.Client) (sshClient : ssh_types.Client) : M Progress :=
  log InfoLevel "=== Phase 2: Volume Discovery ===";;
  r ← discoverVolumes m dockerClient;
  match r with
  | inr err => ret (Returned (Some (Errorf_w "failed to discover volumes: " err "")))
  | inl volumes =>
      if (length volumes =? 0)%nat
      then log WarnLevel "No volumes found to migrate";; ret (Returned None)
      else
        r ← (if Interactive m then
               log InfoLevel "=== Phase 2.5: Volume Selection ===";;
               r ← call (UISelectVolumes volumes);
               match r with
               | inr err => ret (inr (Errorf_w "volume selection failed: " err ""))
               | inl selectedVolumes => ret (inl selectedVolumes)
               end
             else call (UIDisplayVolumeTable volumes);; ret (inl volumes));
        match r with
        | inr err => ret (Returned (Some err))
        | inl volumes =>
            e ← (if negb (Force m) then validate_disk_space m volumes
                 else log WarnLevel "Skipping disk space validation (--force enabled)";;
                      ret None);
            match e with
            | Some err => ret (Returned (Some err))
            | None =>
                if DryRun m
                then log InfoLevel "Dry run mode: No actual migration will be performed";;
                     ret (Returned None)
                else
                  let volumeNames := docker_types.Name <$> volumes in
                  log InfoLevel "=== Phase 3: Export Volumes ===";;
                  r ← exportVolumes m dockerClient volumeNames;
                  match r with
                  | inr err =>
                      ret (Returned (Some (Errorf_w "failed to export volumes: " err "")))
                  | inl archivePaths => ret (Exported volumeNames archivePaths)
                  end
            end
        end
  end.

(** The deferred function literal of [Migrate] ("Phase 6: Cleanup"). *)
Definition cleanup_on_exit (m : Config) (sshClient : ssh_types.Client) : M unit :=
  log DebugLevel "=== Phase 6: Cleanup ===";;
  e ← CleanupLocal (TempDir m);
  match e with
  | Some err => logw ErrorLevel "Failed to cleanup local temporary directory" err
  | None => ret tt
  end;;
  e ← CleanupRemote sshClient (RemoteTempDir m);
  match e with
  | Some err => logw ErrorLevel "Failed to cleanup remote temporary directory" err
  | None => ret tt
  end.

(** [Migrate], "Phase 4: Transfer Archives" and "Phase 5: Import Volumes". *)
Definition transfer_and_import `{GoLib} (m : Config) (sshClient : ssh_types.Client)
    (archivePaths : gmap string string) : M (option error) :=
  log DebugLevel "=== Phase 4: Transfer Archives ===";;
  e ← transferVolumes m sshClient archivePaths;
  match e with
  | Some err => ret (Some (Errorf_w "failed to transfer volumes: " err ""))
  | None =>
      log DebugLevel "=== Phase 5: Import Volumes ===";;
      e ← importVolumes m sshClient archivePaths;
      match e with
      | Some err => ret (Some (Errorf_w "failed to import volumes: " err ""))
      | None => log InfoLevel "Migration completed successfully";; ret None
      end
  end.

(** [Migrate] after a successful export: the cleanup is registered with
    [defer] (unless disabled), then transfer and import run. *)
Definition Migrate_after_export `{GoLib} (m : Config) (sshClient : ssh_types.Client)
    (archivePaths : gmap string string) : M (option error) :=
  if negb (NoCleanup m)
  then defer (cleanup_on_exit m sshClient) (transfer_and_import m sshClient archivePaths)
  else transfer_and_import m sshClient archivePaths.

Definition sshConfig (m : Config) : ssh_types.ClientConfig :=
  {| ssh_types.HostString := RemoteHost m;
     ssh_types.CustomKeyPath := SSHKeyPath m;
     ssh_types.StrictHostKeyChecking := StrictHostKeyChecking m;
     ssh_types.AcceptHostKey := AcceptHostKey m;
     ssh_types.KnownHostsFile := KnownHostsFile m |}.

(** [Migrate] *)
Definition Migrate `{GoLib} (m : Config) : M (option error) :=
  call (SetVerbose (Verbose m));;
  log InfoLevel "=== Phase 1: Initialization ===";;
  r ← call DockerDetect;
  match r with
  | inr err => ret (Some (Errorf_w "failed to initialize Docker client: " err ""))
  | inl dockerClient =>
      log DebugLevel "Local Docker sudo detection complete";;
      log InfoLevel "Connecting to remote host";;
      r ← call (SSHConnect (sshConfig m));
      match r with
      | inr err => ret (Some (Errorf_w "failed to connect to remote host: " err ""))
      | inl sshClient =>
          defer (call SSHClose;; ret tt)
            (log DebugLevel "Remote Docker sudo detection complete";;
             p ← Migrate_until_exported m dockerClient sshClient;
             match p with
             | Returned result => ret result
             | Exported _ archivePaths => Migrate_after_export m sshClient archivePaths
             end)
      end
  end.

End migrator.

(** ** Package [ssh]: the rest of the client (internal/ssh/client.go, auth.go) *)

Module sshclient.
Import ssh_types.

(** [Client.detectRemoteSudo]: the client with its [remoteSudo] field as
    the function leaves it, and the error. *)
Definition detectRemoteSudo (c : Client) : M (Client * option error) :=
  r ← ssh.RunCommand c "docker ps";
  match r with
  | inl _ => ret ({| host := host c; remoteSudo := false |}, None)
  | inr _ =>
      r ← ssh.RunCommand c "sudo -n docker ps";
      match r with
      | inr _ => ret (c, Some (errorString "docker not accessible on remote host"))
      | inl _ => ret ({| host := host c; remoteSudo := true |}, None)
      end
  end.

(** The loop of [findAt] and [findColon]: the index of the first byte
    equal to [c], counted from [i], or -1.  (The loops range over runes;
    a rune that is '@' or ':' is one byte, and no byte of a longer or
    broken sequence is one of them.) *)
Fixpoint find_from (c : ascii) (s : string) (i : Z) : Z :=
  match s with
  | EmptyString => -1
  | String d t => if Ascii.eqb d c then i else find_from c t (i + 1)
  end.

(** [findAt] *)
Definition findAt (s : string) : Z := find_from "@" s 0.

(** [findColon] *)
Definition findColon (s : string) : Z := find_from ":" s 0.

(** [s[:n]] and [s[n:]], for [0 <= n <= len(s)] *)
Definition upto (n : Z) (s : string) : string := substring 0 (Z.to_nat n) s.
Definition from (n : Z) (s : string) : string := knownhosts.from (Z.to_nat n) s.

(** [parseHostPort]; [getenv] is [os.Getenv].  The four results are
    named in the source and are returned as they stand, also with an
    error. *)
Definition parseHostPort (getenv : string -> string) (hostStr : string)
    : string * string * string * option error :=
  let port := "22" in
  let at_ := findAt hostStr in
  let user :=
    if negb (at_ =? -1) then upto at_ hostStr
    else
      let user := getenv "USER" in
      if String.eqb user "" then getenv "USERNAME" else user in
  let hostStr := if negb (at_ =? -1) then from (at_ + 1) hostStr else hostStr in
  let colon := findColon hostStr in
  let host := if negb (colon =? -1) then upto colon hostStr else hostStr in
  let port := if negb (colon =? -1) then from (colon + 1) hostStr else port in
  if String.eqb user "" then
    (user, host, port, Some (errorString "could not determine username"))
  else if String.eqb host "" then
    (user, host, port, Some (errorString "host cannot be empty"))
  else (user, host, port, None).

End sshclient.

(** ** Package [ui] (internal/ui/selector.go) *)

Module ui.

(** [truncate]; a slice bound below zero panics. *)
Definition truncate (s : string) (maxLen : Z) : Outcome string :=
  if Z.of_nat (String.length s) <=? maxLen then Ret s
  else if maxLen <=? 3 then
    if maxLen <? 0 then Panic "slice bounds out of range"
    else Ret (sshclient.upto maxLen s)
  else Ret (sshclient.upto (maxLen - 3) s +:+ "...").

End ui.

(** ** Package [migrator]: checking the configuration (internal/migrator/migrator.go) *)

Module validate.
Import migrator.

Definition bytes (codes : list nat) : string := string_of_list_ascii (ascii_of_nat <$> codes).

(** The UTF-8 encodings of the runes for which [unicode.IsSpace] holds:
    U+0009 to U+000D, U+0020, U+0085, U+00A0, U+1680, U+2000 to U+200A,
    U+2028, U+2029, U+202F, U+205F, U+3000. *)
Definition space_encodings : list string :=
  bytes <$> [ [9]; [10]; [11]; [12]; [13]; [32]; [194; 133]; [194; 160]; [225; 154; 128];
              [226; 128; 128]; [226; 128; 129]; [226; 128; 130]; [226; 128; 131];
              [226; 128; 132]; [226; 128; 133]; [226; 128; 134]; [226; 128; 135];
              [226; 128; 136]; [226; 128; 137]; [226; 128; 138];
              [226; 128; 168]; [226; 128; 169]; [226; 128; 175]; [226; 129; 159];
              [227; 128; 128] ]%nat.

(** The string after its first rune, when that rune is white space. *)
Definition space_prefix (s : string) : option string :=
  (fun e => knownhosts.from (String.length e) s) <$> find (strings.HasPrefix s) space_encodings.

(** [strings.TrimSpace(s) == ""]: the string is made of white space
    only.  Each step takes at least one byte, so [fuel = len(s)] steps
    are enough. *)
Fixpoint blank_loop (fuel : nat) (s : string) : bool :=
  match s with
  | EmptyString => true
  | _ =>
      match fuel with
      | O => false
      | S fuel' =>
          match space_prefix s with
          | Some rest => blank_loop fuel' rest
          | None => false
          end
      end
  end.

Definition blank (s : string) : bool := blank_loop (String.length s) s.

(** [strings.Split(s, sep)] for a separator of one byte. *)
Fixpoint Split (s : string) (sep : ascii) : list string :=
  match s with
  | EmptyString => [EmptyString]
  | String c t =>
      if Ascii.eqb c sep then EmptyString :: Split t sep
      else match Split t sep with
           | part :: parts => String c part :: parts
           | [] => [String c EmptyString]
           end
  end.

Definition digit (c : ascii) : option Z :=
  let n := nat_of_ascii c in
  if (48 <=? n)%nat && (n <=? 57)%nat then Some (Z.of_nat n - 48) else None.

Fixpoint digits (s : string) (acc : Z) : option Z :=
  match s with
  | EmptyString => Some acc
  | String c t =>
      match digit c with
      | Some d => digits t (acc * 10 + d)
      | None => None
      end
  end.

(** [strconv.Atoi] on a 64-bit platform; [None] stands for its errors
    (syntax, range). *)
Definition Atoi (s : string) : option Z :=
  match s with
  | EmptyString => None
  | String c t =>
      let neg := Ascii.eqb c "-" in
      let body := if Ascii.eqb c "-" || Ascii.eqb c "+" then t else s in
      match body with
      | EmptyString => None
      | _ =>
          match digits body 0 with
          | Some n =>
              let v := if neg then - n else n in
              if (utils.min_int64 <=? v) && (v <=? utils.max_int64) then Some v else None
          | None => None
          end
      end
  end.

(** [filepath.IsAbs] on Unix *)
Definition IsAbs (path : string) : bool := strings.HasPrefix path "/".

(** The loop over the container names: the index of the first name that
    is empty once trimmed. *)
Fixpoint first_blank (containers : list string) (i : Z) : option Z :=
  match containers with
  | [] => None
  | container :: rest => if blank container then Some i else first_blank rest (i + 1)
  end.

(** "Validate SSH port if specified" *)
Definition check_port (config : Config) : option error :=
  if negb (String.eqb (SSHPort config) "") then
    match Atoi (SSHPort config) with
    | None =>
        Some (errorString ("invalid SSH port '" +:+ SSHPort config +:+ "': must be a number"))
    | Some port =>
        if (port <? 1) || (65535 <? port)
        then Some (errorString ("invalid SSH port " +:+ utils.fmt_d port
                                +:+ ": must be between 1 and 65535"))
        else None
    end
  else None.

(** The checks on the temporary directories and on the two host-key
    flags. *)
Definition check_flags (config : Config) : option error :=
  if negb (String.eqb (TempDir config) "") && negb (IsAbs (TempDir config)) then
    Some (errorString ("temp directory must be an absolute path: " +:+ TempDir config))
  else if negb (String.eqb (RemoteTempDir config) "") && negb (IsAbs (RemoteTempDir config)) then
    Some (errorString ("remote temp directory must be an absolute path: "
                       +:+ RemoteTempDir config))
  else if StrictHostKeyChecking config && AcceptHostKey config then
    Some (errorString ("conflicting flags: --strict-host-key-checking and "
                       +:+ "--accept-host-key cannot both be enabled"))
  else None.

(** The two checks that look at the file system. *)
Definition check_files (config : Config) : M (option error) :=
  e ← (if negb (String.eqb (SSHKeyPath config) "") then
         s ← call (OsStat (SSHKeyPath config));
         if IsNotExist (err_of s)
         then ret (Some (errorString ("SSH key file does not exist: " +:+ SSHKeyPath config)))
         else ret None
       else ret None);
  match e with
  | Some err => ret (Some err)
  | None =>
      if negb (String.eqb (KnownHostsFile config) "") && StrictHostKeyChecking config then
        s ← call (OsStat (KnownHostsFile config));
        if IsNotExist (err_of s)
        then ret (Some (errorString ("known_hosts file does not exist: "
                                     +:+ KnownHostsFile config
                                     +:+ " (use --accept-host-key to create it)")))
        else ret None
      else ret None
  end.

(** [ValidateConfig] *)
Definition ValidateConfig (config : Config) : M (option error) :=
  if (length (Containers config) =? 0)%nat then
    ret (Some (errorString "no containers specified"))
  else
    match first_blank (Containers config) 0 with
    | Some i => ret (Some (errorString ("container at index " +:+ utils.fmt_d i +:+ " is empty")))
    | None =>
        if String.eqb (RemoteHost config) "" then
          ret (Some (errorString "remote host not specified"))
        else if negb (strings.Contains (RemoteHost config) "@") then
          ret (Some (errorString
                       ("remote host must be in format 'user@host' or 'user@host:port', got: "
                        +:+ RemoteHost config)))
        else
          match Split (RemoteHost config) "@" with
          | [user; hostPart] =>
              if blank user then
                ret (Some (errorString ("username cannot be empty in remote host: "
                                        +:+ RemoteHost config)))
              else if blank hostPart then
                ret (Some (errorString ("host cannot be empty in remote host: "
                                        +:+ RemoteHost config)))
              else
                match check_port config with
                | Some err => ret (Some err)
                | None =>
                    match check_flags config with
                    | Some err => ret (Some err)
                    | None => check_files config
                    end
                end
          | _ => ret (Some (errorString ("invalid remote host format: " +:+ RemoteHost config)))
          end
    end.

End validate.

(** ** Vocabulary of the properties *)

(** The six paths [RemoveDirectory] refuses. *)
Definition system_directories : list string :=
  ["/"; "/bin"; "/etc"; "/usr"; "/var"; "/home"].

(** The error [RunCommand] makes of what a session gave. *)
Definition session_error (r : SessionResult) : option error :=
  match r with
  | SessionFailed err => Some (Errorf_w "failed to create session: " err "")
  | RunFailed err stderr => Some (Errorf_w "command failed: " err (", stderr: " +:+ stderr))
  | RunOk _ => None
  end.

(** The command line [RunDockerCommand] sends for one argument string. *)
Definition docker_command (c : ssh_types.Client) (arg : string) : string :=
  (if ssh_types.remoteSudo c then "sudo docker" else "docker") +:+ " " +:+ arg.

(** The named volumes a container lists, given what inspecting it
    returns. *)
Definition listed (inspect : string -> docker_types.ContainerInfo + error)
    (containerName : string) : list string :=
  match inspect containerName with
  | inl info => docker_types.MountName <$> List.filter docker.is_named_volume (docker_types.Mounts info)
  | inr _ => []
  end.

(** The first container, in list order, that lists the volume. *)
Definition first_referencing (inspect : string -> docker_types.ContainerInfo + error)
    (containerNames : list string) (volumeName : string) : option string :=
  find (fun containerName => bool_decide (volumeName ∈ listed inspect containerName))
       containerNames.

(** Calls that belong to the cleanup step of [Migrate]. *)
Definition is_cleanup (e : Event) : bool :=
  match e with
  | Ev (OsRemoveAll _) _ => true
  | Ev (SessionRun cmd) _ => strings.HasPrefix cmd "rm -rf "
  | Ev (Log _ msg _) _ =>
      String.eqb msg "=== Phase 6: Cleanup ===" ||
      String.eqb msg "Cleaning up local temporary directory" ||
      String.eqb msg "Cleaning up remote temporary directory"
  | _ => false
  end.

(** Code that makes no call of the cleanup step, whatever the
    environment answers. *)
Definition cleanup_free {A} (m : M A) : Prop :=
  forall (o : Oracle) (t : Trace),
    exists es, snd (m o t) = t ++ es /\ existsb is_cleanup es = false.




(** The arguments of the export container for a volume and its archive. *)
Definition export_args `{GoLib} (volumeName archivePath : string) : list string :=
  [ "run"; "--rm"; "-v"; volumeName +:+ ":/data:ro";
    "-v"; filepath_Dir archivePath +:+ ":/backup"; "alpine";
    "tar"; "czf"; "/backup/" +:+ filepath_Base archivePath; "-C"; "/data"; "." ].

(** What a successful export of a volume leaves among the events: the
    name is a valid one, the export container has run without error, the
    archive has been seen. *)
Definition exported `{GoLib} (dockerClient : docker_types.Client)
    (archivePath volumeName : string) (es : Trace) : Prop :=
  shell.ValidateVolumeName volumeName = true /\
  exists stderr size,
    In (Ev (DockerRun (docker_types.sudo_required dockerClient)
              (export_args volumeName archivePath)) (stderr, None)) es /\
    In (Ev (OsStat archivePath) (inl size)) es.

(** The remote command lines of [ImportVolume]. *)
Definition remote_docker (c : ssh_types.Client) : string :=
  if ssh_types.remoteSudo c then "sudo docker" else "docker".

Definition create_command (c : ssh_types.Client) (volumeName : string) : string :=
  remote_docker c +:+ " volume create " +:+ volumeName.

Definition populate_command `{GoLib} (c : ssh_types.Client) (volumeName archivePath : string)
    : string :=
  remote_docker c +:+ " run --rm -v " +:+ volumeName +:+ ":/data -v "
  +:+ filepath_Dir archivePath +:+ ":/backup alpine tar xzf /backup/"
  +:+ filepath_Base archivePath +:+ " -C /data".

(** What a successful import of a volume leaves among the events: the
    name is a valid one, and the volume has been created and populated
    on the remote host, both commands succeeding. *)
Definition imported `{GoLib} (c : ssh_types.Client) (volumeName archivePath : string)
    (es : Trace) : Prop :=
  shell.ValidateVolumeName volumeName = true /\
  exists out1 out2,
    In (Ev (SessionRun (create_command c volumeName)) (RunOk out1)) es /\
    In (Ev (SessionRun (populate_command c volumeName archivePath)) (RunOk out2)) es.

(** Code that makes no call for which [p] holds, whatever the
    environment answers. *)
Definition avoids (p : Event -> bool) {A} (m : M A) : Prop :=
  forall (o : Oracle) (t : Trace),
    exists es, snd (m o t) = t ++ es /\ existsb p es = false.

(** Closing the connection; a connection that was set up. *)
Definition is_close (e : Event) : bool :=
  match e with
  | Ev SSHClose _ => true
  | _ => false
  end.

Definition is_connected (e : Event) : bool :=
  match e with
  | Ev c r =>
      match c in Call R return R -> bool with
      | SSHConnect _ => fun r => match r with inl _ => true | inr _ => false end
      | _ => fun _ => false
      end r
  end.


(** The free space a call has measured, when it is a successful
    measurement ([utils.GetLocalDiskSpace], [utils.GetRemoteDiskSpace]). *)
Definition measurement (e : Event) : option DiskSpaceInfo :=
  match e with
  | Ev c r =>
      match c in Call R return R -> option DiskSpaceInfo with
      | Statfs _ => fun r => match r with inl space => Some space | inr _ => None end
      | RemoteDiskSpace _ => fun r => match r with inl space => Some space | inr _ => None end
      | _ => fun _ => None
      end r
  end.

Definition measurements (es : Trace) : list DiskSpaceInfo := omap measurement es.

(** What [Migrate] takes as the space the archives need. *)
Definition required_space (volumes : list docker_types.VolumeInfo) : Z :=
  migrator.uint64_of_int64
    (utils.CalculateRequiredSpace
       (fold_left (fun total v => migrator.int64_wrap (total + docker_types.SizeBytes v))
                  volumes 0)).

(** The conditions [ValidateConfig] checks without looking at the file
    system. *)
Definition well_formed (config : migrator.Config) : Prop :=
  migrator.Containers config <> [] /\
  (forall container, In container (migrator.Containers config) ->
                     validate.blank container = false) /\
  (exists user hostPart,
     migrator.RemoteHost config = user +:+ "@" +:+ hostPart /\
     strings.Contains user "@" = false /\ strings.Contains hostPart "@" = false /\
     validate.blank user = false /\ validate.blank hostPart = false) /\
  (migrator.SSHPort config = "" \/
   exists port, validate.Atoi (migrator.SSHPort config) = Some port /\ 1 <= port <= 65535) /\
  (migrator.TempDir config = "" \/ strings.HasPrefix (migrator.TempDir config) "/" = true) /\
  (migrator.RemoteTempDir config = "" \/
   strings.HasPrefix (migrator.RemoteTempDir config) "/" = true) /\
  (migrator.StrictHostKeyChecking config && migrator.AcceptHostKey config = false).

(** ** Concrete environments *)

Module scenario.
Import ssh_types docker_types.

Fixpoint base_of (s : string) : string :=
  match s with
  | EmptyString => EmptyString
  | String c t =>
      if strings.Contains t "/" then base_of t
      else if Ascii.eqb c "/" then t else s
  end.

Fixpoint dir_of (s : string) : string :=
  match s with
  | EmptyString => EmptyString
  | String c t => if strings.Contains t "/" then String c (dir_of t) else EmptyString
  end.

(** Paths of the form dir/base, joined with a slash. *)
Definition lib : GoLib :=
  {| filepath_Dir := dir_of;
     filepath_Base := base_of;
     filepath_Join := fun dir name => dir +:+ "/" +:+ name;
     FormatBytes := fun n => utils.fmt_d n +:+ " B" |}.

Definition client : ssh_types.Client :=
  {| host := "backup.example.com:22"; remoteSudo := false |}.

(** Every call succeeds; there are no containers' mounts, no known hosts. *)
Definition quiet : Oracle :=
  fun R _ c =>
    match c in Call R return R with
    | SSHConnect _ => inl client
    | SSHClose => None
    | SessionRun _ => RunOk ""
    | SftpTransfer _ _ _ => None
    | RemoteDiskSpace _ => inl {| Total := 2 ^ 40; Available := 2 ^ 39; Used := 2 ^ 39 |}
    | DockerDetect => inl {| sudo_required := false |}
    | DockerInspect name => inl {| ID := name; ContainerName := name; Mounts := [] |}
    | DockerVolumeSize _ => inl ("1MB", 1048576)
    | DockerRun _ _ => ("", None)
    | OsStat _ => inl 4096
    | OsMkdirAll _ _ => None
    | OsRemoveAll _ => None
    | OsOpenFile _ _ _ => None
    | FileWriteString _ _ => None
    | FileClose _ => None
    | Statfs _ => inl {| Total := 2 ^ 40; Available := 2 ^ 39; Used := 2 ^ 39 |}
    | KnownHostsLoad _ => inl []
    | UISelectVolumes volumes => inl volumes
    | UIDisplayVolumeTable _ => tt
    | Log _ _ _ => tt
    | Stderr _ => tt
    | SetVerbose _ => tt
    end.

Definition shared_at (destination : string) : MountInfo :=
  {| Type_ := "volume"; MountName := "shared";
     Source := "/var/lib/docker/volumes/shared/_data"; Destination := destination |}.

(** Containers [web] and [worker] both mount the volume [shared]. *)
Definition inspect (name : string) : ContainerInfo + error :=
  if String.eqb name "web"
  then inl {| ID := "1f0e"; ContainerName := "web"; Mounts := [shared_at "/data"] |}
  else if String.eqb name "worker"
  then inl {| ID := "2a9c"; ContainerName := "worker"; Mounts := [shared_at "/srv"] |}
  else inr (errorString "container not found").

Definition web_worker : Oracle :=
  fun R t c =>
    match c in Call R return R with
    | DockerInspect name => inspect name
    | c' => quiet _ t c'
    end.


(** On the remote host, populating a volume fails, and so does removing
    the volume afterwards. *)
Definition import_fails : Oracle :=
  fun R t c =>
    match c in Call R return R with
    | SessionRun cmd =>
        if strings.HasPrefix cmd "docker run"
        then RunFailed (errorString "Process exited with status 1") "tar: short read"
        else if strings.HasPrefix cmd "docker volume rm"
        then RunFailed (errorString "Process exited with status 1") "volume is in use"
        else RunOk ""
    | c' => web_worker _ t c'
    end.

Definition config : migrator.Config :=
  {| migrator.Containers := ["web"; "worker"];
     migrator.RemoteHost := "ops@backup.example.com";
     migrator.SSHKeyPath := "";
     migrator.SSHPort := "";
     migrator.TempDir := "/tmp/volume-migration-1";
     migrator.RemoteTempDir := "/tmp/volume-migration-1";
     migrator.Interactive := false;
     migrator.Verbose := false;
     migrator.DryRun := false;
     migrator.NoCleanup := false;
     migrator.ShowProgress := false;
     migrator.StrictHostKeyChecking := false;
     migrator.AcceptHostKey := true;
     migrator.KnownHostsFile := "";
     migrator.Force := false |}.


Definition key1 : PublicKey :=
  {| key_type := "ssh-ed25519";
     key_blob := "AAAAC3NzaC1lZDI1NTE5AAAAIKeyOne";
     key_fingerprint := "SHA256:one" |}.

Definition key2 : PublicKey :=
  {| key_type := "ssh-ed25519";
     key_blob := "AAAAC3NzaC1lZDI1NTE5AAAAIKeyTwo";
     key_fingerprint := "SHA256:two" |}.

Definition known_hosts : list TrustRecord :=
  [ {| hostname := "backup.example.com:22"; key := key1 |} ].

(** A host certificate for some other key, signed by a key of no
    recorded authority. *)
Definition certificate : PublicKey :=
  {| key_type := "ssh-ed25519-cert-v01@openssh.com";
     key_blob := "AAAAIHNzaC1lZDI1NTE5LWNlcnQtdjAxQG9wZW5zc2guY29tAAAAIKeyCert";
     key_fingerprint := "SHA256:cert" |}.

Definition verifier : hostkey.HostKeyVerifier :=
  {| hostkey.knownHostsPath := "/home/ops/.ssh/known_hosts";
     hostkey.strictChecking := false;
     hostkey.acceptNewKeys := true |}.

Definition docker_client : docker_types.Client := {| sudo_required := false |}.


Definition archives : gmap string string :=
  {[ "shared" := "/tmp/volume-migration-1/shared.tar.gz" ]}.


Definition import_failure_run : Outcome (option error) * Trace :=
  migrator.Migrate (H := lib) config import_fails [].


(** The error [RunCommand] reports when populating fails in
    [import_fails]. *)
Definition population_error : error :=
  Errorf_w "command failed: " (errorString "Process exited with status 1")
           ", stderr: tar: short read".

Definition strict_verifier : hostkey.HostKeyVerifier :=
  {| hostkey.knownHostsPath := "/home/ops/.ssh/known_hosts";
     hostkey.strictChecking := true;
     hostkey.acceptNewKeys := true |}.


(** As [config], with cleanup disabled. *)
Definition no_cleanup_config : migrator.Config :=
  {| migrator.Containers := ["web"; "worker"];
     migrator.RemoteHost := "ops@backup.example.com";
     migrator.SSHKeyPath := "";
     migrator.SSHPort := "";
     migrator.TempDir := "/tmp/volume-migration-1";
     migrator.RemoteTempDir := "/tmp/volume-migration-1";
     migrator.Interactive := false;
     migrator.Verbose := false;
     migrator.DryRun := false;
     migrator.NoCleanup := true;
     migrator.ShowProgress := false;
     migrator.StrictHostKeyChecking := false;
     migrator.AcceptHostKey := true;
     migrator.KnownHostsFile := "";
     migrator.Force := false |}.

(** The stat of the archive fails, for a reason other than its absence. *)
Definition stat_denied : Oracle :=
  fun R t c =>
    match c in Call R return R with
    | OsStat _ => inr (pathError "stat: permission denied" false)
    | c' => quiet _ t c'
    end.

(** The remote host refuses to create volumes. *)
Definition create_fails : Oracle :=
  fun R t c =>
    match c in Call R return R with
    | SessionRun cmd =>
        if strings.HasPrefix cmd "docker volume create"
        then RunFailed (errorString "Process exited with status 1") "permission denied"
        else RunOk ""
    | c' => quiet _ t c'
    end.

(** The remote host runs docker with sudo only. *)
Definition needs_sudo : Oracle :=
  fun R t c =>
    match c in Call R return R with
    | SessionRun cmd =>
        if String.eqb cmd "docker ps"
        then RunFailed (errorString "Process exited with status 1") "permission denied"
        else RunOk ""
    | c' => quiet _ t c'
    end.

(** The environment of a user [ops]. *)
Definition getenv (name : string) : string :=
  if String.eqb name "USER" then "ops" else "".

(** More runs. *)
Definition export_run : Outcome (gmap string string + error) * Trace :=
  migrator.ExportVolumes (H := lib) docker_client ["shared"] "/tmp/volume-migration-1" quiet [].

Definition import_run : Outcome (option error) * Trace :=
  migrator.ImportVolumes (H := lib) client archives "/tmp/volume-migration-1" quiet [].


Definition no_cleanup_run : Outcome (option error) * Trace :=
  migrator.Migrate (H := lib) no_cleanup_config import_fails [].

(** The environment and the configurations of the repository's tests. *)
Definition test_env (name : string) : string :=
  if String.eqb name "USER" then "testuser" else "".

Definition test_config (host port tmp : string) : migrator.Config :=
  {| migrator.Containers := ["container1"]; migrator.RemoteHost := host;
     migrator.SSHKeyPath := ""; migrator.SSHPort := port; migrator.TempDir := tmp;
     migrator.RemoteTempDir := ""; migrator.Interactive := false; migrator.Verbose := false;
     migrator.DryRun := false; migrator.NoCleanup := false; migrator.ShowProgress := false;
     migrator.StrictHostKeyChecking := false; migrator.AcceptHostKey := false;
     migrator.KnownHostsFile := ""; migrator.Force := false |}.

(** The message [ValidateConfig] rejects a configuration with. *)
Definition rejection (c : migrator.Config) : option string :=
  match (validate.ValidateConfig c quiet []).1 with
  | Ret (Some e) => Some (Error e)
  | Ret None => None
  | Panic p => Some p
  end.

End scenario.

(** * Properties *)

(** ** The tables of the repository's tests, run on the embedding *)

(** [TestShellEscape] *)
Example TestShellEscape :
  shell.ShellEscape "simple-name_123" = "simple-name_123" /\
  shell.ShellEscape "hello world" = "'hello world'" /\
  shell.ShellEscape "it's working" = "'it'\''s working'" /\
  shell.ShellEscape "test; rm -rf /" = "'test; rm -rf /'" /\
  shell.ShellEscape "`whoami`" = "'`whoami`'" /\
  shell.ShellEscape "$HOME/test" = "'$HOME/test'" /\
  shell.ShellEscape "../../../etc/passwd" = "'../../../etc/passwd'" /\
  shell.ShellEscape "" = "''".
Proof. repeat split. Qed.

(** [TestValidateVolumeName] *)
Example TestValidateVolumeName :
  forallb shell.ValidateVolumeName
    ["myvolume"; "my-volume"; "my_volume"; "my.volume"; "volume123"; "app_data-v1.0"] = true /\
  existsb shell.ValidateVolumeName
    [""; "-volume"; ".volume"; "../volume"; "my/volume"; "my\volume"; "my volume";
     "volume;rm"; "$volume"; "test`whoami`";
     string_of_list_ascii (repeat (ascii_of_nat 0) 256)] = false.
Proof. split; vm_compute; reflexivity. Qed.

(** [TestSanitizePathForRemote] *)
Example TestSanitizePathForRemote :
  shell.SanitizePathForRemote "/tmp/test" = "/tmp/test" /\
  shell.SanitizePathForRemote "/tmp/../../../etc/passwd" = "/tmp/etc/passwd" /\
  shell.SanitizePathForRemote "tmp/test" = "/tmp/test" /\
  shell.SanitizePathForRemote "/tmp//test" = "/tmp/test" /\
  shell.SanitizePathForRemote "tmp/..//test/./path" = "/tmp/test/./path".
Proof. repeat split. Qed.

(** [TestCalculateRequiredSpace] and [TestCalculateRequiredSpace_BufferPercentage] *)
Example TestCalculateRequiredSpace :
  utils.CalculateRequiredSpace 1073741824 = 1181116006 /\
  utils.CalculateRequiredSpace 104857600 = 115343360 /\
  utils.CalculateRequiredSpace 10737418240 = 11811160064 /\
  utils.CalculateRequiredSpace 1048576 = 1153433 /\
  utils.CalculateRequiredSpace 0 = 0 /\
  utils.CalculateRequiredSpace 1000000 - 1000000 = 1000000 / 10.
Proof. vm_compute. repeat split; reflexivity. Qed.

(** How the shell reads a few words. *)
Example sh_token_examples :
  sh.token "'it'\''s working'" = Some "it's working" /\
  sh.token "plain-word_1.0/x" = Some "plain-word_1.0/x" /\
  sh.token "a b" = None /\
  sh.token "$HOME" = None /\
  sh.token "'open" = None.
Proof. repeat split. Qed.

(** What the address functions of the library give. *)
Example SplitHostPort_examples :
  knownhosts.SplitHostPort "backup.example.com:22" = Some ("backup.example.com", "22") /\
  knownhosts.SplitHostPort "[::1]:2222" = Some ("::1", "2222") /\
  knownhosts.SplitHostPort "host" = None /\
  knownhosts.SplitHostPort "::1" = None /\
  knownhosts.SplitHostPort "[::1]" = None /\
  knownhosts.SplitHostPort "[host]x:22" = None /\
  knownhosts.SplitHostPort "a[b:22" = None /\
  knownhosts.SplitHostPort "host:" = Some ("host", "") /\
  knownhosts.SplitHostPort "" = None.
Proof. vm_compute. repeat split. Qed.

Example Normalize_examples :
  knownhosts.Normalize "backup.example.com:22" = "backup.example.com" /\
  knownhosts.Normalize "backup.example.com:2222" = "[backup.example.com]:2222" /\
  knownhosts.Normalize "[::1]:22" = "[::1]" /\
  knownhosts.Normalize "host" = "host" /\
  knownhosts.Normalize "::1" = "[::1]" /\
  knownhosts.Line "backup.example.com:22" scenario.key1
  = "backup.example.com ssh-ed25519 AAAAC3NzaC1lZDI1NTE5AAAAIKeyOne" /\
  certchecker.is_certificate scenario.certificate = true /\
  certchecker.is_certificate scenario.key1 = false.
Proof. vm_compute. repeat split. Qed.

(** [TestParseHostPort] *)
Example TestParseHostPort :
  sshclient.parseHostPort scenario.test_env "admin@example.com"
  = ("admin", "example.com", "22", None) /\
  sshclient.parseHostPort scenario.test_env "admin@example.com:2222"
  = ("admin", "example.com", "2222", None) /\
  sshclient.parseHostPort scenario.test_env "root@192.168.1.100"
  = ("root", "192.168.1.100", "22", None) /\
  sshclient.parseHostPort scenario.test_env "root@192.168.1.100:22"
  = ("root", "192.168.1.100", "22", None) /\
  sshclient.parseHostPort scenario.test_env "user@localhost"
  = ("user", "localhost", "22", None) /\
  (sshclient.parseHostPort scenario.test_env "user@").2 <> None /\
  (sshclient.parseHostPort scenario.test_env "").2 <> None /\
  sshclient.parseHostPort scenario.test_env "example.com"
  = ("testuser", "example.com", "22", None).
Proof. vm_compute. repeat split; discriminate. Qed.

(** [TestFindAt] and [TestFindColon] *)
Example TestFindAt :
  sshclient.findAt "user@host" = 4 /\
  sshclient.findAt "admin@example.com" = 5 /\
  sshclient.findAt "noatsign" = -1 /\
  sshclient.findAt "" = -1 /\
  sshclient.findAt "@start" = 0 /\
  sshclient.findAt "multiple@at@signs" = 8 /\
  sshclient.findColon "host:22" = 4 /\
  sshclient.findColon "example.com:2222" = 11 /\
  sshclient.findColon "nocolon" = -1 /\
  sshclient.findColon "" = -1 /\
  sshclient.findColon ":start" = 0 /\
  sshclient.findColon "multiple:colon:signs" = 8.
Proof. vm_compute. repeat split. Qed.

(** The [TestValidateConfig_...] tests that need no file. *)
Example TestValidateConfig :
  scenario.rejection (scenario.test_config "hostname" "" "")
  = Some "remote host must be in format 'user@host' or 'user@host:port', got: hostname" /\
  scenario.rejection (scenario.test_config "user@host@extra" "" "")
  = Some "invalid remote host format: user@host@extra" /\
  scenario.rejection (scenario.test_config "@hostname" "" "")
  = Some "username cannot be empty in remote host: @hostname" /\
  scenario.rejection (scenario.test_config "user@" "" "")
  = Some "host cannot be empty in remote host: user@" /\
  scenario.rejection (scenario.test_config "   @hostname" "" "")
  = Some "username cannot be empty in remote host:    @hostname" /\
  scenario.rejection (scenario.test_config "user@   " "" "")
  = Some "host cannot be empty in remote host: user@   " /\
  scenario.rejection (scenario.test_config "user@host" "" "") = None /\
  scenario.rejection (scenario.test_config "user@192.168.1.100" "" "") = None /\
  scenario.rejection (scenario.test_config "user@host" "abc" "")
  = Some "invalid SSH port 'abc': must be a number" /\
  scenario.rejection (scenario.test_config "user@host" "0" "")
  = Some "invalid SSH port 0: must be between 1 and 65535" /\
  scenario.rejection (scenario.test_config "user@host" "-1" "")
  = Some "invalid SSH port -1: must be between 1 and 65535" /\
  scenario.rejection (scenario.test_config "user@host" "65536" "")
  = Some "invalid SSH port 65536: must be between 1 and 65535" /\
  scenario.rejection (scenario.test_config "user@host" "22" "") = None /\
  scenario.rejection (scenario.test_config "user@host" "65535" "") = None /\
  scenario.rejection (scenario.test_config "user@host" "" "relative/path")
  = Some "temp directory must be an absolute path: relative/path" /\
  scenario.rejection (scenario.test_config "" "" "") = Some "remote host not specified".
Proof. vm_compute. repeat split. Qed.

(** What [strings.TrimSpace] leaves of a few strings, and [truncate]. *)
Example blank_examples :
  validate.blank "  	" = true /\
  validate.blank " a " = false /\
  validate.blank "" = true /\
  validate.blank (validate.bytes [226; 128; 131; 32]%nat) = true /\
  validate.blank (validate.bytes [226; 128]%nat) = false.
Proof. vm_compute. repeat split. Qed.

Example truncate_examples :
  ui.truncate "a-very-long-volume-name-for-the-table" 25 = Ret "a-very-long-volume-nam..." /\
  ui.truncate "short" 25 = Ret "short" /\
  ui.truncate "abcdef" 3 = Ret "abc" /\
  ui.truncate "abcdef" (-1) = Panic "slice bounds out of range".
Proof. vm_compute. repeat split. Qed.

(** ** Facts about the string functions *)

Arguments strings.HasPrefix : simpl never.
Arguments strings.ReplaceAll : simpl never.

Section StringFacts.
Import strings.

Lemma string_ind2 (P : string -> Prop) :
  P EmptyString ->
  (forall c, P (String c EmptyString)) ->
  (forall c d t, P t -> P (String d t) -> P (String c (String d t))) ->
  forall s, P s.
Proof.
  intros H0 H1 H2 s.
  assert (H : P s /\ forall c, P (String c s)); [| apply H].
  induction s as [| d t [IHt IHdt]]; split; auto.
Qed.

Lemma append_cons c s t : String c s +:+ t = String c (s +:+ t).
Proof. reflexivity. Qed.

Lemma append_nil t : EmptyString +:+ t = t.
Proof. reflexivity. Qed.

Lemma HasPrefix_cons c s d p :
  HasPrefix (String c s) (String d p) = bool_decide (d = c) && HasPrefix s p.
Proof.
  unfold HasPrefix. simpl. destruct (ascii_dec d c) as [->|Hne].
  - rewrite bool_decide_eq_true_2 by done. done.
  - rewrite bool_decide_eq_false_2 by done. done.
Qed.

Lemma HasPrefix_nil s : HasPrefix s EmptyString = true.
Proof. destruct s; done. Qed.

Lemma HasPrefix_empty d p : HasPrefix EmptyString (String d p) = false.
Proof. done. Qed.

(** [HasPrefix] is what its name says. *)
Lemma HasPrefix_spec s p : HasPrefix s p = true <-> exists r, s = p +:+ r.
Proof.
  revert s. induction p as [| d p IH]; intros s.
  - rewrite HasPrefix_nil. split; [intros _; by exists s | done].
  - destruct s as [| c s].
    + rewrite HasPrefix_empty. split; [done | intros [r Hr]; discriminate].
    + rewrite HasPrefix_cons, andb_true_iff, bool_decide_eq_true, IH. split.
      * intros [-> [r ->]]. by exists r.
      * intros [r Hr]. simpl in Hr. injection Hr as -> ->. eauto.
Qed.

(** [Contains] holds exactly when the string splits around the pattern. *)
Lemma Contains_spec s sub :
  Contains s sub = true <-> exists a b, s = a +:+ sub +:+ b.
Proof.
  induction s as [| c s IH].
  - simpl. rewrite orb_false_r, HasPrefix_spec. split.
    + intros [r Hr]. by exists EmptyString, r.
    + intros [a [b Hab]]. destruct a; [by exists b | discriminate].
  - simpl. rewrite orb_true_iff, HasPrefix_spec, IH. split.
    + intros [[r Hr] | [a [b Hab]]].
      * by exists EmptyString, r.
      * exists (String c a), b. simpl. by rewrite Hab.
    + intros [a [b Hab]]. destruct a as [| c' a].
      * left. by exists b.
      * right. simpl in Hab. injection Hab as -> ->. by exists a, b.
Qed.

End StringFacts.

(** ** Path sanitisation *)

Section Sanitize.
Import strings shell.

(** One step of the scan, for the two-byte patterns of
    [SanitizePathForRemote]. *)
Lemma ReplaceAll_pair a new c d t :
  ReplaceAll (String c (String d t)) (String a (String a EmptyString)) new =
  if bool_decide (a = c) && bool_decide (a = d)
  then new +:+ ReplaceAll t (String a (String a EmptyString)) new
  else String c (ReplaceAll (String d t) (String a (String a EmptyString)) new).
Proof.
  unfold ReplaceAll. cbn [replaceFrom].
  rewrite !HasPrefix_cons, HasPrefix_nil, andb_true_r. cbn [String.length Nat.pred].
  destruct (bool_decide (a = c) && bool_decide (a = d)); reflexivity.
Qed.

Lemma ReplaceAll_single a new c :
  ReplaceAll (String c EmptyString) (String a (String a EmptyString)) new = String c EmptyString.
Proof.
  unfold ReplaceAll. cbn [replaceFrom].
  rewrite !HasPrefix_cons, HasPrefix_empty, andb_false_r. reflexivity.
Qed.

Lemma Contains_dotdot_cons c s :
  Contains (String c s) ".." = bool_decide (c = "."%char) && HasPrefix s "." || Contains s "..".
Proof.
  cbn [Contains]. rewrite HasPrefix_cons.
  by rewrite (bool_decide_ext ("."%char = c) (c = "."%char)) by (split; congruence).
Qed.

Lemma HasPrefix_char c s (a : ascii) :
  HasPrefix (String c s) (String a EmptyString) = bool_decide (a = c).
Proof. by rewrite HasPrefix_cons, HasPrefix_nil, andb_true_r. Qed.

(** Removing the occurrences of ".." leaves none behind: a dot that is
    kept is never followed by a dot. *)
Lemma remove_dotdot s :
  Contains (ReplaceAll s ".." "") ".." = false /\
  (HasPrefix s "." = false -> HasPrefix (ReplaceAll s ".." "") "." = false).
Proof.
  induction s as [| c | c d t [IHt _] [IHdt IHhd]] using string_ind2.
  - done.
  - rewrite ReplaceAll_single, Contains_dotdot_cons. split; [|done].
    cbn. by rewrite andb_false_r.
  - rewrite ReplaceAll_pair.
    destruct (bool_decide ("."%char = c)) eqn:Hc; cbn [andb].
    + apply bool_decide_eq_true in Hc as <-.
      destruct (bool_decide ("."%char = d)) eqn:Hd.
      * split; [exact IHt |]. by rewrite HasPrefix_char.
      * split; [| by rewrite HasPrefix_char].
        rewrite Contains_dotdot_cons, IHdt, IHhd; [by rewrite andb_false_r |].
        by rewrite HasPrefix_char.
    + split; [| by rewrite !HasPrefix_char, Hc].
      rewrite Contains_dotdot_cons, IHdt, orb_false_r.
      apply bool_decide_eq_false in Hc.
      rewrite bool_decide_eq_false_2; [done | congruence].
Qed.

(** Collapsing a double slash neither brings two dots together nor
    moves the leading slash. *)
Lemma collapse_once s :
  (Contains s ".." = false -> Contains (ReplaceAll s "//" "/") ".." = false) /\
  (HasPrefix (ReplaceAll s "//" "/") "." = true -> HasPrefix s "." = true) /\
  (HasPrefix s "/" = true -> HasPrefix (ReplaceAll s "//" "/") "/" = true) /\
  (String.length (ReplaceAll s "//" "/") <= String.length s)%nat /\
  (Contains s "//" = true -> (String.length (ReplaceAll s "//" "/") < String.length s)%nat).
Proof.
  induction s as [| c | c d t (IH1 & IH2 & IH3 & IH4 & IH5) (IHd1 & IHd2 & IHd3 & IHd4 & IHd5)]
    using string_ind2.
  - repeat split; try done.
  - rewrite ReplaceAll_single. repeat split; try done.
    cbn [Contains]. rewrite HasPrefix_cons, HasPrefix_empty, andb_false_r. done.
  - rewrite ReplaceAll_pair.
    destruct (bool_decide ("/"%char = c) && bool_decide ("/"%char = d)) eqn:Hcd.
    + apply andb_true_iff in Hcd as [Hc Hd].
      apply bool_decide_eq_true in Hc as <-. apply bool_decide_eq_true in Hd as <-.
      change ("/" +:+ ReplaceAll t "//" "/") with (String "/" (ReplaceAll t "//" "/")).
      rewrite !Contains_dotdot_cons, !HasPrefix_char. cbn [String.length].
      repeat split; try done; try lia.
    + rewrite !Contains_dotdot_cons, !HasPrefix_char. cbn [String.length].
      split; [| split; [| split; [| split]]]; try done; try lia.
      * intros H. apply orb_false_iff in H as [H1 H2]. apply orb_false_iff in H2 as [H2 H3].
        rewrite IHd1 by (by rewrite Contains_dotdot_cons, H2, H3).
        rewrite orb_false_r.
        destruct (bool_decide (c = "."%char)) eqn:Hc; [| done]. cbn [andb].
        destruct (HasPrefix (ReplaceAll (String d t) "//" "/") ".") eqn:Hp; [| done].
        specialize (IHd2 eq_refl). rewrite HasPrefix_char in IHd2.
        rewrite ?HasPrefix_char in H1. cbn [andb] in H1. congruence.
      * cbn [String.length] in IHd4. lia.
      * intros H. cbn [Contains] in H. rewrite !HasPrefix_cons, HasPrefix_nil, andb_true_r in H.
        rewrite Hcd in H. cbn [orb] in H.
        assert (Contains (String d t) "//" = true) as Hd.
        { cbn [Contains]. by rewrite HasPrefix_cons. }
        specialize (IHd5 Hd). cbn [String.length] in IHd5. lia.
Qed.

Lemma collapse_slashes_keeps fuel s :
  Contains s ".." = false -> HasPrefix s "/" = true ->
  Contains (collapse_slashes fuel s) ".." = false /\
  HasPrefix (collapse_slashes fuel s) "/" = true.
Proof.
  revert s. induction fuel as [| fuel IH]; intros s Hdd Hsl; [done |].
  cbn [collapse_slashes]. destruct (Contains s "//"); [| done].
  apply IH; by apply collapse_once.
Qed.

(** The loop has run to its exit within the fuel it is given: no "//"
    is left, and more fuel changes nothing. *)
Lemma collapse_slashes_done fuel s :
  (String.length s <= fuel)%nat -> Contains (collapse_slashes fuel s) "//" = false.
Proof.
  revert s. induction fuel as [| fuel IH]; intros s Hlen.
  - destruct s; [done | cbn in Hlen; lia].
  - cbn [collapse_slashes]. destruct (Contains s "//") eqn:Hc; [| done].
    apply IH. pose proof (collapse_once s) as (_ & _ & _ & _ & Hlt).
    specialize (Hlt Hc). lia.
Qed.

Lemma collapse_slashes_fuel fuel s :
  (String.length s <= fuel)%nat ->
  collapse_slashes fuel s = collapse_slashes (String.length s) s.
Proof.
  revert s. induction fuel as [fuel IH] using lt_wf_ind. intros s Hlen.
  destruct fuel as [| fuel].
  - destruct s; [done | cbn in Hlen; lia].
  - destruct s as [| c s]; [done |].
    cbn [collapse_slashes String.length].
    destruct (Contains (String c s) "//") eqn:Hc; [| done].
    pose proof (collapse_once (String c s)) as (_ & _ & _ & _ & Hlt).
    specialize (Hlt Hc). cbn [String.length] in Hlt, Hlen.
    rewrite (IH fuel) by lia. rewrite (IH (String.length s)); [done | lia | lia].
Qed.

Lemma sanitize_no_dotdot p :
  Contains (SanitizePathForRemote p) ".." = false /\
  HasPrefix (SanitizePathForRemote p) "/" = true.
Proof.
  unfold SanitizePathForRemote.
  pose proof (remove_dotdot p) as [Hdd _].
  destruct (HasPrefix (ReplaceAll p ".." "") "/") eqn:Hp.
  - by apply collapse_slashes_keeps.
  - apply collapse_slashes_keeps.
    + change ("/" +:+ ReplaceAll p ".." "") with (String "/" (ReplaceAll p ".." "")).
      rewrite Contains_dotdot_cons, Hdd. done.
    + change ("/" +:+ ReplaceAll p ".." "") with (String "/" (ReplaceAll p ".." "")).
      by rewrite HasPrefix_char.
Qed.

Lemma sanitize_no_double_slash p :
  Contains (SanitizePathForRemote p) "//" = false.
Proof. unfold SanitizePathForRemote. by apply collapse_slashes_done. Qed.

End Sanitize.

(** ** Escaping *)

Section Escape.
Import strings shell.

(** A character [isSafeString] lets through stands for itself in a bare
    shell word. *)
Lemma safe_rune_bare c :
  safe_rune c = true ->
  Ascii.eqb c "'" = false /\ Ascii.eqb c "\" = false /\ sh.special c = false.
Proof.
  destruct c as [[] [] [] [] [] [] [] []]; vm_compute; intros H;
    first [discriminate H | repeat split].
Qed.

Lemma word_safe s : all_runes safe_rune s = true -> sh.word sh.Bare s = Some s.
Proof.
  induction s as [| c s IH]; [done |].
  cbn [all_runes sh.word]. intros [Hc Hs]%andb_true_iff.
  destruct (safe_rune_bare c Hc) as (-> & -> & ->).
  by rewrite IH.
Qed.

Lemma ReplaceAll_quote c t new :
  ReplaceAll (String c t) "'" new =
  if Ascii.eqb c "'" then new +:+ ReplaceAll t "'" new
  else String c (ReplaceAll t "'" new).
Proof.
  unfold ReplaceAll. cbn [replaceFrom]. rewrite HasPrefix_char.
  cbn [String.length Nat.pred].
  destruct (Ascii.eqb_spec c "'") as [-> | Hne].
  - by rewrite bool_decide_eq_true_2.
  - rewrite bool_decide_eq_false_2; [done | congruence].
Qed.

(** Inside single quotes, the escaped text followed by the closing quote
    reads back as the original text. *)
Lemma word_quoted s :
  sh.word sh.SingleQuoted (ReplaceAll s "'" "'\''" +:+ "'") = Some s.
Proof.
  induction s as [| c s IH]; [done |].
  rewrite ReplaceAll_quote. destruct (Ascii.eqb_spec c "'") as [-> | Hne].
  - rewrite !append_cons, append_nil. cbn. by rewrite IH.
  - rewrite append_cons. cbn [sh.word].
    destruct (Ascii.eqb_spec c "'") as [| _]; [done |]. by rewrite IH.
Qed.

Lemma isSafeString_inv s :
  isSafeString s = true -> s <> EmptyString /\ all_runes safe_rune s = true.
Proof.
  unfold isSafeString. destruct (String.eqb_spec s "") as [-> | Hne]; [done |].
  destruct (Contains s ".."); [done |]. done.
Qed.

End Escape.

(** C4.  For every string [s], the shell reads [ShellEscape s] as one
    token whose value is exactly [s]; in particular for the string
    it's a test. *)
Theorem ShellEscape_roundtrip :
  (forall s, sh.token (shell.ShellEscape s) = Some s) /\
  sh.token (shell.ShellEscape "it's a test") = Some "it's a test".
Proof.
  assert (forall s, sh.token (shell.ShellEscape s) = Some s) as Hall.
  { intros s. unfold shell.ShellEscape. destruct (shell.isSafeString s) eqn:Hsafe.
    - apply isSafeString_inv in Hsafe as [Hne Hrunes].
      destruct s; [done |]. by apply word_safe.
    - rewrite append_cons, append_nil. cbn [sh.token sh.word]. apply word_quoted. }
  split; [exact Hall | apply Hall].
Qed.

(** C6.  For every input, the sanitised path contains no ".." and starts
    with a slash (and the slash-collapsing loop has run to its end); in
    particular for /tmp/../../etc/passwd. *)
Theorem SanitizePathForRemote_no_traversal :
  (forall p,
     strings.Contains (shell.SanitizePathForRemote p) ".." = false /\
     strings.HasPrefix (shell.SanitizePathForRemote p) "/" = true /\
     strings.Contains (shell.SanitizePathForRemote p) "//" = false) /\
  strings.Contains (shell.SanitizePathForRemote "/tmp/../../etc/passwd") ".." = false /\
  strings.HasPrefix (shell.SanitizePathForRemote "/tmp/../../etc/passwd") "/" = true.
Proof.
  split; [| split; reflexivity].
  intros p. destruct (sanitize_no_dotdot p) as [H1 H2].
  split; [done | split; [done | apply sanitize_no_double_slash]].
Qed.

(** ** Running effectful code *)

Lemma run_bind {A B} (m : M A) (f : A -> M B) o t :
  (m ≫= f) o t =
  match m o t with
  | (Ret a, t') => f a o t'
  | (Panic p, t') => (Panic p, t')
  end.
Proof. reflexivity. Qed.

Lemma run_ret {A} (a : A) o t : mret (M := M) a o t = (Ret a, t).
Proof. reflexivity. Qed.

Lemma run_call {R} (c : Call R) o t : call c o t = (Ret (o R t c), t ++ [Ev c (o R t c)]).
Proof. reflexivity. Qed.

Lemma run_log lvl msg o t : log lvl msg o t = (Ret tt, t ++ [Ev (Log lvl msg None) tt]).
Proof. unfold log. rewrite run_call. by destruct (o unit t (Log lvl msg None)). Qed.

Lemma run_logw lvl msg err o t :
  logw lvl msg err o t = (Ret tt, t ++ [Ev (Log lvl msg (Some err)) tt]).
Proof. unfold logw. rewrite run_call. by destruct (o unit t (Log lvl msg (Some err))). Qed.

Lemma run_defer {A} (d : M unit) (body : M A) o t :
  defer d body o t =
  match d o (body o t).2 with
  | (Ret _, t'') => ((body o t).1, t'')
  | (Panic p, t'') => (Panic p, t'')
  end.
Proof. unfold defer. by destruct (body o t). Qed.

Lemma run_call_unit (c : Call unit) o t : call c o t = (Ret tt, t ++ [Ev c tt]).
Proof. rewrite run_call. by destruct (o unit t c). Qed.

Ltac run :=
  repeat (rewrite ?run_bind, ?run_log, ?run_logw, ?run_call_unit, ?run_call, ?run_ret;
          cbn beta iota).

(** Traces as one list, appended to the right. *)
Ltac traces := cbn [app]; repeat (rewrite <- app_assoc; cbn [app]).

(** ** Removing a remote directory *)

Lemma is_system_directory_spec s :
  ssh.is_system_directory s = true <-> In s system_directories.
Proof.
  unfold ssh.is_system_directory, system_directories. cbn [In].
  rewrite !orb_true_iff, !String.eqb_eq. intuition congruence.
Qed.


Lemma RunCommand_run c cmd (o : Oracle) (t : Trace) :
  ssh.RunCommand c cmd o t =
  (Ret match o _ t (SessionRun cmd) with
       | RunOk stdout => inl stdout
       | r => match session_error r with Some err => inr err | None => inl "" end
       end,
   t ++ [Ev (SessionRun cmd) (o _ t (SessionRun cmd))]).
Proof. unfold ssh.RunCommand. run. by destruct (o _ t (SessionRun cmd)). Qed.


(** C7.  When the path, or what sanitising makes of it, is one of the six
    system directories ("/", "/bin", "/etc", "/usr", "/var", "/home"),
    [RemoveDirectory] returns the "refusing to delete system directory"
    error naming the sanitised path, and nothing has been sent to the
    remote host: the test is made on the sanitised path, before the
    command exists. *)
Theorem RemoveDirectory_refuses_system_directory c (o : Oracle) (t : Trace) p d :
  In d system_directories ->
  p = d \/ shell.SanitizePathForRemote p = d ->
  ssh.RemoveDirectory c p o t =
  (Ret (Some (errorString ("refusing to delete system directory: " +:+ d))), t).
Proof.
  intros Hd Hp.
  assert (shell.SanitizePathForRemote p = d) as Hs.
  { destruct Hp as [-> | Hp]; [| exact Hp].
    cbn in Hd. destruct Hd as [<- | [<- | [<- | [<- | [<- | [<- | []]]]]]]; reflexivity. }
  unfold ssh.RemoveDirectory. rewrite Hs.
  replace (ssh.is_system_directory d) with true; [reflexivity |].
  symmetry. by apply is_system_directory_spec.
Qed.

Lemma RemoveDirectory_refuses_system_directory_witness :
  In "/etc" system_directories /\
  ssh.RemoveDirectory scenario.client "/etc" scenario.quiet [] =
  (Ret (Some (errorString "refusing to delete system directory: /etc")), []).
Proof.
  assert (In "/etc" system_directories) as H by (simpl; auto).
  split; [exact H |].
  exact (RemoveDirectory_refuses_system_directory scenario.client scenario.quiet []
           "/etc" "/etc" H (or_introl eq_refl)).
Defined.

Example RemoveDirectory_root c o t :
  ssh.RemoveDirectory c "/" o t =
  (Ret (Some (errorString "refusing to delete system directory: /")), t).
Proof. reflexivity. Qed.

Example RemoveDirectory_relative_etc c o t :
  ssh.RemoveDirectory c "etc" o t =
  (Ret (Some (errorString "refusing to delete system directory: /etc")), t).
Proof. reflexivity. Qed.


(** C10.  The protection is an exact comparison of the sanitised path with
    the six literals: for every path whose sanitised form is any other
    string, [RemoveDirectory] sends [rm -rf] with the escaped sanitised
    path to the remote host, and its result is that of the command. *)
Theorem RemoveDirectory_exact_match_only c (o : Oracle) (t : Trace) p :
  ~ In (shell.SanitizePathForRemote p) system_directories ->
  let cmd := "rm -rf " +:+ shell.ShellEscape (shell.SanitizePathForRemote p) in
  let r := o _ t (SessionRun cmd) in
  ssh.RemoveDirectory c p o t =
  (Ret match session_error r with
       | Some err =>
           Some (Errorf_w ("failed to remove directory " +:+ p +:+ " on remote host: ") err "")
       | None => None
       end,
   t ++ [Ev (SessionRun cmd) r]).
Proof.
  intros Hd cmd r. unfold ssh.RemoveDirectory.
  destruct (ssh.is_system_directory (shell.SanitizePathForRemote p)) eqn:Hsys.
  { destruct Hd. by apply is_system_directory_spec. }
  run. unfold ssh.RunCommand. run. fold cmd r. by destruct r.
Qed.

Lemma RemoveDirectory_exact_match_only_witness :
  ~ In (shell.SanitizePathForRemote "/etc/..") system_directories /\
  ssh.RemoveDirectory scenario.client "/etc/.." scenario.quiet [] =
  (Ret None, [Ev (SessionRun "rm -rf /etc/") (RunOk "")]).
Proof.
  assert (~ In (shell.SanitizePathForRemote "/etc/..") system_directories) as H.
  { vm_compute. intuition discriminate. }
  split; [exact H |].
  exact (RemoveDirectory_exact_match_only scenario.client scenario.quiet [] "/etc/.." H).
Defined.

Example RemoveDirectory_root_home c :
  ssh.RemoveDirectory c "/root" scenario.quiet [] =
  (Ret None, [Ev (SessionRun "rm -rf /root") (RunOk "")]).
Proof. reflexivity. Qed.

Example RemoveDirectory_trailing_slash c :
  ssh.RemoveDirectory c "/home/" scenario.quiet [] =
  (Ret None, [Ev (SessionRun "rm -rf /home/") (RunOk "")]).
Proof. reflexivity. Qed.

(** ** Importing a volume *)

Lemma RunDockerCommand_run c arg (o : Oracle) (t : Trace) :
  ssh.RunDockerCommand c [arg] o t = ssh.RunCommand c (docker_command c arg) o t.
Proof. reflexivity. Qed.

(** C5.  When the volume was created on the remote host and populating
    it fails with [popErr], [ImportVolume] sends [docker volume rm] for
    that volume (with [sudo] where the remote host needs it), logs a
    warning (and nothing more) if that removal fails, and returns the
    population error, wrapped with the volume name, whatever the removal
    gave. *)
Theorem ImportVolume_population_failure `{GoLib} c volumeName archivePath
    (o : Oracle) (t : Trace) popErr :
  shell.ValidateVolumeName volumeName = true ->
  let docker := if ssh_types.remoteSudo c then "sudo docker" else "docker" in
  let create := SessionRun (docker +:+ " volume create " +:+ volumeName) in
  let populate :=
    SessionRun (docker +:+ " run --rm -v " +:+ volumeName +:+ ":/data -v "
                +:+ filepath_Dir archivePath +:+ ":/backup alpine tar xzf /backup/"
                +:+ filepath_Base archivePath +:+ " -C /data") in
  let remove := SessionRun (docker +:+ " volume rm " +:+ volumeName) in
  let t1 := t ++ [Ev (Log DebugLevel "Importing volume on remote host" None) tt] in
  let t2 := t1 ++ [Ev create (o _ t1 create)]
               ++ [Ev (Log DebugLevel "Created volume on remote" None) tt] in
  let t3 := t2 ++ [Ev populate (o _ t2 populate)] in
  session_error (o _ t1 create) = None ->
  session_error (o _ t2 populate) = Some popErr ->
  migrator.ImportVolume c volumeName archivePath o t =
  (Ret (Some (Errorf_w ("failed to import data into volume " +:+ volumeName +:+ ": ")
                       popErr "")),
   t3 ++ [Ev remove (o _ t3 remove)] ++
     match session_error (o _ t3 remove) with
     | Some cleanupErr =>
         [Ev (Log WarnLevel "Failed to cleanup volume after import failure"
                  (Some cleanupErr)) tt]
     | None => []
     end).
Proof.
  intros Hvalid docker create populate remove t1 t2 t3 Hcreate Hpop.
  unfold migrator.ImportVolume. rewrite Hvalid. cbn [negb].
  run. fold t1. rewrite RunDockerCommand_run, RunCommand_run.
  change (SessionRun (docker_command c (migrator.createCmd volumeName))) with create.
  destruct (o _ t1 create) as [e | e s | out] eqn:Hc; try discriminate Hcreate.
  run. rewrite <- app_assoc. change (t1 ++ [Ev create (RunOk out)] ++ _) with t2.
  rewrite RunDockerCommand_run, RunCommand_run.
  change (SessionRun (docker_command c (migrator.importCmd volumeName archivePath)))
    with populate.
  destruct (o _ t2 populate) as [e | e s | out'] eqn:Hp; try discriminate Hpop;
    injection Hpop as <-; cbn [session_error]; run; fold t3;
    rewrite RunDockerCommand_run, RunCommand_run;
    change (SessionRun (docker_command c (migrator.removeCmd volumeName))) with remove;
    destruct (o _ t3 remove) as [e' | e' s' | out''] eqn:Hr; cbn [session_error]; run;
    rewrite <- ?app_assoc; reflexivity.
Qed.

Lemma ImportVolume_population_failure_witness :
  shell.ValidateVolumeName "shared" = true /\
  migrator.ImportVolume (H := scenario.lib) scenario.client "shared"
    "/tmp/volume-migration-1/shared.tar.gz" scenario.import_fails [] =
  (Ret (Some (Errorf_w "failed to import data into volume shared: "
                       scenario.population_error "")),
   [Ev (Log DebugLevel "Importing volume on remote host" None) tt;
    Ev (SessionRun "docker volume create shared") (RunOk "");
    Ev (Log DebugLevel "Created volume on remote" None) tt;
    Ev (SessionRun ("docker run --rm -v shared:/data -v /tmp/volume-migration-1:/backup "
                    +:+ "alpine tar xzf /backup/shared.tar.gz -C /data"))
       (RunFailed (errorString "Process exited with status 1") "tar: short read");
    Ev (SessionRun "docker volume rm shared")
       (RunFailed (errorString "Process exited with status 1") "volume is in use");
    Ev (Log WarnLevel "Failed to cleanup volume after import failure"
          (Some (Errorf_w "command failed: " (errorString "Process exited with status 1")
                   ", stderr: volume is in use"))) tt]).
Proof.
  split; [reflexivity |].
  rewrite (ImportVolume_population_failure (H := scenario.lib) scenario.client "shared"
             "/tmp/volume-migration-1/shared.tar.gz" scenario.import_fails []
             scenario.population_error);
    reflexivity.
Defined.

(** ** Host key verification in accept-new mode *)

Lemma append_assoc a b c : (a +:+ b) +:+ c = a +:+ b +:+ c.
Proof. induction a as [| x a IH]; [done |]. rewrite !append_cons. by rewrite IH. Qed.

(** The callback returns success on one path only: after it has treated
    the host as unknown and added the key. *)
Lemma acceptNewKey_success_only_after_adding v callback hostname key
    (o : Oracle) (t t' : Trace) :
  hostkey.acceptNewKey v callback hostname key o t = (Ret None, t') ->
  callback hostname key <> None /\ t' <> t.
Proof.
  unfold hostkey.acceptNewKey. destruct (callback hostname key) as [err |]; [| discriminate].
  intros Hrun. split; [done |].
  assert (exists e es, t' = t ++ e :: es) as (e & es & ->).
  { destruct err as [| | | [| k ks]]; try discriminate Hrun;
      revert Hrun; unfold hostkey.addHostKey; run; rewrite <- !app_assoc;
      destruct (o _ _ (OsOpenFile _ _ _)); run;
      try (rewrite run_defer; run;
           destruct (o _ _ (FileWriteString _ _)); run; cbn [fst snd];
           rewrite <- ?app_assoc);
      intros [= <-]; eauto. }
  intros Heq. apply (f_equal length) in Heq. rewrite length_app in Heq. cbn in Heq. lia.
Qed.

Section KnownKeys.
Import ssh_types knownhosts.

(** Every known key comes from a record of the host (or was known
    already). *)
Lemma knownKeys_origin lines address known k :
  In k (knownKeys lines address known) ->
  In k known \/ exists l, In l lines /\ hostname l = address /\ key l = k.
Proof.
  revert known. induction lines as [| l rest IH]; intros known Hin; [by left |].
  cbn [knownKeys] in Hin.
  destruct (String.eqb_spec (hostname l) address) as [Heq | Hne]; cbn [andb] in Hin.
  - destruct (negb (existsb (same_type (key l)) known)).
    + apply IH in Hin as [Hin | (l' & Hl' & Hh & Hk)].
      * apply in_app_or in Hin as [Hin | [<- | []]]; [by left |].
        right. exists l. cbn. auto.
      * right. exists l'. cbn. auto.
    + apply IH in Hin as [Hin | (l' & Hl' & Hh & Hk)]; [by left |].
      right. exists l'. cbn. auto.
  - apply IH in Hin as [Hin | (l' & Hl' & Hh & Hk)]; [by left |].
    right. exists l'. cbn. auto.
Qed.

Lemma knownKeys_grows lines address known :
  known <> [] -> knownKeys lines address known <> [].
Proof.
  revert known. induction lines as [| l rest IH]; intros known Hne; [done |].
  cbn [knownKeys].
  destruct (String.eqb (hostname l) address && negb (existsb (same_type (key l)) known));
    apply IH; [| done].
  destruct known; done.
Qed.

(** A host with a record has a known key. *)
Lemma knownKeys_known_host lines address :
  (exists l, In l lines /\ hostname l = address) -> knownKeys lines address [] <> [].
Proof.
  induction lines as [| l rest IH]; intros (l' & Hin & Hh); [done |].
  cbn [knownKeys existsb negb].
  destruct (String.eqb_spec (hostname l) address) as [Heq | Hne]; cbn [andb].
  - by apply knownKeys_grows.
  - apply IH. destruct Hin as [-> | Hin]; [done | eauto].
Qed.

(** A known host presenting a key that none of its records holds gets
    a [KeyError] with a non-empty [Want]. *)
Lemma check_changed_key lines address remoteKey :
  (exists l, In l lines /\ hostname l = address) ->
  (forall l, In l lines -> hostname l = address -> key_blob (key l) <> key_blob remoteKey) ->
  exists k ks, check lines address remoteKey = Some (KeyError (k :: ks)).
Proof.
  intros Hknown Hdiff. unfold check.
  pose proof (knownKeys_known_host lines address Hknown) as Hne.
  destruct (knownKeys lines address []) as [| k ks] eqn:Hkk; [done |].
  destruct (find (same_type remoteKey) (k :: ks)) as [k' |] eqn:Hfind; [| eauto].
  apply find_some in Hfind as [Hin _]. rewrite <- Hkk in Hin.
  apply knownKeys_origin in Hin as [[] | (l & Hl & Hh & <-)].
  unfold keysEqual. destruct (String.eqb_spec (key_blob (key l)) (key_blob remoteKey)) as [Heq | _].
  - by destruct (Hdiff l Hl Hh).
  - eauto.
Qed.

End KnownKeys.

Section MatchingRecord.
Import ssh_types knownhosts.

Lemma knownKeys_app a b address known :
  knownKeys (a ++ b) address known = knownKeys b address (knownKeys a address known).
Proof.
  revert known. induction a as [| l a IH]; intros known; [done |].
  cbn [app knownKeys]. by destruct (_ && _).
Qed.

Lemma knownKeys_extends lines address known :
  exists more, knownKeys lines address known = known ++ more.
Proof.
  revert known. induction lines as [| l rest IH]; intros known.
  - exists []. by rewrite app_nil_r.
  - cbn [knownKeys]. destruct (_ && _); [| apply IH].
    destruct (IH (known ++ [key l])) as [more ->]. exists (key l :: more).
    by rewrite <- app_assoc.
Qed.

Lemma same_type_sym a b : same_type a b = same_type b a.
Proof. unfold same_type. apply String.eqb_sym. Qed.

(** A record of the host that is the first of its algorithm for that
    host makes the check succeed for its key. *)
Lemma check_matching_record pre r post address :
  hostname r = address ->
  (forall l, In l pre -> hostname l = address -> same_type (key l) (key r) = false) ->
  check (pre ++ r :: post) address (key r) = None.
Proof.
  intros Hhost Hfirst. unfold check. rewrite knownKeys_app. cbn [knownKeys].
  set (known := knownKeys pre address []).
  assert (forall k, In k known -> same_type k (key r) = false) as Hknown.
  { intros k Hin. apply knownKeys_origin in Hin as [[] | (l & Hl & Hh & <-)]. by apply Hfirst. }
  assert (existsb (same_type (key r)) known = false) as Hnone.
  { apply not_true_is_false. intros (k & Hin & Hk)%existsb_exists.
    rewrite same_type_sym, (Hknown k Hin) in Hk. done. }
  rewrite Hnone, Hhost, String.eqb_refl. cbn [negb andb].
  destruct (knownKeys_extends post address (known ++ [key r])) as [more ->].
  rewrite <- app_assoc. cbn [app].
  destruct (known ++ key r :: more) as [| k0 ks] eqn:Hall.
  { by destruct known. }
  rewrite <- Hall. clear Hall k0 ks.
  assert (find (same_type (key r)) (known ++ key r :: more) = Some (key r)) as ->.
  { clear Hnone. induction known as [| k known IH]; cbn [app find].
    - unfold same_type at 1. by rewrite String.eqb_refl.
    - rewrite same_type_sym, (Hknown k) by (by left). apply IH.
      intros k' Hin. apply Hknown. by right. }
  unfold keysEqual. by rewrite String.eqb_refl.
Qed.

(** In accept-new mode the callback accepts no key at all for a host that
    has a record: a matching key runs into the last statement, any other
    key is a changed key. *)
Lemma acceptNewKey_known_host_always_error v lines address remoteKey
    (o : Oracle) (t : Trace) :
  (exists l, In l lines /\ hostname l = address) ->
  exists e, hostkey.acceptNewKey v (check lines) address remoteKey o t = (Ret (Some e), t).
Proof.
  intros Hknown. pose proof (knownKeys_known_host lines address Hknown) as Hne.
  unfold hostkey.acceptNewKey, check.
  destruct (knownKeys lines address []) as [| k ks]; [done |].
  destruct (find (same_type remoteKey) (k :: ks)) as [k' |]; [| by eexists].
  destruct (keysEqual k' remoteKey); by eexists.
Qed.

End MatchingRecord.

(** C1 (the code departs from it).  In accept-new mode, for a pair whose
    record is in the trust file (the first record of its algorithm for
    that host), the callback does not return success: the [knownhosts]
    check succeeds, the callback falls through to its last statement and
    returns the error built there out of the nil [err]; no call is made. *)
Theorem acceptNewKey_known_pair_returns_error v pre r post (o : Oracle) (t : Trace) :
  (forall l, In l pre -> ssh_types.hostname l = ssh_types.hostname r ->
             knownhosts.same_type (ssh_types.key l) (ssh_types.key r) = false) ->
  hostkey.acceptNewKey v (knownhosts.check (pre ++ r :: post))
    (ssh_types.hostname r) (ssh_types.key r) o t =
  (Ret (Some (errorString ("unexpected host key verification error for "
                           +:+ ssh_types.hostname r +:+ ": %!w(<nil>)"))), t).
Proof.
  intros Hfirst. unfold hostkey.acceptNewKey.
  rewrite (check_matching_record pre r post (ssh_types.hostname r) eq_refl Hfirst).
  unfold Errorf_w_nil. by rewrite !append_assoc.
Qed.

Lemma acceptNewKey_known_pair_returns_error_witness :
  (forall l, In l [] -> ssh_types.hostname l = "backup.example.com:22" ->
             knownhosts.same_type (ssh_types.key l) scenario.key1 = false) /\
  hostkey.acceptNewKey scenario.verifier (knownhosts.check scenario.known_hosts)
    "backup.example.com:22" scenario.key1 scenario.quiet [] =
  (Ret (Some (errorString
     "unexpected host key verification error for backup.example.com:22: %!w(<nil>)")), []).
Proof.
  assert (forall l, In l [] -> ssh_types.hostname l = "backup.example.com:22" ->
                    knownhosts.same_type (ssh_types.key l) scenario.key1 = false) as H
    by (intros l []).
  split; [exact H |].
  exact (acceptNewKey_known_pair_returns_error scenario.verifier []
           {| ssh_types.hostname := "backup.example.com:22"; ssh_types.key := scenario.key1 |}
           [] scenario.quiet [] H).
Defined.

Lemma Contains_here s b : strings.Contains (s +:+ b) s = true.
Proof. apply Contains_spec. by exists EmptyString, b. Qed.

Lemma Contains_skip a rest s :
  strings.Contains rest s = true -> strings.Contains (a +:+ rest) s = true.
Proof.
  rewrite !Contains_spec. intros (x & y & ->). exists (a +:+ x), y.
  by rewrite append_assoc.
Qed.


(** For a key that is not a certificate, the callback [knownhosts.New]
    returns is the check of the records; when the host has a record and
    the key presented is the key of none of its records, the closure
    returns an error whose message names the host and the path of the
    trust file and which wraps the mismatch; no call at all is made. *)
Lemma acceptNewKey_changed_plain_key_rejected v certType lines hostname key
    (o : Oracle) (t : Trace) :
  certchecker.is_certificate key = false ->
  (exists l, In l lines /\ ssh_types.hostname l = hostname) ->
  (forall l, In l lines -> ssh_types.hostname l = hostname ->
             key_blob (ssh_types.key l) <> key_blob key) ->
  exists e k ks,
    hostkey.acceptNewKey v (certchecker.CheckHostKey certType lines) hostname key o t
    = (Ret (Some e), t) /\
    Unwrap e = Some (KeyError (k :: ks)) /\
    strings.Contains (Error e) hostname = true /\
    strings.Contains (Error e) (hostkey.knownHostsPath v) = true /\
    strings.HasPrefix (Error e) "WARNING: REMOTE HOST IDENTIFICATION HAS CHANGED!" = true.
Proof.
  intros Hplain Hknown Hdiff.
  destruct (check_changed_key lines hostname key Hknown Hdiff) as (k & ks & Hcheck).
  exists (Errorf_w (hostkey.changed_key_message v hostname) (KeyError (k :: ks)) ""), k, ks.
  unfold hostkey.acceptNewKey, certchecker.CheckHostKey. rewrite Hplain, Hcheck.
  split; [reflexivity |]. split; [reflexivity |].
  cbn [Error Errorf_w]. unfold hostkey.changed_key_message.
  rewrite !append_assoc.
  split; [| split];
    [repeat first [apply Contains_here | apply Contains_skip] ..| reflexivity].
Qed.

Example acceptNewKey_changed_plain_key :
  exists e,
    hostkey.acceptNewKey scenario.verifier
      (certchecker.CheckHostKey (fun _ => certchecker.HostCert) scenario.known_hosts)
      "backup.example.com:22" scenario.key2 scenario.quiet [] = (Ret (Some e), []) /\
    strings.Contains (Error e) "backup.example.com:22" = true /\
    strings.Contains (Error e) "/home/ops/.ssh/known_hosts" = true.
Proof. eexists. split; [reflexivity |]. split; vm_compute; reflexivity. Qed.

(** Every error of the callback that is not a [KeyError] with a
    non-empty [Want] sends the closure down the path written for an
    unknown host: three warnings on standard error, the trust file opened
    for appending, the line for the key written, the file closed; the
    result is success when opening and writing succeeded. *)
Lemma acceptNewKey_append_path v callback hostname key err (o : Oracle) (t : Trace) :
  callback hostname key = Some err ->
  (forall k ks, err <> KeyError (k :: ks)) ->
  let path := hostkey.knownHostsPath v in
  let t1 := t ++ [Ev (Stderr ("WARNING: Unknown host " +:+ hostname +:+ newline)) tt;
                  Ev (Stderr ("Fingerprint: " +:+ key_fingerprint key +:+ newline)) tt;
                  Ev (Stderr ("Adding new host key to " +:+ path +:+ newline)) tt] in
  let open := OsOpenFile path AppendWrite 384 in
  let t2 := t1 ++ [Ev open (o _ t1 open)] in
  let write := FileWriteString path (knownhosts.Line hostname key +:+ newline) in
  let t3 := t2 ++ [Ev write (o _ t2 write)] in
  hostkey.acceptNewKey v callback hostname key o t =
  match o _ t1 open with
  | Some err =>
      (Ret (Some (Errorf_w "failed to add host key: "
                    (Errorf_w "failed to open known_hosts: " err "") "")), t2)
  | None =>
      (Ret match o _ t2 write with
           | Some err =>
               Some (Errorf_w "failed to add host key: "
                       (Errorf_w "failed to write to known_hosts: " err "") "")
           | None => None
           end,
       t3 ++ [Ev (FileClose path) (o _ t3 (FileClose path))])
  end.
Proof.
  intros Hcallback Hother path t1 open t2 write t3.
  unfold hostkey.acceptNewKey. rewrite Hcallback.
  assert (forall A (x y : A),
            match err with KeyError (_ :: _) => x | _ => y end = y) as Hbranch.
  { intros A x y. destruct err as [| | | [| k ks]]; try reflexivity. by destruct (Hother k ks). }
  rewrite Hbranch. clear Hbranch.
  unfold hostkey.addHostKey. subst t1 t2 t3 open write. run. traces. fold path.
  destruct (o _ _ (OsOpenFile path AppendWrite 384)) as [e |]; run; [reflexivity |].
  rewrite run_defer. run. traces.
  destruct (o _ _ (FileWriteString path _)) as [e |]; run; cbn [fst snd]; traces;
    reflexivity.
Qed.

(** C2 (the code departs from it).  In accept-new mode, a host that has a
    record in the trust file presents, instead of a recorded key, a
    certificate.  The check of the records would report the mismatch, but
    the callback [knownhosts.New] returns refuses a certificate before
    that, with an error that is not a [KeyError]; the closure takes every
    such error for an unknown host: it warns, opens the trust file, appends
    the line for the presented key, and returns success when the file
    could be opened and written. *)
Theorem acceptNewKey_certificate_of_known_host_accepted v certType lines hostname key
    (o : Oracle) (t : Trace) :
  (exists l, In l lines /\ ssh_types.hostname l = hostname) ->
  (forall l, In l lines -> ssh_types.hostname l = hostname ->
             key_blob (ssh_types.key l) <> key_blob key) ->
  certchecker.is_certificate key = true ->
  let path := hostkey.knownHostsPath v in
  let t1 := t ++ [Ev (Stderr ("WARNING: Unknown host " +:+ hostname +:+ newline)) tt;
                  Ev (Stderr ("Fingerprint: " +:+ key_fingerprint key +:+ newline)) tt;
                  Ev (Stderr ("Adding new host key to " +:+ path +:+ newline)) tt] in
  let open := OsOpenFile path AppendWrite 384 in
  let t2 := t1 ++ [Ev open (o _ t1 open)] in
  let write := FileWriteString path (knownhosts.Line hostname key +:+ newline) in
  let t3 := t2 ++ [Ev write (o _ t2 write)] in
  (exists k ks, knownhosts.check lines hostname key = Some (KeyError (k :: ks))) /\
  hostkey.acceptNewKey v (certchecker.CheckHostKey certType lines) hostname key o t =
  match o _ t1 open with
  | Some err =>
      (Ret (Some (Errorf_w "failed to add host key: "
                    (Errorf_w "failed to open known_hosts: " err "") "")), t2)
  | None =>
      (Ret match o _ t2 write with
           | Some err =>
               Some (Errorf_w "failed to add host key: "
                       (Errorf_w "failed to write to known_hosts: " err "") "")
           | None => None
           end,
       t3 ++ [Ev (FileClose path) (o _ t3 (FileClose path))])
  end.
Proof.
  intros Hknown Hdiff Hcert path t1 open t2 write t3.
  split; [by apply check_changed_key |].
  assert (exists msg, certchecker.CheckHostKey certType lines hostname key
                      = Some (errorString msg)) as [msg Hrefused].
  { unfold certchecker.CheckHostKey. rewrite Hcert.
    destruct (negb (certType key =? certchecker.HostCert)); by eexists. }
  apply (acceptNewKey_append_path v _ hostname key (errorString msg) o t Hrefused).
  intros k ks. discriminate.
Qed.

Lemma acceptNewKey_certificate_of_known_host_accepted_witness :
  (exists l, In l scenario.known_hosts /\ ssh_types.hostname l = "backup.example.com:22") /\
  (forall l, In l scenario.known_hosts -> ssh_types.hostname l = "backup.example.com:22" ->
             key_blob (ssh_types.key l) <> key_blob scenario.certificate) /\
  certchecker.is_certificate scenario.certificate = true /\
  hostkey.acceptNewKey scenario.verifier
    (certchecker.CheckHostKey (fun _ => certchecker.HostCert) scenario.known_hosts)
    "backup.example.com:22" scenario.certificate scenario.quiet [] =
  (Ret None,
   [Ev (Stderr ("WARNING: Unknown host backup.example.com:22" +:+ newline)) tt;
    Ev (Stderr ("Fingerprint: SHA256:cert" +:+ newline)) tt;
    Ev (Stderr ("Adding new host key to /home/ops/.ssh/known_hosts" +:+ newline)) tt;
    Ev (OsOpenFile "/home/ops/.ssh/known_hosts" AppendWrite 384) None;
    Ev (FileWriteString "/home/ops/.ssh/known_hosts"
          ("backup.example.com ssh-ed25519-cert-v01@openssh.com "
           +:+ "AAAAIHNzaC1lZDI1NTE5LWNlcnQtdjAxQG9wZW5zc2guY29tAAAAIKeyCert" +:+ newline))
       None;
    Ev (FileClose "/home/ops/.ssh/known_hosts") None]).
Proof.
  assert (exists l, In l scenario.known_hosts /\
                    ssh_types.hostname l = "backup.example.com:22") as H1.
  { eexists. split; [left; reflexivity | reflexivity]. }
  assert (forall l, In l scenario.known_hosts ->
                    ssh_types.hostname l = "backup.example.com:22" ->
                    key_blob (ssh_types.key l) <> key_blob scenario.certificate) as H2.
  { intros l [<- | []] _. vm_compute. discriminate. }
  assert (certchecker.is_certificate scenario.certificate = true) as H3 by reflexivity.
  split; [exact H1 | split; [exact H2 | split; [exact H3 |]]].
  destruct (acceptNewKey_certificate_of_known_host_accepted scenario.verifier
              (fun _ => certchecker.HostCert) scenario.known_hosts
              "backup.example.com:22" scenario.certificate scenario.quiet [] H1 H2 H3)
    as [_ Hrun].
  rewrite Hrun. reflexivity.
Defined.

(** ** Volume discovery *)

Section Discovery.
Import docker_types.
Context (c : docker_types.Client) (o : Oracle)
        (inspect : string -> ContainerInfo + error).
Hypothesis inspect_stable : forall (t : Trace) name, o _ t (DockerInspect name) = inspect name.

Lemma ListVolumes_run containerName (t : Trace) :
  docker.ListVolumes c containerName o t =
  (Ret match inspect containerName with
       | inl _ => inl (listed inspect containerName)
       | inr err => inr err
       end,
   t ++ [Ev (DockerInspect containerName) (inspect containerName)]).
Proof.
  unfold docker.ListVolumes, docker.InspectContainer, listed. run.
  rewrite inspect_stable. by destruct (inspect containerName).
Qed.

Lemma GetVolumeMountPoints_run containerName volumeName (t : Trace) :
  exists r,
    docker.GetVolumeMountPoints c containerName volumeName o t =
    (Ret r, t ++ [Ev (DockerInspect containerName) (inspect containerName)]).
Proof.
  unfold docker.GetVolumeMountPoints, docker.InspectContainer. run.
  rewrite inspect_stable. destruct (inspect containerName) as [info | err]; [| by eexists].
  destruct (find _ (Mounts info)); by eexists.
Qed.

(** The inner loop returns, keeps the entries it finds, and adds one
    entry, owned by this container, for each volume not in the map. *)
Lemma volumes_loop_run containerName volumes (volumeMap : gmap string VolumeInfo) (t : Trace) :
  exists volumeMap' t',
    docker.volumes_loop c containerName volumes volumeMap o t = (Ret volumeMap', t') /\
    (forall vn info, volumeMap !! vn = Some info -> volumeMap' !! vn = Some info) /\
    (forall vn info, volumeMap !! vn = None -> volumeMap' !! vn = Some info ->
                     vn ∈ volumes /\ Name info = vn /\ Container info = containerName) /\
    (forall vn, vn ∈ volumes -> is_Some (volumeMap' !! vn)).
Proof.
  revert volumeMap t. induction volumes as [| v rest IH]; intros volumeMap t.
  - exists volumeMap, t. cbn [docker.volumes_loop]. run.
    split; [done |]. split; [done |]. split; [congruence |].
    intros vn Hin. by apply elem_of_nil in Hin.
  - cbn [docker.volumes_loop]. destruct (volumeMap !! v) as [info0 |] eqn:Hv.
    + destruct (IH volumeMap t) as (vm' & t' & Hrun & Hkeep & Hnew & Hall).
      exists vm', t'. split; [done |]. split; [done |]. split.
      * intros vn info Hnone Hsome. destruct (Hnew vn info Hnone Hsome) as (? & ? & ?).
        split; [by apply list_elem_of_further | done].
      * intros vn [-> | Hin]%elem_of_cons; [| by apply Hall].
        rewrite (Hkeep v info0 Hv). done.
    + rewrite run_bind.
      destruct (GetVolumeMountPoints_run containerName v t) as [r ->].
      unfold docker.GetVolumeSize. run.
      match goal with
      | |- context [ docker.volumes_loop c containerName rest ?vm o ?tr ] =>
          destruct (IH vm tr) as (vm' & t' & Hrun & Hkeep & Hnew & Hall)
      end.
      exists vm', t'. split; [exact Hrun |]. split; [| split].
      * intros vn info Hsome. apply Hkeep.
        rewrite lookup_insert_ne; [done |]. intros <-. congruence.
      * intros vn info Hnone Hsome. destruct (decide (v = vn)) as [<- | Hne].
        -- erewrite Hkeep in Hsome by apply lookup_insert_eq.
           injection Hsome as <-. cbn. split; [by apply list_elem_of_here | done].
        -- destruct (Hnew vn info) as (? & ? & ?); [by rewrite lookup_insert_ne | done |].
           split; [by apply list_elem_of_further | done].
      * intros vn [-> | Hin]%elem_of_cons; [| by apply Hall].
        erewrite Hkeep by apply lookup_insert_eq. done.
Qed.

Lemma first_referencing_cons cn rest vn :
  first_referencing inspect (cn :: rest) vn =
  if bool_decide (vn ∈ listed inspect cn) then Some cn
  else first_referencing inspect rest vn.
Proof. reflexivity. Qed.

(** The outer loop: entries found are kept; an entry that is added
    belongs to the first container that lists the volume; every listed
    volume has an entry. *)
Lemma containers_loop_run containerNames (volumeMap : gmap string VolumeInfo) (t : Trace) :
  (forall cn, cn ∈ containerNames -> exists info, inspect cn = inl info) ->
  exists volumeMap' t',
    docker.containers_loop c containerNames volumeMap o t = (Ret (inl volumeMap'), t') /\
    (forall vn info, volumeMap !! vn = Some info -> volumeMap' !! vn = Some info) /\
    (forall vn info, volumeMap !! vn = None -> volumeMap' !! vn = Some info ->
                     Name info = vn /\
                     first_referencing inspect containerNames vn = Some (Container info)) /\
    (forall cn vn, cn ∈ containerNames -> vn ∈ listed inspect cn ->
                   is_Some (volumeMap' !! vn)).
Proof.
  revert volumeMap t. induction containerNames as [| cn rest IH]; intros volumeMap t Hok.
  - exists volumeMap, t. cbn [docker.containers_loop]. run.
    split; [done |]. split; [done |]. split; [congruence |].
    intros cn vn Hin. by apply elem_of_nil in Hin.
  - cbn [docker.containers_loop]. run. rewrite ListVolumes_run.
    destruct (Hok cn) as [info0 Hinfo]; [by apply list_elem_of_here |].
    rewrite Hinfo. run.
    match goal with
    | |- context [ docker.volumes_loop c cn ?vols volumeMap o ?tr ] =>
        destruct (volumes_loop_run cn vols volumeMap tr)
          as (vm1 & t1 & Hrun1 & Hkeep1 & Hnew1 & Hall1)
    end.
    rewrite Hrun1.
    destruct (IH vm1 t1) as (vm' & t' & Hrun & Hkeep & Hnew & Hall).
    { intros cn' Hin. apply Hok. by apply list_elem_of_further. }
    exists vm', t'. split; [exact Hrun |]. split; [| split].
    + intros vn info Hsome. by apply Hkeep, Hkeep1.
    + intros vn info Hnone Hsome. rewrite first_referencing_cons.
      destruct (vm1 !! vn) as [info1 |] eqn:H1.
      * rewrite (Hkeep vn info1 H1) in Hsome. injection Hsome as <-.
        destruct (Hnew1 vn info1 Hnone H1) as (Hin & Hname & Hcont).
        rewrite bool_decide_eq_true_2 by done. by rewrite Hcont.
      * destruct (Hnew vn info H1 Hsome) as [Hname Hfirst].
        rewrite bool_decide_eq_false_2; [done |].
        intros Hin. apply Hall1 in Hin as [x Hx]. congruence.
    + intros cn' vn [-> | Hin]%elem_of_cons Hvn.
      * destruct (Hall1 vn Hvn) as [x Hx]. rewrite (Hkeep vn x Hx). done.
      * by apply (Hall cn').
Qed.

End Discovery.

(** C8.  When the runtime answers every inspection of a container in the
    same way and knows all the containers, discovery returns a list in
    which each volume name occurs at most once, every volume belongs to
    the first container, in list order, that lists it, and every listed
    volume is present. *)
Theorem GetAllVolumesInfo_deduplicates c (o : Oracle) inspect containerNames (t : Trace) :
  (forall (t : Trace) name, o _ t (DockerInspect name) = inspect name) ->
  (forall cn, cn ∈ containerNames -> exists info, inspect cn = inl info) ->
  exists result t',
    docker.GetAllVolumesInfo c containerNames o t = (Ret (inl result), t') /\
    NoDup (docker_types.Name <$> result) /\
    (forall info, info ∈ result ->
       first_referencing inspect containerNames (docker_types.Name info)
       = Some (docker_types.Container info)) /\
    (forall cn vn, cn ∈ containerNames -> vn ∈ listed inspect cn ->
       vn ∈ docker_types.Name <$> result).
Proof.
  intros Hstable Hok.
  destruct (containers_loop_run c o inspect Hstable containerNames ∅ t Hok)
    as (vm & t' & Hrun & _ & Hnew & Hall).
  exists ((map_to_list vm).*2), t'.
  assert (forall vn info, vm !! vn = Some info ->
            docker_types.Name info = vn /\
            first_referencing inspect containerNames vn = Some (docker_types.Container info))
    as Hentry.
  { intros vn info. apply Hnew, lookup_empty. }
  assert (docker_types.Name <$> (map_to_list vm).*2 = (map_to_list vm).*1) as Hnames.
  { rewrite <- list_fmap_compose. apply list_fmap_ext.
    intros i [vn info] Hi. cbn.
    apply list_elem_of_lookup_2, elem_of_map_to_list in Hi. by destruct (Hentry vn info Hi). }
  split; [| split; [| split]].
  - unfold docker.GetAllVolumesInfo. run. by rewrite Hrun.
  - rewrite Hnames. apply NoDup_fst_map_to_list.
  - intros info [[vn info'] [-> Hin]]%list_elem_of_fmap. cbn.
    apply elem_of_map_to_list in Hin. destruct (Hentry vn info' Hin) as [-> Hfirst]. done.
  - intros cn vn Hcn Hvn. rewrite Hnames.
    destruct (Hall cn vn Hcn Hvn) as [info Hinfo].
    apply list_elem_of_fmap. exists (vn, info). split; [done |].
    by apply elem_of_map_to_list.
Qed.

Lemma GetAllVolumesInfo_deduplicates_witness :
  (forall (t : Trace) name,
     scenario.web_worker _ t (DockerInspect name) = scenario.inspect name) /\
  (forall cn, cn ∈ ["web"; "worker"] -> exists info, scenario.inspect cn = inl info) /\
  exists result t',
    docker.GetAllVolumesInfo {| docker_types.sudo_required := false |} ["web"; "worker"]
      scenario.web_worker [] = (Ret (inl result), t') /\
    NoDup (docker_types.Name <$> result) /\
    result = [ {| docker_types.Name := "shared"; docker_types.Container := "web";
                  docker_types.MountPath := "/data"; docker_types.Size := "1MB";
                  docker_types.SizeBytes := 1048576; docker_types.Selected := true |} ].
Proof.
  assert (forall (t : Trace) name,
            scenario.web_worker _ t (DockerInspect name) = scenario.inspect name) as H1
    by reflexivity.
  assert (forall cn, cn ∈ ["web"; "worker"] -> exists info, scenario.inspect cn = inl info)
    as H2.
  { intros cn [-> | [-> | []%elem_of_nil]%elem_of_cons]%elem_of_cons; by eexists. }
  split; [exact H1 | split; [exact H2 |]].
  destruct (GetAllVolumesInfo_deduplicates {| docker_types.sudo_required := false |}
              scenario.web_worker scenario.inspect ["web"; "worker"] [] H1 H2)
    as (result & t' & Hrun & Hnodup & _ & _).
  exists result, t'. split; [exact Hrun |]. split; [exact Hnodup |].
  vm_compute in Hrun. by injection Hrun as <- _.
Defined.

Example GetAllVolumesInfo_web_worker :
  (docker.GetAllVolumesInfo {| docker_types.sudo_required := false |} ["web"; "worker"]
     scenario.web_worker []).1 =
  Ret (inl [ {| docker_types.Name := "shared"; docker_types.Container := "web";
                docker_types.MountPath := "/data"; docker_types.Size := "1MB";
                docker_types.SizeBytes := 1048576; docker_types.Selected := true |} ]).
Proof. vm_compute. reflexivity. Qed.

(** ** The migration workflow *)

Section Cleanup.
Import migrator.




End Cleanup.




(** With the same environment but a working export, the cleanup calls
    are there. *)
Example Migrate_import_failure_cleans_up :
  existsb is_cleanup (snd scenario.import_failure_run) = true.
Proof. vm_compute. reflexivity. Qed.

(** ** Where cleanup calls can come from *)

Lemma cleanup_free_ret {A} (a : A) : cleanup_free (mret a).
Proof. intros o t. exists []. by rewrite app_nil_r. Qed.

Lemma cleanup_free_panic {A} msg : cleanup_free (panic (A := A) msg).
Proof. intros o t. exists []. by rewrite app_nil_r. Qed.

Lemma cleanup_free_bind {A B} (m : M A) (f : A -> M B) :
  cleanup_free m -> (forall a, cleanup_free (f a)) -> cleanup_free (m ≫= f).
Proof.
  intros Hm Hf o t. rewrite run_bind.
  destruct (Hm o t) as (es & Hes & Hq). destruct (m o t) as [[a | p] t']; cbn in Hes; subst t'.
  - destruct (Hf a o (t ++ es)) as (es' & Hes' & Hq'). exists (es ++ es').
    rewrite Hes', app_assoc, existsb_app, Hq, Hq'. done.
  - exists es. done.
Qed.

Lemma cleanup_free_call {R} (c : Call R) :
  (forall r, is_cleanup (Ev c r) = false) -> cleanup_free (call c).
Proof.
  intros Hc o t. rewrite run_call. eexists [_]. split; [reflexivity |].
  cbn [existsb]. by rewrite Hc.
Qed.

Lemma cleanup_free_log lvl msg :
  is_cleanup (Ev (Log lvl msg None) tt) = false -> cleanup_free (log lvl msg).
Proof.
  intros Hc o t. rewrite run_log. eexists [_]. split; [reflexivity |].
  cbn [existsb]. by rewrite Hc.
Qed.

Lemma cleanup_free_logw lvl msg err :
  is_cleanup (Ev (Log lvl msg None) tt) = false -> cleanup_free (logw lvl msg err).
Proof.
  intros Hc o t. rewrite run_logw. eexists [_]. split; [reflexivity |].
  cbn [existsb].
  change (is_cleanup (Ev (Log lvl msg (Some err)) tt))
    with (is_cleanup (Ev (Log lvl msg None) tt)).
  by rewrite Hc.
Qed.

(** One step of a proof that a piece of code is cleanup-free: through the
    binds and the case distinctions, down to the calls. *)
Ltac quiet_step :=
  match goal with
  | |- cleanup_free (mret _) => apply cleanup_free_ret
  | |- cleanup_free (ret _) => apply cleanup_free_ret
  | |- cleanup_free (panic _) => apply cleanup_free_panic
  | |- cleanup_free (_ ≫= _) => apply cleanup_free_bind; [| intros ?]
  | |- cleanup_free (log _ _) => apply cleanup_free_log; reflexivity
  | |- cleanup_free (logw _ _ _) => apply cleanup_free_logw; reflexivity
  | |- cleanup_free (call _) => apply cleanup_free_call; intros ?; reflexivity
  | |- cleanup_free (match ?x with _ => _ end) => destruct x
  | |- cleanup_free (if ?b then _ else _) => destruct b
  | |- cleanup_free (let _ := _ in _) => cbv zeta
  end.

Ltac quiet := repeat quiet_step.

Section CleanupFree.
Context `{GoLib}.

Lemma GetAllVolumesInfo_cleanup_free c containerNames :
  cleanup_free (docker.GetAllVolumesInfo c containerNames).
Proof.
  assert (forall cn vols vm, cleanup_free (docker.volumes_loop c cn vols vm)) as Hinner.
  { intros cn vols. induction vols as [| v rest IH]; intros vm; cbn [docker.volumes_loop].
    - quiet.
    - unfold docker.GetVolumeMountPoints, docker.GetVolumeSize, docker.InspectContainer.
      quiet; apply IH. }
  assert (forall cns vm, cleanup_free (docker.containers_loop c cns vm)) as Houter.
  { intros cns. induction cns as [| cn rest IH]; intros vm; cbn [docker.containers_loop].
    - quiet.
    - unfold docker.ListVolumes, docker.InspectContainer. quiet; [apply Hinner | apply IH]. }
  unfold docker.GetAllVolumesInfo. quiet. apply Houter.
Qed.

Lemma validate_disk_space_cleanup_free m volumes :
  cleanup_free (migrator.validate_disk_space m volumes).
Proof. unfold migrator.validate_disk_space, migrator.check_space. quiet. Qed.

Lemma exportVolumes_cleanup_free m dockerClient volumeNames :
  cleanup_free (migrator.exportVolumes m dockerClient volumeNames).
Proof.
  assert (forall dir vols paths,
            cleanup_free (migrator.ExportVolumes_loop dockerClient vols dir paths)) as Hloop.
  { intros dir vols. induction vols as [| v rest IH]; intros paths;
      cbn [migrator.ExportVolumes_loop].
    - quiet.
    - unfold migrator.ExportVolume. quiet; apply IH. }
  unfold migrator.exportVolumes, migrator.ExportVolumes. quiet. apply Hloop.
Qed.

Lemma Migrate_until_exported_cleanup_free m dockerClient sshClient :
  cleanup_free (migrator.Migrate_until_exported m dockerClient sshClient).
Proof.
  unfold migrator.Migrate_until_exported, migrator.discoverVolumes.
  quiet;
    first [ apply GetAllVolumesInfo_cleanup_free
          | apply validate_disk_space_cleanup_free
          | apply exportVolumes_cleanup_free ].
Qed.

End CleanupFree.

(** A run of [Migrate] in which a call of the cleanup step occurs is a run
    in which the export phase has succeeded: every earlier return
    (initialisation, discovery, selection, space validation, dry run,
    export failure) leaves without cleanup. *)
Lemma Migrate_cleanup_only_after_export `{GoLib} m (o : Oracle) :
  existsb is_cleanup (snd (migrator.Migrate m o [])) = true ->
  exists dockerClient sshClient t1 volumeNames archivePaths t2,
    migrator.Migrate_until_exported m dockerClient sshClient o t1
    = (Ret (migrator.Exported volumeNames archivePaths), t2).
Proof.
  unfold migrator.Migrate. run. traces.
  destruct (o _ _ DockerDetect) as [dockerClient | err]; run; [| discriminate].
  traces. destruct (o _ _ (SSHConnect _)) as [sshClient | err]; run; [| discriminate].
  rewrite run_defer. run. traces.
  match goal with
  | |- context [ migrator.Migrate_until_exported m dockerClient sshClient o ?t1 ] =>
      set (start := t1);
      destruct (Migrate_until_exported_cleanup_free m dockerClient sshClient o start)
        as (es & Hes & Hquiet)
  end.
  destruct (migrator.Migrate_until_exported m dockerClient sshClient o start)
    as [[[result | names paths] | p] t2] eqn:Hrun; cbn [snd] in Hes; subst t2.
  - run. cbn [fst snd]. rewrite !existsb_app, Hquiet. subst start. cbn. discriminate.
  - intros _. by exists dockerClient, sshClient, start, names, paths, (start ++ es).
  - cbn [fst snd]. run. rewrite !existsb_app, Hquiet. subst start. cbn. discriminate.
Qed.

(** ** The space estimate *)

(** C9.  [CalculateRequiredSpace] multiplies the size, converted to a
    float64, by the float64 nearest to 1.10 (less than half a unit in the
    last place away from 11/10) and truncates; for 1,000,000 bytes the
    conversion is exact, the product is exactly the float64 1,100,000, and
    the result is 1,100,000. *)
Theorem CalculateRequiredSpace_ten_percent :
  (forall n, utils.CalculateRequiredSpace n =
             utils.int64_of_float64
               (SFmul utils.prec utils.emax (utils.float64_of_int n) utils.buffer)) /\
  utils.buffer = S754_finite false 4953959590107546 (-52) /\
  Z.abs (10 * 4953959590107546 - 11 * 2 ^ 52) < 5 /\
  utils.float64_of_int 1000000 = S754_finite false 8589934592000000 (-33) /\
  8589934592000000 = 1000000 * 2 ^ 33 /\
  SFmul utils.prec utils.emax (utils.float64_of_int 1000000) utils.buffer
  = utils.float64_of_int 1100000 /\
  utils.CalculateRequiredSpace 1000000 = 1100000.
Proof. repeat split; vm_compute; reflexivity. Qed.

(** The estimate is the integer part of 11n/10 for every size up to 2000
    bytes and for the powers of ten up to 10^14; the rounding of the
    product shows at larger sizes, for instance at 2^49 + 7. *)
Example CalculateRequiredSpace_small_sizes :
  forallb (fun n => utils.CalculateRequiredSpace n =? 11 * n / 10)
          (Z.of_nat <$> seq 0 2001) = true /\
  forallb (fun n => utils.CalculateRequiredSpace n =? 11 * n / 10)
          ((fun k => 10 ^ Z.of_nat k) <$> seq 0 15) = true /\
  utils.CalculateRequiredSpace (2 ^ 49 + 7) <> 11 * (2 ^ 49 + 7) / 10.
Proof. split; [| split]; vm_compute; [reflexivity | reflexivity | discriminate]. Qed.

(** ** More on the shell helpers *)

Section ShellMore.
Import strings shell.

(** Where the pattern does not occur, nothing is replaced. *)
Lemma ReplaceAll_absent a new s :
  Contains s (String a (String a EmptyString)) = false ->
  ReplaceAll s (String a (String a EmptyString)) new = s.
Proof.
  induction s as [| c | c d t IHt IHdt] using string_ind2; intros Hno.
  - done.
  - by rewrite ReplaceAll_single.
  - rewrite ReplaceAll_pair. cbn [Contains] in Hno.
    rewrite !HasPrefix_cons, HasPrefix_nil, andb_true_r in Hno.
    apply orb_false_iff in Hno as [Hhere Hrest].
    rewrite Hhere. f_equal. apply IHdt.
    cbn [Contains]. rewrite HasPrefix_cons. exact Hrest.
Qed.

Lemma collapse_slashes_absent fuel s :
  Contains s "//" = false -> collapse_slashes fuel s = s.
Proof. intros Hno. destruct fuel; [done |]. cbn [collapse_slashes]. by rewrite Hno. Qed.

End ShellMore.

(** X1.  [SanitizePathForRemote] is idempotent: a path that has been
    sanitised is left as it is by a second pass. *)
Theorem SanitizePathForRemote_idempotent p :
  shell.SanitizePathForRemote (shell.SanitizePathForRemote p) = shell.SanitizePathForRemote p.
Proof.
  destruct (sanitize_no_dotdot p) as [Hdd Hslash].
  pose proof (sanitize_no_double_slash p) as Hdouble.
  set (q := shell.SanitizePathForRemote p) in *.
  unfold shell.SanitizePathForRemote.
  rewrite (ReplaceAll_absent "." "" q Hdd), Hslash.
  by apply collapse_slashes_absent.
Qed.

Lemma all_runes_impl (p q : ascii -> bool) s :
  (forall c, p c = true -> q c = true) ->
  shell.all_runes p s = true -> shell.all_runes q s = true.
Proof.
  intros Hpq. induction s as [| c s IH]; [done |]. cbn [shell.all_runes].
  intros [Hc Hs]%andb_true_iff. by rewrite (Hpq c Hc), IH.
Qed.

Lemma ValidateVolumeName_inv name :
  shell.ValidateVolumeName name = true ->
  name <> EmptyString /\ (String.length name <= 255)%nat /\
  strings.Contains name ".." = false /\ strings.Contains name "/" = false /\
  shell.all_runes shell.name_rune name = true.
Proof.
  unfold shell.ValidateVolumeName. destruct name as [| c0 rest]; [done |].
  destruct (255 <? _)%nat eqn:Hlen; [done |]. apply Nat.ltb_ge in Hlen.
  destruct (Ascii.eqb c0 "-" || Ascii.eqb c0 "."); [done |].
  destruct (strings.Contains (String c0 rest) "..") eqn:Hdd; [done |].
  destruct (strings.Contains (String c0 rest) "/") eqn:Hsl; [done |].
  cbn [orb]. destruct (strings.Contains (String c0 rest) "\"); [done |].
  intros Hrunes. done.
Qed.

(** X2.  A name accepted by [ValidateVolumeName] is a safe string:
    [ShellEscape] returns it as it is, and the remote shell reads it as
    one word standing for itself. *)
Theorem ValidateVolumeName_shell_safe name :
  shell.ValidateVolumeName name = true ->
  shell.isSafeString name = true /\
  shell.ShellEscape name = name /\
  sh.token name = Some name.
Proof.
  intros (Hne & _ & Hdd & _ & Hrunes)%ValidateVolumeName_inv.
  assert (shell.all_runes shell.safe_rune name = true) as Hsafe.
  { revert Hrunes. apply all_runes_impl. intros c. unfold shell.name_rune, shell.safe_rune.
    intros ->. done. }
  assert (shell.isSafeString name = true) as His.
  { unfold shell.isSafeString. destruct (String.eqb_spec name "") as [-> | _]; [done |].
    by rewrite Hdd. }
  split; [exact His |]. split.
  - unfold shell.ShellEscape. by rewrite His.
  - destruct name; [done |]. by apply word_safe.
Qed.

Lemma ValidateVolumeName_shell_safe_witness :
  shell.ValidateVolumeName "app_data-v1.0" = true /\
  shell.ShellEscape "app_data-v1.0" = "app_data-v1.0" /\
  sh.token "app_data-v1.0" = Some "app_data-v1.0".
Proof.
  split; [reflexivity |].
  exact (proj2 (ValidateVolumeName_shell_safe "app_data-v1.0" eq_refl)).
Defined.

(** The shell reads an escaped string back as one word, the string. *)
Lemma ShellEscape_token s : sh.token (shell.ShellEscape s) = Some s.
Proof.
  unfold shell.ShellEscape. destruct (shell.isSafeString s) eqn:Hsafe.
  - apply isSafeString_inv in Hsafe as [Hne Hrunes]. destruct s; [done |]. by apply word_safe.
  - rewrite append_cons, append_nil. cbn [sh.token sh.word]. apply word_quoted.
Qed.

(** X3.  [CreateDirectory] and [RemoveFile] send one command each,
    [mkdir -p] or [rm -f] followed by one operand; the remote shell reads
    that operand as a single word, the sanitised path (absolute, without
    ".."), whatever the path given; the result is the command's. *)
Theorem CreateDirectory_RemoveFile_operand c path (o : Oracle) (t : Trace) :
  let safePath := shell.SanitizePathForRemote path in
  let operand := shell.ShellEscape safePath in
  let mkdir := SessionRun ("mkdir -p " +:+ operand) in
  let rm := SessionRun ("rm -f " +:+ operand) in
  sh.token operand = Some safePath /\
  strings.Contains safePath ".." = false /\
  strings.HasPrefix safePath "/" = true /\
  ssh.CreateDirectory c path o t =
  (Ret match session_error (o _ t mkdir) with
       | Some err =>
           Some (Errorf_w ("failed to create directory " +:+ path +:+ " on remote host: ") err "")
       | None => None
       end,
   t ++ [Ev mkdir (o _ t mkdir)]) /\
  ssh.RemoveFile c path o t =
  (Ret match session_error (o _ t rm) with
       | Some err =>
           Some (Errorf_w ("failed to remove file " +:+ path +:+ " on remote host: ") err "")
       | None => None
       end,
   t ++ [Ev rm (o _ t rm)]).
Proof.
  intros safePath operand mkdir rm.
  destruct (sanitize_no_dotdot path) as [Hdd Habs].
  split; [apply ShellEscape_token |]. split; [exact Hdd |]. split; [exact Habs |]. split.
  - unfold ssh.CreateDirectory. run. rewrite RunCommand_run.
    fold safePath operand mkdir. by destruct (o _ t mkdir).
  - unfold ssh.RemoveFile. run. rewrite RunCommand_run.
    fold safePath operand rm. by destruct (o _ t rm).
Qed.

(** ** Host keys: unknown hosts, strict mode *)

Lemma knownKeys_unknown_host lines address known :
  (forall l, In l lines -> ssh_types.hostname l <> address) ->
  knownhosts.knownKeys lines address known = known.
Proof.
  revert known. induction lines as [| l rest IH]; intros known Hno; [done |].
  cbn [knownhosts.knownKeys].
  destruct (String.eqb_spec (ssh_types.hostname l) address) as [Heq | _].
  - destruct (Hno l); [by left | done].
  - cbn [andb]. apply IH. intros l' Hin. apply Hno. by right.
Qed.

(** X4.  In accept-new mode, for a host that has no record in the trust
    file, the callback warns on standard error, opens the trust file for
    appending, writes one line (the address in the form of the trust
    file, the key algorithm, the key) and closes the file; it accepts
    the key exactly when opening and writing succeeded, and nothing is
    written when the file cannot be opened. *)
Theorem acceptNewKey_unknown_host_recorded v lines hostname key (o : Oracle) (t : Trace) :
  (forall l, In l lines -> ssh_types.hostname l <> hostname) ->
  let path := hostkey.knownHostsPath v in
  let t1 := t ++ [Ev (Stderr ("WARNING: Unknown host " +:+ hostname +:+ newline)) tt;
                  Ev (Stderr ("Fingerprint: " +:+ key_fingerprint key +:+ newline)) tt;
                  Ev (Stderr ("Adding new host key to " +:+ path +:+ newline)) tt] in
  let open := OsOpenFile path AppendWrite 384 in
  let t2 := t1 ++ [Ev open (o _ t1 open)] in
  let write := FileWriteString path (knownhosts.Line hostname key +:+ newline) in
  let t3 := t2 ++ [Ev write (o _ t2 write)] in
  hostkey.acceptNewKey v (knownhosts.check lines) hostname key o t =
  match o _ t1 open with
  | Some err =>
      (Ret (Some (Errorf_w "failed to add host key: "
                    (Errorf_w "failed to open known_hosts: " err "") "")), t2)
  | None =>
      (Ret match o _ t2 write with
           | Some err =>
               Some (Errorf_w "failed to add host key: "
                       (Errorf_w "failed to write to known_hosts: " err "") "")
           | None => None
           end,
       t3 ++ [Ev (FileClose path) (o _ t3 (FileClose path))])
  end.
Proof.
  intros Hunknown.
  apply (acceptNewKey_append_path v _ hostname key (KeyError [])); [| discriminate].
  unfold knownhosts.check. by rewrite (knownKeys_unknown_host lines hostname [] Hunknown).
Qed.

Lemma acceptNewKey_unknown_host_recorded_witness :
  (forall l, In l scenario.known_hosts -> ssh_types.hostname l <> "db.example.com:2222") /\
  hostkey.acceptNewKey scenario.verifier (knownhosts.check scenario.known_hosts)
    "db.example.com:2222" scenario.key2 scenario.quiet [] =
  (Ret None,
   [Ev (Stderr ("WARNING: Unknown host db.example.com:2222" +:+ newline)) tt;
    Ev (Stderr ("Fingerprint: SHA256:two" +:+ newline)) tt;
    Ev (Stderr ("Adding new host key to /home/ops/.ssh/known_hosts" +:+ newline)) tt;
    Ev (OsOpenFile "/home/ops/.ssh/known_hosts" AppendWrite 384) None;
    Ev (FileWriteString "/home/ops/.ssh/known_hosts"
          ("[db.example.com]:2222 ssh-ed25519 AAAAC3NzaC1lZDI1NTE5AAAAIKeyTwo" +:+ newline)) None;
    Ev (FileClose "/home/ops/.ssh/known_hosts") None]).
Proof.
  assert (forall l, In l scenario.known_hosts -> ssh_types.hostname l <> "db.example.com:2222")
    as H by (intros l [<- | []]; discriminate).
  split; [exact H |].
  rewrite (acceptNewKey_unknown_host_recorded scenario.verifier scenario.known_hosts
             "db.example.com:2222" scenario.key2 scenario.quiet [] H).
  reflexivity.
Defined.



(** ** Discovery: what the entries hold, and failure *)

Section Entries.
Import docker_types.
Context (c : docker_types.Client) (o : Oracle)
        (inspect : string -> ContainerInfo + error)
        (sizes : string -> string * Z + error).
Hypothesis inspect_stable : forall (t : Trace) name, o _ t (DockerInspect name) = inspect name.
Hypothesis sizes_stable : forall (t : Trace) name, o _ t (DockerVolumeSize name) = sizes name.




End Entries.

(** The loop stops at the first container whose inspection fails. *)
Lemma containers_loop_fails c (o : Oracle) inspect pre cn post err
    (volumeMap : gmap string docker_types.VolumeInfo) (t : Trace) :
  (forall (t : Trace) name, o _ t (DockerInspect name) = inspect name) ->
  (forall cn', cn' ∈ pre -> exists info, inspect cn' = inl info) ->
  inspect cn = inr err ->
  exists t',
    docker.containers_loop c (pre ++ cn :: post) volumeMap o t =
    (Ret (inr (Errorf_w ("failed to list volumes for container " +:+ cn +:+ ": ") err "")),
     t' ++ [Ev (DockerInspect cn) (inr err)]).
Proof.
  intros inspect_stable Hok Hfail. revert volumeMap t. induction pre as [| cn0 pre IH]; intros volumeMap t.
  - exists t. cbn [app docker.containers_loop]. run.
    rewrite (ListVolumes_run c o inspect inspect_stable), Hfail. by run.
  - cbn [app docker.containers_loop]. run.
    rewrite (ListVolumes_run c o inspect inspect_stable).
    destruct (Hok cn0) as [info0 Hinfo]; [by apply list_elem_of_here |].
    rewrite Hinfo. run.
    match goal with
    | |- context [ docker.volumes_loop c cn0 ?vols volumeMap o ?tr ] =>
        destruct (volumes_loop_run c o inspect inspect_stable cn0 vols volumeMap tr)
          as (vm1 & t1 & Hrun1 & _)
    end.
    rewrite Hrun1. apply IH. intros cn' Hin. apply Hok. by apply list_elem_of_further.
Qed.




(** X7.  Discovery stops at the first container the runtime cannot
    inspect: it returns the error of that inspection, wrapped with the
    name of the container, and the failed inspection is the last call
    made (the containers after it are not looked at). *)
Theorem GetAllVolumesInfo_first_failure c (o : Oracle) inspect pre cn post err (t : Trace) :
  (forall (t : Trace) name, o _ t (DockerInspect name) = inspect name) ->
  (forall cn', cn' ∈ pre -> exists info, inspect cn' = inl info) ->
  inspect cn = inr err ->
  exists t',
    docker.GetAllVolumesInfo c (pre ++ cn :: post) o t =
    (Ret (inr (Errorf_w ("failed to list volumes for container " +:+ cn +:+ ": ") err "")),
     t' ++ [Ev (DockerInspect cn) (inr err)]).
Proof.
  intros Hstable Hok Hfail.
  destruct (containers_loop_fails c o inspect pre cn post err ∅ t Hstable Hok Hfail)
    as [t' Hrun].
  exists t'. unfold docker.GetAllVolumesInfo. run. by rewrite Hrun.
Qed.

Lemma GetAllVolumesInfo_first_failure_witness :
  (forall (t : Trace) name,
     scenario.web_worker _ t (DockerInspect name) = scenario.inspect name) /\
  (forall cn', cn' ∈ ["web"] -> exists info, scenario.inspect cn' = inl info) /\
  scenario.inspect "cache" = inr (errorString "container not found") /\
  fst (docker.GetAllVolumesInfo scenario.docker_client ["web"; "cache"; "worker"]
         scenario.web_worker []) =
  Ret (inr (Errorf_w "failed to list volumes for container cache: "
              (errorString "container not found") "")).
Proof.
  assert (forall (t : Trace) name,
            scenario.web_worker _ t (DockerInspect name) = scenario.inspect name) as H1
    by reflexivity.
  assert (forall cn', cn' ∈ ["web"] -> exists info, scenario.inspect cn' = inl info) as H2.
  { intros cn [-> | []%elem_of_nil]%elem_of_cons; by eexists. }
  split; [exact H1 | split; [exact H2 | split; [reflexivity |]]].
  destruct (GetAllVolumesInfo_first_failure scenario.docker_client scenario.web_worker
              scenario.inspect ["web"] "cache" ["worker"] (errorString "container not found")
              [] H1 H2 eq_refl) as [t' Hrun].
  cbn [app] in Hrun. by rewrite Hrun.
Defined.

(** ** Export, transfer and import of the volumes *)

Section ExportImport.
Context `{GoLib}.

(** A run of [ExportVolume] that returns success has got a successful
    answer from the export container and has seen the archive. *)
Lemma ExportVolume_success dockerClient volumeName outputPath (o : Oracle) (t t' : Trace) :
  migrator.ExportVolume dockerClient volumeName outputPath o t = (Ret None, t') ->
  exists es, t' = t ++ es /\ exported dockerClient outputPath volumeName es.
Proof.
  unfold migrator.ExportVolume, exported, export_args.
  destruct (shell.ValidateVolumeName volumeName) eqn:Hvalid; cbn [negb]; [| discriminate].
  run. destruct (o _ _ (OsMkdirAll _ _)) as [e |] eqn:Hmk; run; [discriminate |].
  destruct (o _ _ (DockerRun _ _)) as [stderr [e |]] eqn:Hrun; cbn [fst snd]; run;
    [discriminate |].
  match goal with |- context [IsNotExist (err_of ?s)] => set (first := s) end.
  destruct (IsNotExist (err_of first)); run; [discriminate |].
  match goal with
  | |- context [match ?s with inl _ => _ | inr _ => panic _ end] =>
      destruct s as [size | e] eqn:Hstat
  end; run; [| discriminate].
  intros [= <-]. traces.
  eexists. split; [reflexivity |]. split; [done |].
  exists stderr, size. split; simpl; auto 10.
Qed.

Lemma exported_app dockerClient archivePath volumeName es es' :
  exported dockerClient archivePath volumeName es \/
  exported dockerClient archivePath volumeName es' ->
  exported dockerClient archivePath volumeName (es ++ es').
Proof.
  unfold exported. intros [(Hv & stderr & size & H1 & H2) | (Hv & stderr & size & H1 & H2)];
    (split; [done |]); exists stderr, size; rewrite !in_app_iff; auto.
Qed.

Lemma ExportVolumes_loop_success dockerClient volumes outputDir
    (archivePaths0 archivePaths : gmap string string) (o : Oracle) (t t' : Trace) :
  migrator.ExportVolumes_loop dockerClient volumes outputDir archivePaths0 o t
  = (Ret (inl archivePaths), t') ->
  exists es,
    t' = t ++ es /\
    (forall name, name ∈ volumes ->
       exported dockerClient (filepath_Join outputDir (name +:+ ".tar.gz")) name es) /\
    (forall name, is_Some (archivePaths !! name) <->
                  name ∈ volumes \/ is_Some (archivePaths0 !! name)) /\
    (forall name, name ∈ volumes ->
                  archivePaths !! name = Some (filepath_Join outputDir (name +:+ ".tar.gz"))).
Proof.
  assert (forall volumes (archivePaths0 archivePaths : gmap string string) (t t' : Trace),
            migrator.ExportVolumes_loop dockerClient volumes outputDir archivePaths0 o t
            = (Ret (inl archivePaths), t') ->
            exists es,
              t' = t ++ es /\
              (forall name, name ∈ volumes ->
                 exported dockerClient (filepath_Join outputDir (name +:+ ".tar.gz")) name es) /\
              (forall name, is_Some (archivePaths !! name) <->
                            name ∈ volumes \/ is_Some (archivePaths0 !! name)) /\
              (forall name, name ∈ volumes ->
                 archivePaths !! name
                 = Some (filepath_Join outputDir (name +:+ ".tar.gz"))) /\
              (forall name, name ∉ volumes -> archivePaths !! name = archivePaths0 !! name))
    as Hgen.
  { clear. intros volumes. induction volumes as [| v rest IH]; intros archivePaths0 archivePaths t t'.
    - cbn [migrator.ExportVolumes_loop]. run. intros [= <- <-]. exists [].
      rewrite app_nil_r. split; [done |]. split; [by intros name ?%elem_of_nil |].
      split; [| split; [by intros name ?%elem_of_nil | done]].
      intros name. split; [by right | intros [?%elem_of_nil | ?]; done].
    - cbn [migrator.ExportVolumes_loop]. run.
      destruct (migrator.ExportVolume _ _ _ o t) as [[[e |] | p] t1] eqn:Hone; run;
        [discriminate | | discriminate].
      apply ExportVolume_success in Hone as (es1 & -> & Hone).
      intros (es & -> & Hexp & Hdom & Hval & Hrest)%IH.
      exists (es1 ++ es). split; [by rewrite app_assoc |].
      split; [| split; [| split]].
      + intros name [-> | Hin]%elem_of_cons; apply exported_app; [by left |].
        right. by apply Hexp.
      + intros name. rewrite Hdom, elem_of_cons.
        destruct (decide (name = v)) as [-> | Hne].
        * rewrite lookup_insert_eq. split; [auto | intros _; right; done].
        * rewrite lookup_insert_ne by done. intuition.
      + intros name [-> | Hin]%elem_of_cons.
        * destruct (decide (v ∈ rest)) as [Hin | Hnin]; [by apply Hval |].
          rewrite (Hrest v Hnin). apply lookup_insert_eq.
        * by apply Hval.
      + intros name [Hne Hnin]%not_elem_of_cons.
        rewrite (Hrest name Hnin). by rewrite lookup_insert_ne. }
  intros Hrun. destruct (Hgen _ _ _ _ _ Hrun) as (es & ? & ? & ? & ? & _). eauto.
Qed.

(** A run of [ImportVolume] that returns success has created and
    populated the volume. *)
Lemma ImportVolume_success c volumeName archivePath (o : Oracle) (t t' : Trace) :
  migrator.ImportVolume c volumeName archivePath o t = (Ret None, t') ->
  exists es, t' = t ++ es /\ imported c volumeName archivePath es.
Proof.
  unfold migrator.ImportVolume, imported.
  destruct (shell.ValidateVolumeName volumeName) eqn:Hvalid; cbn [negb]; [| discriminate].
  run. rewrite RunDockerCommand_run, RunCommand_run.
  change (docker_command c (migrator.createCmd volumeName)) with (create_command c volumeName).
  destruct (o _ _ (SessionRun (create_command c volumeName))) as [e | e s | out1];
    cbn [session_error]; run; [discriminate | discriminate |].
  rewrite RunDockerCommand_run, RunCommand_run.
  change (docker_command c (migrator.importCmd volumeName archivePath))
    with (populate_command c volumeName archivePath).
  destruct (o _ _ (SessionRun (populate_command c volumeName archivePath)))
    as [e | e s | out2]; cbn [session_error]; run.
  - rewrite RunDockerCommand_run, RunCommand_run.
    destruct (o _ _ (SessionRun (docker_command c (migrator.removeCmd volumeName))))
      as [e' | e' s' | out']; cbn [session_error]; run; discriminate.
  - rewrite RunDockerCommand_run, RunCommand_run.
    destruct (o _ _ (SessionRun (docker_command c (migrator.removeCmd volumeName))))
      as [e' | e' s' | out']; cbn [session_error]; run; discriminate.
  - intros [= <-]. traces. eexists. split; [reflexivity |]. split; [done |].
    exists out1, out2. split; simpl; auto 10.
Qed.

Lemma imported_app c volumeName archivePath es es' :
  imported c volumeName archivePath es \/ imported c volumeName archivePath es' ->
  imported c volumeName archivePath (es ++ es').
Proof.
  unfold imported. intros [(Hv & out1 & out2 & H1 & H2) | (Hv & out1 & out2 & H1 & H2)];
    (split; [done |]); exists out1, out2; rewrite !in_app_iff; auto.
Qed.

Lemma ImportVolumes_loop_success c entries remoteTempDir (o : Oracle) (t t' : Trace) :
  migrator.ImportVolumes_loop c entries remoteTempDir o t = (Ret None, t') ->
  exists es,
    t' = t ++ es /\
    forall name path, In (name, path) entries ->
      imported c name (filepath_Join remoteTempDir (filepath_Base path)) es.
Proof.
  revert t. induction entries as [| [name0 path0] rest IH]; intros t.
  - cbn [migrator.ImportVolumes_loop]. run. intros [= <-]. exists [].
    rewrite app_nil_r. split; [done | intros ? ? []].
  - cbn [migrator.ImportVolumes_loop]. run.
    destruct (migrator.ImportVolume _ _ _ o t) as [[[e |] | p] t1] eqn:Hone; run;
      [discriminate | | discriminate].
    apply ImportVolume_success in Hone as (es1 & -> & Hone).
    intros (es & -> & Himp)%IH. exists (es1 ++ es). split; [by rewrite app_assoc |].
    intros name path [[= <- <-] | Hin]; apply imported_app; [by left |].
    right. by apply Himp.
Qed.


End ExportImport.

(** X8.  When [ExportVolumes] returns its map, the map holds exactly the
    volumes asked for, each with the path of its archive in the output
    directory ([name.tar.gz]); every one of these names has passed
    [ValidateVolumeName], the export container has run for it without
    error and the archive has been seen on disk. *)
Theorem ExportVolumes_success `{GoLib} dockerClient volumes outputDir archivePaths
    (o : Oracle) (t : Trace) :
  fst (migrator.ExportVolumes dockerClient volumes outputDir o t) = Ret (inl archivePaths) ->
  (forall name, is_Some (archivePaths !! name) <-> name ∈ volumes) /\
  (forall name, name ∈ volumes ->
     archivePaths !! name = Some (filepath_Join outputDir (name +:+ ".tar.gz")) /\
     exported dockerClient (filepath_Join outputDir (name +:+ ".tar.gz")) name
       (snd (migrator.ExportVolumes dockerClient volumes outputDir o t))).
Proof.
  unfold migrator.ExportVolumes.
  destruct (migrator.ExportVolumes_loop dockerClient volumes outputDir ∅ o t) as [r t'] eqn:Hrun.
  cbn [fst snd]. intros ->.
  apply ExportVolumes_loop_success in Hrun as (es & -> & Hexp & Hdom & Hval).
  split.
  - intros name. rewrite Hdom, lookup_empty. split; [intros [? | [? ?]]; done | auto].
  - intros name Hin. split; [by apply Hval |]. apply exported_app. right. by apply Hexp.
Qed.

Lemma ExportVolumes_success_witness :
  fst scenario.export_run = Ret (inl scenario.archives) /\
  (forall name, is_Some (scenario.archives !! name) <-> name ∈ ["shared"]) /\
  exported (H := scenario.lib) scenario.docker_client "/tmp/volume-migration-1/shared.tar.gz"
    "shared" (snd scenario.export_run).
Proof.
  assert (fst scenario.export_run = Ret (inl scenario.archives)) as Hrun
    by (vm_compute; reflexivity).
  split; [exact Hrun |].
  destruct (ExportVolumes_success (H := scenario.lib) scenario.docker_client ["shared"]
              "/tmp/volume-migration-1" scenario.archives scenario.quiet [] Hrun)
    as [Hdom Hall].
  split; [exact Hdom |]. apply (Hall "shared"). by apply list_elem_of_here.
Defined.

(** X9.  When the export container has run without error but [os.Stat]
    of the archive fails for a reason other than the file's absence
    (both times it is called), [ExportVolume] does not return: the size
    is read through the nil [FileInfo] of the second call, which is a
    nil-pointer panic. *)
Theorem ExportVolume_stat_failure_panics `{GoLib} dockerClient volumeName outputPath
    (o : Oracle) (t : Trace) :
  shell.ValidateVolumeName volumeName = true ->
  (forall t' : Trace, o _ t' (OsMkdirAll (filepath_Dir outputPath) 493) = None) ->
  (forall t' : Trace,
     snd (o _ t' (DockerRun (docker_types.sudo_required dockerClient)
                    (export_args volumeName outputPath))) = None) ->
  (forall t' : Trace, exists e,
     o _ t' (OsStat outputPath) = inr e /\ IsNotExist (Some e) = false) ->
  fst (migrator.ExportVolume dockerClient volumeName outputPath o t)
  = Panic "invalid memory address or nil pointer dereference".
Proof.
  intros Hvalid Hmkdir Hdocker Hstat. unfold migrator.ExportVolume.
  rewrite Hvalid. cbn [negb]. run. rewrite Hmkdir. run.
  fold (export_args volumeName outputPath). rewrite Hdocker. run.
  match goal with |- context [IsNotExist (err_of (o _ ?tr (OsStat outputPath)))] =>
    destruct (Hstat tr) as (e & -> & He) end.
  cbn [err_of]. rewrite He. run.
  match goal with |- context [match o _ ?tr (OsStat outputPath) with _ => _ end] =>
    destruct (Hstat tr) as (e' & -> & _) end.
  reflexivity.
Qed.

Lemma ExportVolume_stat_failure_panics_witness :
  shell.ValidateVolumeName "shared" = true /\
  fst (migrator.ExportVolume (H := scenario.lib) scenario.docker_client "shared"
         "/tmp/volume-migration-1/shared.tar.gz" scenario.stat_denied [])
  = Panic "invalid memory address or nil pointer dereference".
Proof.
  split; [reflexivity |].
  apply (ExportVolume_stat_failure_panics (H := scenario.lib)); try reflexivity.
  intros t'. eexists. split; reflexivity.
Defined.

(** X10.  When the volume cannot be created on the remote host,
    [ImportVolume] returns the error of [docker volume create], wrapped
    with the volume name, and sends nothing else: no archive is
    unpacked and no volume is removed. *)
Theorem ImportVolume_creation_failure `{GoLib} c volumeName archivePath
    (o : Oracle) (t : Trace) err :
  shell.ValidateVolumeName volumeName = true ->
  let docker := if ssh_types.remoteSudo c then "sudo docker" else "docker" in
  let create := SessionRun (docker +:+ " volume create " +:+ volumeName) in
  let t1 := t ++ [Ev (Log DebugLevel "Importing volume on remote host" None) tt] in
  session_error (o _ t1 create) = Some err ->
  migrator.ImportVolume c volumeName archivePath o t =
  (Ret (Some (Errorf_w ("failed to create volume " +:+ volumeName +:+ " on remote: ") err "")),
   t1 ++ [Ev create (o _ t1 create)]).
Proof.
  intros Hvalid docker create t1 Hcreate.
  unfold migrator.ImportVolume. rewrite Hvalid. cbn [negb].
  run. fold t1. rewrite RunDockerCommand_run, RunCommand_run.
  change (SessionRun (docker_command c (migrator.createCmd volumeName))) with create.
  destruct (o _ t1 create) as [e | e s | out]; cbn [session_error] in *; run;
    [by injection Hcreate as <- | by injection Hcreate as <- | discriminate].
Qed.

Lemma ImportVolume_creation_failure_witness :
  shell.ValidateVolumeName "shared" = true /\
  migrator.ImportVolume (H := scenario.lib) scenario.client "shared"
    "/tmp/volume-migration-1/shared.tar.gz" scenario.create_fails [] =
  (Ret (Some (Errorf_w "failed to create volume shared on remote: "
                (Errorf_w "command failed: " (errorString "Process exited with status 1")
                   ", stderr: permission denied") "")),
   [Ev (Log DebugLevel "Importing volume on remote host" None) tt;
    Ev (SessionRun "docker volume create shared")
       (RunFailed (errorString "Process exited with status 1") "permission denied")]).
Proof.
  split; [reflexivity |].
  rewrite (ImportVolume_creation_failure (H := scenario.lib) scenario.client "shared"
             "/tmp/volume-migration-1/shared.tar.gz" scenario.create_fails []
             (Errorf_w "command failed: " (errorString "Process exited with status 1")
                ", stderr: permission denied"));
    reflexivity.
Defined.

(** X11.  When [ImportVolumes] returns without error, every volume of
    the map has a valid name and has been created and populated on the
    remote host, from the archive of that name in the remote staging
    directory, both commands succeeding. *)
Theorem ImportVolumes_success `{GoLib} c (archivePaths : gmap string string) remoteTempDir
    (o : Oracle) (t : Trace) :
  fst (migrator.ImportVolumes c archivePaths remoteTempDir o t) = Ret None ->
  exists es,
    snd (migrator.ImportVolumes c archivePaths remoteTempDir o t) = t ++ es /\
    forall name path, archivePaths !! name = Some path ->
      imported c name (filepath_Join remoteTempDir (filepath_Base path)) es.
Proof.
  unfold migrator.ImportVolumes.
  destruct (migrator.ImportVolumes_loop c (map_to_list archivePaths) remoteTempDir o t)
    as [r t'] eqn:Hrun.
  cbn [fst snd]. intros ->.
  apply ImportVolumes_loop_success in Hrun as (es & -> & Himp).
  exists es. split; [done |]. intros name path Hlook. apply Himp.
  by apply list_elem_of_In, elem_of_map_to_list.
Qed.

Lemma ImportVolumes_success_witness :
  fst scenario.import_run = Ret None /\
  exists es,
    snd scenario.import_run = es /\
    In (Ev (SessionRun "docker volume create shared") (RunOk "")) es /\
    In (Ev (SessionRun ("docker run --rm -v shared:/data -v /tmp/volume-migration-1:/backup "
                        +:+ "alpine tar xzf /backup/shared.tar.gz -C /data")) (RunOk "")) es.
Proof.
  assert (fst scenario.import_run = Ret None) as Hrun by (vm_compute; reflexivity).
  split; [exact Hrun |].
  destruct (ImportVolumes_success (H := scenario.lib) scenario.client scenario.archives
              "/tmp/volume-migration-1" scenario.quiet [] Hrun) as (es & Hes & Himp).
  exists es. split; [exact Hes |].
  cbn [app] in Hes. subst es. vm_compute. auto 10.
Defined.



(** ** What the workflow never does *)

Lemma avoids_ret p {A} (a : A) : avoids p (mret a).
Proof. intros o t. exists []. by rewrite app_nil_r. Qed.

Lemma avoids_panic p {A} msg : avoids p (panic (A := A) msg).
Proof. intros o t. exists []. by rewrite app_nil_r. Qed.

Lemma avoids_bind p {A B} (m : M A) (f : A -> M B) :
  avoids p m -> (forall a, avoids p (f a)) -> avoids p (m ≫= f).
Proof.
  intros Hm Hf o t. rewrite run_bind.
  destruct (Hm o t) as (es & Hes & Hq). destruct (m o t) as [[a | msg] t']; cbn in Hes; subst t'.
  - destruct (Hf a o (t ++ es)) as (es' & Hes' & Hq'). exists (es ++ es').
    rewrite Hes', app_assoc, existsb_app, Hq, Hq'. done.
  - exists es. done.
Qed.

Lemma avoids_call p {R} (c : Call R) :
  (forall r, p (Ev c r) = false) -> avoids p (call c).
Proof.
  intros Hc o t. rewrite run_call. eexists [_]. split; [reflexivity |].
  cbn [existsb]. by rewrite Hc.
Qed.

Lemma avoids_defer p {A} (d : M unit) (body : M A) :
  avoids p body -> avoids p d -> avoids p (defer d body).
Proof.
  intros Hbody Hd o t. rewrite run_defer.
  destruct (Hbody o t) as (es & Hes & Hq). rewrite Hes.
  destruct (Hd o (t ++ es)) as (es' & Hes' & Hq').
  exists (es ++ es'). split; [| by rewrite existsb_app, Hq, Hq'].
  destruct (d o (t ++ es)) as [[[] | msg] t'']; cbn [snd] in *; by rewrite Hes', app_assoc.
Qed.

(** One step of a proof that a piece of code avoids some calls: through
    the binds and the case distinctions, down to the calls, which [leaf]
    settles. *)
Ltac avoid_step leaf :=
  match goal with
  | |- avoids _ (mret _) => apply avoids_ret
  | |- avoids _ (ret _) => apply avoids_ret
  | |- avoids _ (panic _) => apply avoids_panic
  | |- avoids _ (_ ≫= _) => apply avoids_bind; [| intros ?]
  | |- avoids _ (defer _ _) => apply avoids_defer
  | |- avoids _ (log _ _) => unfold log
  | |- avoids _ (logw _ _ _) => unfold logw
  | |- avoids _ (call _) => apply avoids_call; intros ?; leaf
  | |- avoids _ (match ?x with _ => _ end) => destruct x
  | |- avoids _ (if ?b then _ else _) => destruct b
  | |- avoids _ (let _ := _ in _) => cbv zeta
  end.

Ltac avoid leaf := repeat avoid_step leaf.

Section Avoiding.
Context `{GoLib} (p : Event -> bool).
Hypothesis p_log : forall lvl msg e r, p (Ev (Log lvl msg e) r) = false.
Hypothesis p_inspect : forall name r, p (Ev (DockerInspect name) r) = false.
Hypothesis p_size : forall name r, p (Ev (DockerVolumeSize name) r) = false.
Hypothesis p_statfs : forall path r, p (Ev (Statfs path) r) = false.
Hypothesis p_remote_space : forall path r, p (Ev (RemoteDiskSpace path) r) = false.
Hypothesis p_select : forall volumes r, p (Ev (UISelectVolumes volumes) r) = false.
Hypothesis p_display : forall volumes r, p (Ev (UIDisplayVolumeTable volumes) r) = false.

Lemma GetAllVolumesInfo_avoids c containerNames :
  avoids p (docker.GetAllVolumesInfo c containerNames).
Proof.
  assert (forall cn vols vm, avoids p (docker.volumes_loop c cn vols vm)) as Hinner.
  { intros cn vols. induction vols as [| v rest IH]; intros vm; cbn [docker.volumes_loop].
    - avoid auto.
    - unfold docker.GetVolumeMountPoints, docker.GetVolumeSize, docker.InspectContainer.
      avoid auto; apply IH. }
  assert (forall cns vm, avoids p (docker.containers_loop c cns vm)) as Houter.
  { intros cns. induction cns as [| cn rest IH]; intros vm; cbn [docker.containers_loop].
    - avoid auto.
    - unfold docker.ListVolumes, docker.InspectContainer.
      avoid auto; [apply Hinner | apply IH]. }
  unfold docker.GetAllVolumesInfo. avoid auto. apply Houter.
Qed.

Lemma validate_disk_space_avoids m volumes :
  avoids p (migrator.validate_disk_space m volumes).
Proof. unfold migrator.validate_disk_space, migrator.check_space. avoid auto. Qed.


Hypothesis p_mkdir : forall path perm r, p (Ev (OsMkdirAll path perm) r) = false.
Hypothesis p_stat : forall path r, p (Ev (OsStat path) r) = false.
Hypothesis p_docker_run : forall sudo args r, p (Ev (DockerRun sudo args) r) = false.
Hypothesis p_session : forall cmd r, p (Ev (SessionRun cmd) r) = false.
Hypothesis p_transfer : forall l r b a, p (Ev (SftpTransfer l r b) a) = false.
Hypothesis p_remove : forall path r, p (Ev (OsRemoveAll path) r) = false.

Lemma exportVolumes_avoids m dockerClient volumeNames :
  avoids p (migrator.exportVolumes m dockerClient volumeNames).
Proof.
  assert (forall dir vols paths,
            avoids p (migrator.ExportVolumes_loop dockerClient vols dir paths)) as Hloop.
  { intros dir vols. induction vols as [| v rest IH]; intros paths;
      cbn [migrator.ExportVolumes_loop].
    - avoid auto.
    - unfold migrator.ExportVolume. avoid auto; apply IH. }
  unfold migrator.exportVolumes, migrator.ExportVolumes. avoid auto. apply Hloop.
Qed.

Lemma Migrate_until_exported_avoids m dockerClient sshClient :
  avoids p (migrator.Migrate_until_exported m dockerClient sshClient).
Proof.
  unfold migrator.Migrate_until_exported, migrator.discoverVolumes.
  avoid auto;
    first [ apply GetAllVolumesInfo_avoids | apply validate_disk_space_avoids
          | apply exportVolumes_avoids ].
Qed.

Lemma transfer_and_import_avoids m sshClient archivePaths :
  avoids p (migrator.transfer_and_import m sshClient archivePaths).
Proof.
  assert (forall entries, avoids p (migrator.transfer_loop m entries)) as Htransfer.
  { induction entries as [| [name path] rest IH]; cbn [migrator.transfer_loop];
      avoid auto. apply IH. }
  assert (forall entries dir, avoids p (migrator.ImportVolumes_loop sshClient entries dir))
    as Himport.
  { induction entries as [| [name path] rest IH]; intros dir;
      cbn [migrator.ImportVolumes_loop].
    - avoid auto.
    - unfold migrator.ImportVolume, ssh.RunDockerCommand, ssh.RunCommand.
      avoid auto; apply IH. }
  unfold migrator.transfer_and_import, migrator.transferVolumes, migrator.importVolumes,
    migrator.ImportVolumes, ssh.CreateDirectory, ssh.RunCommand.
  avoid auto; first [apply Htransfer | apply Himport].
Qed.

Lemma cleanup_on_exit_avoids m sshClient : avoids p (migrator.cleanup_on_exit m sshClient).
Proof.
  unfold migrator.cleanup_on_exit, migrator.CleanupLocal, migrator.CleanupRemote,
    ssh.RemoveDirectory, ssh.RunCommand.
  avoid auto.
Qed.

Lemma Migrate_after_export_avoids m sshClient archivePaths :
  avoids p (migrator.Migrate_after_export m sshClient archivePaths).
Proof.
  unfold migrator.Migrate_after_export.
  avoid auto; first [apply transfer_and_import_avoids | apply cleanup_on_exit_avoids].
Qed.

End Avoiding.

(** X13.  [Migrate] closes the connection it has set up exactly once,
    as its last call, on every exit path after the connection (also when
    a later phase fails or panics), and makes no call to close it when
    no connection was set up. *)
Theorem Migrate_closes_connection `{GoLib} m (o : Oracle) :
  exists t0,
    snd (migrator.Migrate m o []) =
    t0 ++ (if existsb is_connected t0 then [Ev SSHClose (o _ t0 SSHClose)] else []) /\
    existsb is_close t0 = false.
Proof.
  unfold migrator.Migrate. run. traces.
  destruct (o _ _ DockerDetect) as [dockerClient | err] eqn:Hdocker; run.
  2: { match goal with |- exists t0, snd (_, ?tr) = _ /\ _ => exists tr end.
       split; [| reflexivity]. cbn [snd existsb is_connected orb]. by rewrite app_nil_r. }
  traces. destruct (o _ _ (SSHConnect _)) as [sshClient | err] eqn:Hssh; run.
  2: { match goal with |- exists t0, snd (_, ?tr) = _ /\ _ => exists tr end.
       split; [| reflexivity]. cbn [snd existsb is_connected orb]. by rewrite app_nil_r. }
  rewrite run_defer.
  match goal with
  | |- context [ (?body o ?t1).2 ] =>
      assert (avoids is_close body) as Hquiet;
      [| destruct (Hquiet o t1) as (es & Hes & Hnone); rewrite Hes; set (start := t1) in * ]
  end.
  { avoid ltac:(reflexivity).
    - apply Migrate_until_exported_avoids; reflexivity.
    - apply Migrate_after_export_avoids; reflexivity. }
  run. cbn [snd]. exists (start ++ es).
  assert (existsb is_connected (start ++ es) = true) as ->.
  { rewrite existsb_app. subst start. reflexivity. }
  split; [reflexivity |].
  rewrite existsb_app, Hnone. subst start. reflexivity.
Qed.



Lemma transfer_and_import_cleanup_free `{GoLib} m sshClient archivePaths :
  avoids is_cleanup (migrator.transfer_and_import m sshClient archivePaths).
Proof.
  assert (forall entries, avoids is_cleanup (migrator.transfer_loop m entries)) as Htransfer.
  { induction entries as [| [name path] rest IH]; cbn [migrator.transfer_loop];
      avoid ltac:(reflexivity). apply IH. }
  assert (forall entries dir,
            avoids is_cleanup (migrator.ImportVolumes_loop sshClient entries dir)) as Himport.
  { induction entries as [| [name path] rest IH]; intros dir;
      cbn [migrator.ImportVolumes_loop].
    - avoid ltac:(reflexivity).
    - unfold migrator.ImportVolume, ssh.RunDockerCommand, ssh.RunCommand.
      cbn [fold_left]. destruct (ssh_types.remoteSudo sshClient);
        avoid ltac:(reflexivity); apply IH. }
  unfold migrator.transfer_and_import, migrator.transferVolumes, migrator.importVolumes,
    migrator.ImportVolumes, ssh.CreateDirectory, ssh.RunCommand.
  avoid ltac:(reflexivity); first [apply Htransfer | apply Himport].
Qed.

(** X15.  With cleanup disabled ([NoCleanup]), [Migrate] makes no call of
    the cleanup step on any path: the local staging directory is not
    removed and no [rm -rf] is sent to the remote host. *)
Theorem Migrate_no_cleanup_when_disabled `{GoLib} m (o : Oracle) :
  migrator.NoCleanup m = true ->
  existsb is_cleanup (snd (migrator.Migrate m o [])) = false.
Proof.
  intros Hno. unfold migrator.Migrate. run. traces.
  destruct (o _ _ DockerDetect) as [dockerClient | err]; run; [| reflexivity].
  traces. destruct (o _ _ (SSHConnect _)) as [sshClient | err]; run; [| reflexivity].
  rewrite run_defer.
  match goal with
  | |- context [ (?body o ?t1).2 ] =>
      assert (avoids is_cleanup body) as Hquiet;
      [| destruct (Hquiet o t1) as (es & Hes & Hnone); rewrite Hes; set (start := t1) in * ]
  end.
  { unfold migrator.Migrate_after_export. rewrite Hno. cbn [negb].
    avoid ltac:(reflexivity).
    - apply Migrate_until_exported_cleanup_free.
    - apply transfer_and_import_cleanup_free. }
  run. cbn [snd]. rewrite !existsb_app, Hnone. subst start. reflexivity.
Qed.

Lemma Migrate_no_cleanup_when_disabled_witness :
  migrator.NoCleanup scenario.no_cleanup_config = true /\
  (exists e, fst scenario.no_cleanup_run = Ret (Some e) /\
             strings.HasPrefix (Error e) "failed to import volumes: " = true) /\
  existsb is_cleanup (snd scenario.no_cleanup_run) = false.
Proof.
  split; [reflexivity |]. split; [eexists; split; vm_compute; reflexivity |].
  exact (Migrate_no_cleanup_when_disabled (H := scenario.lib) scenario.no_cleanup_config
           scenario.import_fails eq_refl).
Defined.

(** X16.  The disk-space validation of [Migrate] returns without error
    exactly when every measurement that succeeded, of the local staging
    directory or of the remote one, reports at least the required number
    of available bytes; a measurement that fails does not block the
    migration. *)
Theorem validate_disk_space_passes `{GoLib} m volumes (o : Oracle) (t : Trace) :
  exists es,
    snd (migrator.validate_disk_space m volumes o t) = t ++ es /\
    (fst (migrator.validate_disk_space m volumes o t) = Ret None <->
     Forall (fun space => required_space volumes <= Available space) (measurements es)).
Proof.
  unfold migrator.validate_disk_space, migrator.check_space, utils.ValidateDiskSpace.
  fold (required_space volumes).
  destruct (migrator.Verbose m); run;
    (destruct (o _ _ (Statfs _)) as [localSpace | err]; run;
     [destruct (Z.ltb_spec (Available localSpace) (required_space volumes)); run |]);
    try (destruct (o _ _ (RemoteDiskSpace _)) as [remoteSpace | err']; run;
         [destruct (Z.ltb_spec (Available remoteSpace) (required_space volumes)); run |]);
    traces; (eexists; split; [reflexivity |]); cbn [fst];
    unfold measurements; cbn [omap list_omap measurement];
    rewrite ?Forall_cons, ?Forall_nil;
    (split; [try discriminate; intros _; repeat split; lia | try done; intros; lia]).
Qed.

(** ** Parsing the remote host *)

Section HostPort.
Import sshclient.

Lemma Contains_char_cons c d s :
  strings.Contains (String d s) (String c EmptyString)
  = Ascii.eqb d c || strings.Contains s (String c EmptyString).
Proof.
  cbn [strings.Contains]. rewrite HasPrefix_char.
  destruct (Ascii.eqb_spec d c) as [-> | Hne].
  - by rewrite bool_decide_eq_true_2.
  - rewrite bool_decide_eq_false_2; [done | congruence].
Qed.

Lemma Contains_char_nil c : strings.Contains EmptyString (String c EmptyString) = false.
Proof. reflexivity. Qed.

Lemma Contains_char_app c a b :
  strings.Contains (a +:+ b) (String c EmptyString)
  = strings.Contains a (String c EmptyString) || strings.Contains b (String c EmptyString).
Proof.
  induction a as [| d a IH]; [by rewrite append_nil, Contains_char_nil |].
  rewrite append_cons, !Contains_char_cons, IH. by rewrite orb_assoc.
Qed.

(** The loop finds nothing exactly when the byte does not occur; what it
    finds is the place of the first occurrence. *)
Lemma find_from_absent c s i :
  strings.Contains s (String c EmptyString) = false -> find_from c s i = -1.
Proof.
  revert i. induction s as [| d s IH]; intros i; [done |].
  rewrite Contains_char_cons. intros [Hd Hs]%orb_false_iff.
  cbn [find_from]. rewrite Hd. by apply IH.
Qed.

Lemma find_from_first c a b i :
  strings.Contains a (String c EmptyString) = false ->
  find_from c (a +:+ String c b) i = i + Z.of_nat (String.length a).
Proof.
  revert i. induction a as [| d a IH]; intros i.
  - intros _. rewrite append_nil. cbn [find_from String.length].
    rewrite Ascii.eqb_refl. lia.
  - rewrite Contains_char_cons. intros [Hd Ha]%orb_false_iff.
    rewrite append_cons. cbn [find_from String.length]. rewrite Hd, IH by done. lia.
Qed.

Lemma find_from_inv c s i :
  0 <= i ->
  (find_from c s i = -1 /\ strings.Contains s (String c EmptyString) = false) \/
  (exists a b, s = a +:+ String c b /\ strings.Contains a (String c EmptyString) = false /\
               find_from c s i = i + Z.of_nat (String.length a)).
Proof.
  revert i. induction s as [| d s IH]; intros i Hi; [by left |].
  cbn [find_from]. rewrite Contains_char_cons.
  destruct (Ascii.eqb_spec d c) as [-> | Hne].
  - right. exists EmptyString, s. cbn. split; [done |]. split; [done | lia].
  - destruct (IH (i + 1)) as [[Hnone Habs] | (a & b & -> & Habs & Hfound)]; [lia | by left |].
    right. exists (String d a), b. rewrite append_cons, Contains_char_cons.
    split; [done |]. split.
    + apply orb_false_iff. split; [by apply Ascii.eqb_neq | done].
    + rewrite Hfound. cbn [String.length]. lia.
Qed.

Lemma upto_app a b : upto (Z.of_nat (String.length a)) (a +:+ b) = a.
Proof.
  unfold upto. rewrite Nat2Z.id. induction a as [| d a IH]; [by destruct b |].
  rewrite append_cons. cbn [String.length substring]. by rewrite IH.
Qed.

Lemma from_app a c b : from (Z.of_nat (String.length a) + 1) (a +:+ String c b) = b.
Proof.
  unfold from. replace (Z.to_nat (Z.of_nat (String.length a) + 1)) with (S (String.length a))
    by lia.
  induction a as [| d a IH]; [done |]. rewrite append_cons. cbn [String.length].
  exact IH.
Qed.

Lemma parseHostPort_at getenv user rest :
  strings.Contains user "@" = false ->
  parseHostPort getenv (user +:+ "@" +:+ rest) =
  let colon := findColon rest in
  let host := if negb (colon =? -1) then upto colon rest else rest in
  let port := if negb (colon =? -1) then from (colon + 1) rest else "22" in
  if String.eqb user "" then
    (user, host, port, Some (errorString "could not determine username"))
  else if String.eqb host "" then
    (user, host, port, Some (errorString "host cannot be empty"))
  else (user, host, port, None).
Proof.
  intros Huser. unfold parseHostPort, findAt.
  change ("@" +:+ rest) with (String "@" rest).
  rewrite (find_from_first "@" user rest 0 Huser), Z.add_0_l.
  replace (Z.of_nat (String.length user) =? -1) with false by (symmetry; apply Z.eqb_neq; lia).
  cbn [negb]. by rewrite upto_app, from_app.
Qed.

End HostPort.

(** X17.  [parseHostPort] reads back what was put together: for a user
    name that is not empty and holds no '@' and a host that is not empty
    and holds no ':', the string user@host:port gives the three parts,
    and user@host gives the user, the host and port 22; the environment
    is not consulted. *)
Theorem parseHostPort_roundtrip getenv user host port :
  user <> EmptyString -> host <> EmptyString ->
  strings.Contains user "@" = false -> strings.Contains host ":" = false ->
  sshclient.parseHostPort getenv (user +:+ "@" +:+ host +:+ ":" +:+ port)
  = (user, host, port, None) /\
  sshclient.parseHostPort getenv (user +:+ "@" +:+ host) = (user, host, "22", None).
Proof.
  intros Huser Hhost Hat Hcolon.
  assert (String.eqb user "" = false) as Hu by (by apply String.eqb_neq).
  assert (String.eqb host "" = false) as Hh by (by apply String.eqb_neq).
  split; rewrite parseHostPort_at by done; cbv zeta; unfold sshclient.findColon.
  - change (":" +:+ port) with (String ":" port).
    rewrite (find_from_first ":" host port 0 Hcolon), Z.add_0_l.
    replace (Z.of_nat (String.length host) =? -1) with false by (symmetry; apply Z.eqb_neq; lia).
    cbn [negb]. by rewrite upto_app, from_app, Hu, Hh.
  - rewrite (find_from_absent ":" host 0 Hcolon), Z.eqb_refl. cbn [negb]. by rewrite Hu, Hh.
Qed.

Lemma parseHostPort_roundtrip_witness :
  "deploy" <> EmptyString /\ "backup.example.com" <> EmptyString /\
  strings.Contains "deploy" "@" = false /\ strings.Contains "backup.example.com" ":" = false /\
  sshclient.parseHostPort scenario.getenv "deploy@backup.example.com:2222"
  = ("deploy", "backup.example.com", "2222", None) /\
  sshclient.parseHostPort scenario.getenv "deploy@backup.example.com"
  = ("deploy", "backup.example.com", "22", None).
Proof.
  assert ("deploy" <> EmptyString) as H1 by discriminate.
  assert ("backup.example.com" <> EmptyString) as H2 by discriminate.
  assert (strings.Contains "deploy" "@" = false) as H3 by reflexivity.
  assert (strings.Contains "backup.example.com" ":" = false) as H4 by reflexivity.
  split; [exact H1 | split; [exact H2 | split; [exact H3 | split; [exact H4 |]]]].
  exact (parseHostPort_roundtrip scenario.getenv "deploy" "backup.example.com" "2222"
           H1 H2 H3 H4).
Defined.

(** X18.  What [parseHostPort] returns for a string with an '@' is a
    decomposition of the string: the user is what stands before the
    first '@', the host what follows up to the first ':' after it, the
    port the rest, or 22 when there is no ':'; neither is empty, the user
    holds no '@' and the host no ':'. *)
Theorem parseHostPort_decomposes getenv hostStr user host port :
  strings.Contains hostStr "@" = true ->
  sshclient.parseHostPort getenv hostStr = (user, host, port, None) ->
  user <> EmptyString /\ host <> EmptyString /\
  strings.Contains user "@" = false /\ strings.Contains host ":" = false /\
  (hostStr = user +:+ "@" +:+ host +:+ ":" +:+ port \/
   (hostStr = user +:+ "@" +:+ host /\ port = "22")).
Proof.
  intros Hat.
  destruct (find_from_inv "@" hostStr 0) as [[_ Habs] | (u & rest & -> & Hu & _)];
    [lia | congruence |].
  change (u +:+ String "@" rest) with (u +:+ "@" +:+ rest).
  rewrite parseHostPort_at by done. cbv zeta. unfold sshclient.findColon.
  destruct (String.eqb_spec u "") as [-> | Hune]; [discriminate |].
  destruct (find_from_inv ":" rest 0) as [[Hnone Habs] | (h & p & -> & Hh & Hfound)]; [lia | |].
  - rewrite Hnone, Z.eqb_refl. cbn [negb].
    destruct (String.eqb_spec rest "") as [-> | Hrne]; [discriminate |].
    intros [= <- <- <-]. auto 10.
  - rewrite Hfound, Z.add_0_l.
    replace (Z.of_nat (String.length h) =? -1) with false by (symmetry; apply Z.eqb_neq; lia).
    cbn [negb]. rewrite upto_app, from_app.
    destruct (String.eqb_spec h "") as [-> | Hhne]; [discriminate |].
    intros [= <- <- <-]. repeat split; try done. by left.
Qed.

Lemma parseHostPort_decomposes_witness :
  strings.Contains "ops@[fe80::1]:22" "@" = true /\
  sshclient.parseHostPort scenario.getenv "ops@[fe80::1]:22" = ("ops", "[fe80", ":1]:22", None) /\
  "ops@[fe80::1]:22" = "ops" +:+ "@" +:+ "[fe80" +:+ ":" +:+ ":1]:22".
Proof.
  assert (strings.Contains "ops@[fe80::1]:22" "@" = true) as H1 by reflexivity.
  assert (sshclient.parseHostPort scenario.getenv "ops@[fe80::1]:22"
          = ("ops", "[fe80", ":1]:22", None)) as H2 by reflexivity.
  split; [exact H1 | split; [exact H2 |]].
  destruct (parseHostPort_decomposes scenario.getenv _ _ _ _ H1 H2)
    as (_ & _ & _ & _ & [Hs | [Hs Hp]]); [exact Hs | discriminate Hp].
Defined.

(** ** Detecting sudo on the remote host *)

(** X19.  [detectRemoteSudo] tries [docker ps] first and asks for sudo
    only when that failed: when it returns without error, the client's
    flag is set exactly when the plain command failed (and then
    [sudo -n docker ps] succeeded), the second command was not sent if
    the first succeeded, and every docker command the client sends
    afterwards starts with [sudo docker] or [docker] accordingly. *)
Theorem detectRemoteSudo_decides_prefix c c' (o : Oracle) (t : Trace) :
  fst (sshclient.detectRemoteSudo c o t) = Ret (c', None) ->
  let plain := o _ t (SessionRun "docker ps") in
  ssh_types.remoteSudo c' = bool_decide (session_error plain <> None) /\
  (session_error plain = None ->
   snd (sshclient.detectRemoteSudo c o t) = t ++ [Ev (SessionRun "docker ps") plain]) /\
  (session_error plain <> None ->
   exists out,
     snd (sshclient.detectRemoteSudo c o t) =
     t ++ [Ev (SessionRun "docker ps") plain;
           Ev (SessionRun "sudo -n docker ps") (RunOk out)]) /\
  forall arg (o' : Oracle) (t' : Trace),
    let cmd := (if bool_decide (session_error plain <> None) then "sudo docker" else "docker")
               +:+ " " +:+ arg in
    snd (ssh.RunDockerCommand c' [arg] o' t') = t' ++ [Ev (SessionRun cmd) (o' _ t' (SessionRun cmd))].
Proof.
  intros Hrun plain. revert Hrun.
  unfold sshclient.detectRemoteSudo. run. rewrite RunCommand_run. fold plain.
  assert (forall b (c0 : ssh_types.Client) arg (o' : Oracle) (t' : Trace),
            ssh_types.remoteSudo c0 = b ->
            snd (ssh.RunDockerCommand c0 [arg] o' t') =
            t' ++ [Ev (SessionRun ((if b then "sudo docker" else "docker") +:+ " " +:+ arg))
                      (o' _ t' (SessionRun ((if b then "sudo docker" else "docker")
                                            +:+ " " +:+ arg)))]) as Hcmd.
  { intros b c0 arg o' t' <-. rewrite RunDockerCommand_run, RunCommand_run. reflexivity. }
  destruct plain as [e | e s | out] eqn:Hplain; cbn [session_error]; run.
  - rewrite RunCommand_run.
    destruct (o _ _ (SessionRun "sudo -n docker ps")) as [e' | e' s' | out'] eqn:Hsudo;
      cbn [session_error]; run; cbn [fst snd]; intros [= <-].
    rewrite bool_decide_eq_true_2 by done. split; [done |]. split; [done |].
    split; [intros _; exists out'; by rewrite <- app_assoc |].
    intros arg o' t'. cbv zeta. by apply (Hcmd true).
  - rewrite RunCommand_run.
    destruct (o _ _ (SessionRun "sudo -n docker ps")) as [e' | e' s' | out'] eqn:Hsudo;
      cbn [session_error]; run; cbn [fst snd]; intros [= <-].
    rewrite bool_decide_eq_true_2 by done. split; [done |]. split; [done |].
    split; [intros _; exists out'; by rewrite <- app_assoc |].
    intros arg o' t'. cbv zeta. by apply (Hcmd true).
  - cbn [fst snd]. intros [= <-]. rewrite bool_decide_eq_false_2 by (intros Hne; by apply Hne).
    split; [done |]. split; [done |]. split; [intros Hne; by destruct Hne |].
    intros arg o' t'. cbv zeta. by apply (Hcmd false).
Qed.

Lemma detectRemoteSudo_decides_prefix_witness :
  fst (sshclient.detectRemoteSudo scenario.client scenario.needs_sudo [])
  = Ret ({| ssh_types.host := "backup.example.com:22"; ssh_types.remoteSudo := true |}, None) /\
  snd (ssh.RunDockerCommand
         {| ssh_types.host := "backup.example.com:22"; ssh_types.remoteSudo := true |}
         ["volume create shared"] scenario.needs_sudo [])
  = [Ev (SessionRun "sudo docker volume create shared") (RunOk "")].
Proof.
  assert (fst (sshclient.detectRemoteSudo scenario.client scenario.needs_sudo [])
          = Ret ({| ssh_types.host := "backup.example.com:22";
                    ssh_types.remoteSudo := true |}, None)) as Hrun by reflexivity.
  split; [exact Hrun |].
  destruct (detectRemoteSudo_decides_prefix _ _ _ _ Hrun) as (_ & _ & _ & Hcmd).
  rewrite (Hcmd "volume create shared" scenario.needs_sudo []). reflexivity.
Defined.

(** ** The volume table *)

Section Truncate.
Import sshclient.




End Truncate.



(** ** Checking the configuration *)

Section Validate.
Import validate.

Lemma Split_nonempty s sep : Split s sep <> [].
Proof.
  induction s as [| c s IH]; [done |]. cbn [Split].
  destruct (Ascii.eqb c sep); [done |]. by destruct (Split s sep).
Qed.

Lemma Split_one s sep x :
  Split s sep = [x] <-> s = x /\ strings.Contains s (String sep EmptyString) = false.
Proof.
  revert x. induction s as [| c s IH]; intros x.
  - cbn [Split]. split; [by intros [= <-] | by intros [<- _]].
  - cbn [Split]. rewrite Contains_char_cons. destruct (Ascii.eqb c sep) eqn:Hc.
    + split; [| by intros [_ ?]]. intros [= <- Hrest]. by destruct (Split_nonempty s sep).
    + cbn [orb]. destruct (Split s sep) as [| part parts] eqn:Hsplit.
      { by destruct (Split_nonempty s sep). }
      split.
      * intros [= <- ->]. destruct (proj1 (IH part) eq_refl) as [-> Hno]. done.
      * intros [<- Hno]. pose proof (proj2 (IH s) (conj eq_refl Hno)) as Hone.
        by injection Hone as -> ->.
Qed.

Lemma Split_two s sep u h :
  Split s sep = [u; h] <->
  s = u +:+ String sep h /\
  strings.Contains u (String sep EmptyString) = false /\
  strings.Contains h (String sep EmptyString) = false.
Proof.
  revert u. induction s as [| c s IH]; intros u.
  - cbn [Split]. split; [done |]. intros [Heq _]. by destruct u.
  - cbn [Split]. destruct (Ascii.eqb_spec c sep) as [-> | Hne].
    + split.
      * intros [= <- Hrest]. apply Split_one in Hrest as [-> Hno]. done.
      * intros (Heq & Hu & Hh). destruct u as [| d u].
        -- rewrite append_nil in Heq. injection Heq as ->.
           f_equal. apply Split_one. done.
        -- rewrite append_cons in Heq. injection Heq as <- _.
           rewrite Contains_char_cons, Ascii.eqb_refl in Hu. done.
    + destruct (Split s sep) as [| part parts] eqn:Hsplit.
      { by destruct (Split_nonempty s sep). }
      split.
      * intros [= <- ->]. destruct (proj1 (IH part) eq_refl) as (-> & Hu & Hh).
        rewrite append_cons, Contains_char_cons. split; [done |]. split; [| done].
        apply orb_false_iff. split; [by apply Ascii.eqb_neq | done].
      * intros (Heq & Hu & Hh). destruct u as [| d u].
        -- rewrite append_nil in Heq. injection Heq as -> _. done.
        -- rewrite append_cons in Heq. injection Heq as <- ->.
           rewrite Contains_char_cons in Hu. apply orb_false_iff in Hu as [_ Hu].
           pose proof (proj2 (IH u) (conj eq_refl (conj Hu Hh))) as Htwo.
           by injection Htwo as -> ->.
Qed.

Lemma first_blank_none containers i :
  first_blank containers i = None <->
  forall container, In container containers -> blank container = false.
Proof.
  revert i. induction containers as [| c rest IH]; intros i; cbn [first_blank In].
  - split; [intros _ ? [] | done].
  - destruct (blank c) eqn:Hc.
    + split; [done |]. intros Hall. rewrite (Hall c) in Hc by auto. done.
    + rewrite IH. split; [intros Hall x [<- | Hin]; auto | auto].
Qed.

Lemma check_port_none config :
  check_port config = None <->
  migrator.SSHPort config = "" \/
  exists port, Atoi (migrator.SSHPort config) = Some port /\ 1 <= port <= 65535.
Proof.
  unfold check_port. destruct (String.eqb_spec (migrator.SSHPort config) "") as [-> | Hne];
    cbn [negb]; [split; auto |].
  destruct (Atoi (migrator.SSHPort config)) as [port |].
  - destruct (Z.ltb_spec port 1), (Z.ltb_spec 65535 port); cbn [orb].
    all: split; [ first [discriminate | intros _; right; exists port; split; [done | lia]] |].
    all: intros [? | (p & Hp & ?)]; [done |]; injection Hp as <-; try lia; done.
  - split; [done | intros [? | (p & ? & ?)]; done].
Qed.

Lemma check_flags_none config :
  check_flags config = None <->
  (migrator.TempDir config = "" \/ strings.HasPrefix (migrator.TempDir config) "/" = true) /\
  (migrator.RemoteTempDir config = "" \/
   strings.HasPrefix (migrator.RemoteTempDir config) "/" = true) /\
  migrator.StrictHostKeyChecking config && migrator.AcceptHostKey config = false.
Proof.
  unfold check_flags, IsAbs.
  destruct (String.eqb_spec (migrator.TempDir config) "") as [Ht | Ht];
    destruct (strings.HasPrefix (migrator.TempDir config) "/");
    destruct (String.eqb_spec (migrator.RemoteTempDir config) "") as [Hr | Hr];
    destruct (strings.HasPrefix (migrator.RemoteTempDir config) "/");
    destruct (migrator.StrictHostKeyChecking config && migrator.AcceptHostKey config);
    cbn [negb andb]; intuition discriminate.
Qed.

Lemma check_files_exist config (o : Oracle) (t : Trace) :
  (forall (t' : Trace) path, IsNotExist (err_of (o _ t' (OsStat path))) = false) ->
  fst (check_files config o t) = Ret None.
Proof.
  intros Hexist. unfold check_files.
  destruct (negb (String.eqb (migrator.SSHKeyPath config) "")); run; rewrite ?Hexist; run;
    destruct (negb (String.eqb (migrator.KnownHostsFile config) "")
              && migrator.StrictHostKeyChecking config); run; rewrite ?Hexist; run;
    reflexivity.
Qed.

End Validate.

(** X21.  When no file it looks for is missing, [ValidateConfig] accepts
    a configuration exactly when: there is a container and no container
    name is blank; the remote host is user@host with a single '@' and
    neither part blank; the port, if given, is a decimal number from 1
    to 65535; the temporary directories, if given, start with a slash;
    and strict checking and automatic acceptance of host keys are not
    both asked for. *)
Theorem ValidateConfig_accepts_well_formed config (o : Oracle) (t : Trace) :
  (forall (t' : Trace) path, IsNotExist (err_of (o _ t' (OsStat path))) = false) ->
  fst (validate.ValidateConfig config o t) = Ret None <-> well_formed config.
Proof.
  intros Hexist. unfold validate.ValidateConfig, well_formed.
  rewrite <- (first_blank_none _ 0), <- check_port_none.
  pose proof (check_flags_none config) as Hflags.
  destruct (migrator.Containers config) as [| c0 rest] eqn:Hcs; cbn [length Nat.eqb].
  { split; [discriminate | intros [? _]; done]. }
  destruct (validate.first_blank (c0 :: rest) 0) as [i |].
  { split; [discriminate | intros (_ & ? & _); done]. }
  destruct (String.eqb_spec (migrator.RemoteHost config) "") as [Hempty | Hne].
  { split; [discriminate |]. intros (_ & _ & (user & hostPart & Heq & _) & _).
    rewrite Hempty in Heq. by destruct user. }
  destruct (strings.Contains (migrator.RemoteHost config) "@") eqn:Hat; cbn [negb].
  2: { split; [discriminate |]. intros (_ & _ & (user & hostPart & Heq & _) & _).
       rewrite Heq, Contains_char_app in Hat.
       change ("@" +:+ hostPart) with (String "@" hostPart) in Hat.
       rewrite Contains_char_cons in Hat. cbn in Hat. by rewrite orb_true_r in Hat. }
  destruct (validate.Split (migrator.RemoteHost config) "@") as [| u [| h [| x parts]]]
    eqn:Hsplit.
  - by destruct (Split_nonempty (migrator.RemoteHost config) "@").
  - split; [discriminate |]. intros (_ & _ & (user & hostPart & Heq & Hu & Hh & _) & _).
    assert (validate.Split (migrator.RemoteHost config) "@" = [user; hostPart]) as Htwo
      by (by apply Split_two). congruence.
  - apply Split_two in Hsplit as (Heq & Hu & Hh).
    destruct (validate.blank u) eqn:Hbu.
    { split; [discriminate |]. intros (_ & _ & (user & hostPart & Heq' & Hu' & Hh' & Hb & _) & _).
      assert (validate.Split (migrator.RemoteHost config) "@" = [user; hostPart]) as Htwo
        by (by apply Split_two).
      assert (validate.Split (migrator.RemoteHost config) "@" = [u; h]) as Htwo'
        by (by apply Split_two).
      congruence. }
    destruct (validate.blank h) eqn:Hbh.
    { split; [discriminate |].
      intros (_ & _ & (user & hostPart & Heq' & Hu' & Hh' & _ & Hb) & _).
      assert (validate.Split (migrator.RemoteHost config) "@" = [user; hostPart]) as Htwo
        by (by apply Split_two).
      assert (validate.Split (migrator.RemoteHost config) "@" = [u; h]) as Htwo'
        by (by apply Split_two).
      congruence. }
    destruct (validate.check_port config) as [e |].
    { split; [discriminate | intros (_ & _ & _ & ? & _); done]. }
    destruct (validate.check_flags config) as [e |].
    { split; [discriminate |]. intros (_ & _ & _ & _ & H1 & H2 & H3).
      destruct Hflags as [_ Hflags]. by specialize (Hflags (conj H1 (conj H2 H3))). }
    rewrite (check_files_exist config o t Hexist).
    split; [| done]. intros _. split; [done |]. split; [done |].
    split; [by exists u, h |]. split; [done |]. by apply Hflags.
  - split; [discriminate |]. intros (_ & _ & (user & hostPart & Heq & Hu & Hh & _) & _).
    assert (validate.Split (migrator.RemoteHost config) "@" = [user; hostPart]) as Htwo
      by (by apply Split_two). congruence.
Qed.

Lemma ValidateConfig_accepts_well_formed_witness :
  (forall (t' : Trace) path,
     IsNotExist (err_of (scenario.quiet _ t' (OsStat path))) = false) /\
  fst (validate.ValidateConfig scenario.config scenario.quiet []) = Ret None /\
  well_formed scenario.config.
Proof.
  assert (forall (t' : Trace) path,
            IsNotExist (err_of (scenario.quiet _ t' (OsStat path))) = false) as H
    by reflexivity.
  split; [exact H |].
  assert (fst (validate.ValidateConfig scenario.config scenario.quiet []) = Ret None) as Hrun
    by reflexivity.
  split; [exact Hrun |].
  exact (proj1 (ValidateConfig_accepts_well_formed scenario.config scenario.quiet [] H) Hrun).
Defined.
